(** * Whanos build orchestrator (src/orchestrator/main.py)

    A shallow embedding of the orchestrator script and the properties of
    its language detection, image selection, Dockerfile rendering and
    build pipeline.

    Python values are modelled as follows.
    - [str] is a sequence of Unicode code points: [list N].
    - [pathlib.Path] (always absolute here, [main] resolves the repository
      path) is the list of its components below the root.
    - the filesystem is a finite map from paths to nodes, [os.environ] a
      finite map from names to values.
    - code that only looks at the filesystem returns a value or an
      exception; code that prints, spawns processes or changes the
      filesystem lives in a state-and-exception monad [M]. *)

From Stdlib Require Import ZArith NArith List String Ascii Bool Lia.
From Stdlib Require Import DecimalString Sorted.
From stdpp Require Import base option list gmap.
Import ListNotations.

Set Warnings "-register-all".
Open Scope list_scope.

(** ** Python strings *)

Module Py.

Definition char := N.
Definition str := list char.

(** The code points of an ASCII literal of the source. *)
Definition lit (s : string) : str :=
  map N_of_ascii (list_ascii_of_string s).

(** [c.isspace()], the table of CPython's [_PyUnicode_IsWhitespace]. *)
Definition isspace (c : char) : bool :=
  ((9 <=? c) && (c <=? 13) || (28 <=? c) && (c <=? 32)
   || (c =? 133) || (c =? 160) || (c =? 5760)
   || (8192 <=? c) && (c <=? 8202)
   || (c =? 8232) || (c =? 8233) || (c =? 8239) || (c =? 8287)
   || (c =? 12288))%N.

Fixpoint lstrip (s : str) : str :=
  match s with
  | c :: s' => if isspace c then lstrip s' else s
  | [] => []
  end.

Definition rstrip (s : str) : str := rev (lstrip (rev s)).

(** [s.strip()] *)
Definition strip (s : str) : str := rstrip (lstrip s).

(** [sep.join(parts)] *)
Fixpoint join (sep : str) (parts : list str) : str :=
  match parts with
  | [] => []
  | [p] => p
  | p :: rest => p ++ sep ++ join sep rest
  end.

(** A literal of the source that holds double quotes, written here with
    an apostrophe (39) in place of each double quote (34). *)
Definition litq (s : string) : str :=
  map (fun c => if (c =? 39)%N then 34%N else c) (lit s).

(** [s.startswith(p)] *)
Fixpoint startswith (p s : str) : bool :=
  match p, s with
  | [], _ => true
  | a :: p', b :: s' => (a =? b)%N && startswith p' s'
  | _ :: _, [] => false
  end.

(** [needle in hay] on two strings: substring test. *)
Fixpoint contains (needle hay : str) : bool :=
  startswith needle hay
  || match hay with
     | [] => false
     | _ :: hay' => contains needle hay'
     end.

(** [s.split(sep)] for a one-character separator, as the non-empty list of
    the pieces; [split_on] carries the piece being read. *)
Fixpoint split_on (sep : char) (cur : str) (s : str) : list str :=
  match s with
  | [] => [rev cur]
  | c :: s' =>
      if (c =? sep)%N then rev cur :: split_on sep [] s'
      else split_on sep (c :: cur) s'
  end.

Definition split (sep : char) (s : str) : list str := split_on sep [] s.

(** What a file opened for reading in text mode does to the decoded
    characters (universal newlines): every ["\r\n"] and every lone ["\r"]
    becomes ["\n"]. *)
Fixpoint universal_newlines (s : str) : str :=
  match s with
  | [] => []
  | c :: rest =>
      if (c =? 13)%N then
        10%N :: match rest with
                | d :: rest' =>
                    if (d =? 10)%N then universal_newlines rest'
                    else universal_newlines rest
                | [] => universal_newlines rest
                end
      else c :: universal_newlines rest
  end.

(** [str(n)] for an integer. *)
Definition of_int (z : Z) : str := lit (NilZero.string_of_int (Z.to_int z)).

(** Truth value of a string and of an optional string ([None] and the
    empty string are false). *)
Definition truthy (s : str) : bool :=
  match s with [] => false | _ => true end.

Definition opt_truthy (o : option str) : bool :=
  match o with Some s => truthy s | None => false end.

End Py.

Abbreviation pystr := Py.str.
Notation "'s!' x" := (Py.lit x%string) (at level 1, x at level 0, format "'s!' x").
Notation "'q!' x" := (Py.litq x%string) (at level 1, x at level 0, format "'q!' x").

(** ** Paths and the filesystem *)

(** A path is the list of its components below the root. *)
Definition Path := list pystr.

(** [p / name] *)
Definition path_join (p : Path) (name : pystr) : Path := p ++ [name].
Notation "p </> s" := (path_join p s) (at level 40, left associativity).

(** [str(p)] *)
Definition path_str (p : Path) : pystr := s!"/" ++ Py.join s!"/" p.

(** The content of a regular file: the characters its bytes decode to,
    or bytes that the encoding used for the read cannot decode. *)
Inductive file_data :=
  | Text (s : pystr)
  | Undecodable.

(** What a path resolves to. [readable] is the read permission of the
    running user on a file, [searchable] the permission to look up names
    in a directory. *)
Inductive target :=
  | File (readable : bool) (data : file_data)
  | Directory (searchable : bool).

(** A directory entry: the object itself, or a symbolic link: one that
    leads to an object or nowhere (a dangling link), or one that cannot
    be followed, because its target lies below a directory that the
    running user may not search. *)
Inductive node :=
  | Plain (t : target)
  | Symlink (t : option target)
  | SymlinkBarred.

Abbreviation FS := (gmap Path node).

Definition resolve (fs : FS) (p : Path) : option target :=
  match fs !! p with
  | Some (Plain t) => Some t
  | Some (Symlink t) => t
  | Some SymlinkBarred => None
  | None => None
  end.

(** The paths above [p], from the root down. *)
Fixpoint ancestors (p : Path) : list Path :=
  match p with
  | [] => []
  | name :: rest => [] :: map (cons name) (ancestors rest)
  end.

(** [p] is a link that cannot be followed; [a] cannot be passed through,
    being such a link or a directory that the running user may not
    search; [p] lies below a path that cannot be passed through, so that
    no system call gets to its entry; and [p] cannot be reached: no
    system call gets to what it leads to. *)
Definition barred (fs : FS) (p : Path) : bool :=
  match fs !! p with
  | Some SymlinkBarred => true
  | _ => false
  end.

Definition locked (fs : FS) (a : Path) : bool :=
  barred fs a
  || match resolve fs a with
     | Some (Directory false) => true
     | _ => false
     end.

Definition blocked (fs : FS) (p : Path) : bool := existsb (locked fs) (ancestors p).

Definition unreachable (fs : FS) (p : Path) : bool := blocked fs p || barred fs p.

(** ** Exceptions *)

Inductive exn :=
  | OrchestratorError (msg : pystr)
  | OSError
  | FileNotFoundError
  | FileExistsError
  | IsADirectoryError
  | PermissionError
  | UnicodeDecodeError
  | AttributeError
  | TypeError.

(** [isinstance(e, OSError)] *)
Definition is_OSError (e : exn) : bool :=
  match e with
  | OSError | FileNotFoundError | FileExistsError | IsADirectoryError
  | PermissionError => true
  | _ => false
  end.

(** Code that returns or raises and leaves the state alone. *)
#[global] Instance result_ret : MRet (sum exn) := fun A a => inr a.
#[global] Instance result_bind : MBind (sum exn) :=
  fun A B k m => match m with inl e => inl e | inr a => k a end.

(** [os.stat(p)], which follows symbolic links, and [os.lstat(p)], which
    does not: a path that cannot be reached gives [EACCES], one that
    leads nowhere [ENOENT]. Other failures of the system call (an I/O
    error, a name that is too long) are not modelled. *)
Definition stat (fs : FS) (p : Path) : exn + target :=
  if unreachable fs p then inl PermissionError
  else
    match resolve fs p with
    | Some t => inr t
    | None => inl FileNotFoundError
    end.

Definition lstat (fs : FS) (p : Path) : exn + node :=
  if blocked fs p then inl PermissionError
  else
    match fs !! p with
    | Some n => inr n
    | None => inl FileNotFoundError
    end.

(** [_ignore_error] of pathlib: the errors [ENOENT], [ENOTDIR], [EBADF]
    and [ELOOP] count as "not there"; of those only the first arises
    here. Any other [OSError] is raised again. *)
Definition ignore_error (e : exn) : bool :=
  match e with FileNotFoundError => true | _ => false end.

(** [p.exists()], [p.is_symlink()], [p.is_dir()] *)
Definition exists_ (fs : FS) (p : Path) : exn + bool :=
  match stat fs p with
  | inr _ => inr true
  | inl e => if ignore_error e then inr false else inl e
  end.

Definition is_symlink (fs : FS) (p : Path) : exn + bool :=
  match lstat fs p with
  | inr (Symlink _) | inr SymlinkBarred => inr true
  | inr (Plain _) => inr false
  | inl e => if ignore_error e then inr false else inl e
  end.

Definition is_dir (fs : FS) (p : Path) : exn + bool :=
  match stat fs p with
  | inr (Directory _) => inr true
  | inr _ => inr false
  | inl e => if ignore_error e then inr false else inl e
  end.

(** [path_exists], main.py line 51: [is_symlink] is asked only when
    [exists] returned [False]. *)
Definition path_exists (fs : FS) (p : Path) : exn + bool :=
  found ← exists_ fs p;
  if found : bool then mret true else is_symlink fs p.

(** [p.read_text()]: the file is opened in text mode, so the decoded
    characters come back with their line endings translated. *)
Definition read_text (fs : FS) (p : Path) : exn + pystr :=
  match stat fs p with
  | inl e => inl e
  | inr (Directory _) => inl IsADirectoryError
  | inr (File false _) => inl PermissionError
  | inr (File true Undecodable) => inl UnicodeDecodeError
  | inr (File true (Text s)) => inr (Py.universal_newlines s)
  end.

(** ** Parsed JSON *)

(** The value [json.loads] returns. A [dict] is the list of its items in
    insertion order (its keys are distinct); of a [float] the code only
    ever asks whether it is zero. *)
Inductive json :=
  | JNone
  | JBool (b : bool)
  | JInt (z : Z)
  | JFloat (is_zero : bool)
  | JStr (s : pystr)
  | JList (items : list json)
  | JDict (items : list (pystr * json)).

(** [bool(v)] *)
Definition json_truthy (v : json) : bool :=
  match v with
  | JNone => false
  | JBool b => b
  | JInt z => negb (z =? 0)%Z
  | JFloat is_zero => negb is_zero
  | JStr s => Py.truthy s
  | JList items => match items with [] => false | _ => true end
  | JDict items => match items with [] => false | _ => true end
  end.

(** [d.get(key)] on the items of a dict: the value, or [None]. *)
Fixpoint dict_get (items : list (pystr * json)) (key : pystr) : json :=
  match items with
  | [] => JNone
  | (k, v) :: rest => if bool_decide (k = key) then v else dict_get rest key
  end.

(** [data.get(key)]: only a dict has the method. *)
Definition json_get (data : json) (key : pystr) : exn + json :=
  match data with
  | JDict items => inr (dict_get items key)
  | _ => inl AttributeError
  end.

(** [v == key] for a string [key]. *)
Definition json_eq_str (v : json) (key : pystr) : bool :=
  match v with
  | JStr s => bool_decide (s = key)
  | _ => false
  end.

(** [key in v] for a string [key]: key membership in a dict, element
    membership in a list, substring test in a string; the other values
    are not containers. *)
Definition json_contains (v : json) (key : pystr) : exn + bool :=
  match v with
  | JDict items => inr (existsb (fun kv => bool_decide (kv.1 = key)) items)
  | JList items => inr (existsb (fun x => json_eq_str x key) items)
  | JStr s => inr (Py.contains key s)
  | _ => inl TypeError
  end.

(** ** The world outside the script *)

(** One call of [subprocess.run]: the argument vector and what is fed to
    the standard input. *)
Record Invocation := {
  argv : list pystr;
  stdin : option pystr;
}.

(** How a spawned process ends: the program could not be started, or it
    ran to an exit status with its output. *)
Inductive ProcResult :=
  | NoSuchProgram
  | Completed (returncode : Z) (out err : pystr).

(** How the creation of the temporary file can go wrong: no file could
    be created, or the file was created and writing or closing it failed
    with [written] in it. Both raise an [OSError]. *)
Inductive TmpFault :=
  | CreationFails
  | WriteFails (written : pystr).

(** Everything the script reads from its surroundings and does not
    control: the environment, the JSON decoder of the standard library,
    the outcome of every external process and what the process makes of
    the filesystem it is started on (both may depend on the processes
    run before), whether creating the temporary file fails, whether the
    operating system refuses to delete a path, and the directory and
    random part of the temporary file name. *)
Record World := {
  environ : gmap pystr pystr;
  json_loads : pystr -> option json;
  spawn : list Invocation -> Invocation -> ProcResult;
  effect : list Invocation -> Invocation -> FS -> FS;
  tmp_fault : option TmpFault;
  unlink_denied : Path -> bool;
  tmp_dir : Path;
  tmp_random : pystr;
}.

(** What the script changes: the filesystem, the processes it has
    started (oldest first) and the lines printed on the two streams. *)
Inductive stream := Stdout | Stderr.

Record State := {
  fs : FS;
  trace : list Invocation;
  console : list (stream * pystr);
}.

(** ** The monad of the script *)

Definition M (A : Type) : Type := State -> (exn + A) * State.

Definition ret {A} (a : A) : M A := fun st => (inr a, st).
Definition raise {A} (e : exn) : M A := fun st => (inl e, st).
Definition bind {A B} (m : M A) (k : A -> M B) : M B :=
  fun st =>
    match m st with
    | (inr a, st') => k a st'
    | (inl e, st') => (inl e, st')
    end.

#[global] Instance M_ret : MRet M := @ret.
#[global] Instance M_bind : MBind M := fun A B k m => bind m k.

(** A pure computation that may raise. *)
Definition lift {A} (r : exn + A) : M A := fun st => (r, st).

Definition get_fs : M FS := fun st => (inr (fs st), st).

(** [print(line)] and [print(line, file=sys.stderr)] *)
Definition print (out : stream) (line : pystr) : M unit :=
  fun st =>
    (inr tt, {| fs := fs st; trace := trace st;
                console := console st ++ [(out, line)] |}).

(** [try: body finally: cleanup]: the cleanup runs on both exits; the
    outcome is the body's unless the cleanup itself raises. *)
Definition try_finally {A} (body : M A) (cleanup : M unit) : M A :=
  fun st =>
    match body st with
    | (r, st') =>
        match cleanup st' with
        | (inr _, st'') => (r, st'')
        | (inl e, st'') => (inl e, st'')
        end
    end.

(** [try: body except OSError: pass] *)
Definition suppress_OSError (body : M unit) : M unit :=
  fun st =>
    match body st with
    | (inl e, st') => if is_OSError e then (inr tt, st') else (inl e, st')
    | r => r
    end.

(** ** Language profiles (main.py lines 56-204) *)

Record LanguageConfig := {
  name : pystr;
  detector : FS -> Path -> exn + bool;
  base_image_env : pystr;
  default_base_image : pystr;
  test_command : World -> FS -> Path -> exn + option (list pystr);
  dockerfile_instructions : FS -> Path -> exn + list pystr;
}.

Definition detect_c (fs : FS) (repo_root : Path) : exn + bool :=
  path_exists fs (repo_root </> s!"Makefile").

Definition detect_java (fs : FS) (repo_root : Path) : exn + bool :=
  path_exists fs (repo_root </> s!"pom.xml").

Definition detect_javascript (fs : FS) (repo_root : Path) : exn + bool :=
  path_exists fs (repo_root </> s!"package.json").

Definition detect_python (fs : FS) (repo_root : Path) : exn + bool :=
  path_exists fs (repo_root </> s!"requirements.txt").

Definition detect_befunge (fs : FS) (repo_root : Path) : exn + bool :=
  path_exists fs (repo_root </> s!"app" </> s!"main.bf").

Definition test_command_none (_ : World) (_ : FS) (_ : Path)
  : exn + option (list pystr) := inr None.

Definition docker_steps_c (_ : FS) (_ : Path) : exn + list pystr :=
  inr [ s!"COPY . .";
        s!"RUN make";
        q!"CMD ['./compiled-app']" ].

Definition docker_steps_java (_ : FS) (_ : Path) : exn + list pystr :=
  inr [ s!"COPY . .";
        s!"RUN mvn -DskipTests package";
        q!"CMD ['java', '-jar', 'target/app.jar']" ].

Definition docker_steps_javascript (_ : FS) (_ : Path) : exn + list pystr :=
  inr [ s!"COPY package*.json ./";
        s!"RUN npm ci --omit=dev || npm install --production";
        s!"COPY . .";
        q!"CMD ['node', '.']" ].

Definition docker_steps_python (fs : FS) (repo_root : Path) : exn + list pystr :=
  let instructions := [] in
  let requirements := repo_root </> s!"requirements.txt" in
  found ← path_exists fs requirements;
  let instructions :=
    if found : bool then
      (instructions ++ [s!"COPY requirements.txt ./"])
        ++ [s!"RUN pip install --no-cache-dir -r requirements.txt"]
    else
      instructions
        ++ [s!"# requirements.txt missing; skipping dependency installation"] in
  let instructions := instructions ++ [s!"COPY . ."] in
  let instructions := instructions ++ [q!"CMD ['python', '-m', 'app']"] in
  mret instructions.

Definition docker_steps_befunge (_ : FS) (_ : Path) : exn + list pystr :=
  inr [ s!"COPY . .";
        q!"CMD ['befunge93', 'app/main.bf']" ].

Definition test_command_java (_ : World) (_ : FS) (_ : Path)
  : exn + option (list pystr) :=
  inr (Some [s!"mvn"; s!"test"]).

(** main.py lines 139-149. The [except] clause catches a missing file and
    a decoding failure of [json.loads]; any other exception of the read
    leaves the function. *)
Definition test_command_javascript (w : World) (fs : FS) (repo_root : Path)
  : exn + option (list pystr) :=
  let package_json := repo_root </> s!"package.json" in
  match read_text fs package_json with
  | inl FileNotFoundError => inr None
  | inl e => inl e
  | inr text =>
      match json_loads w text with
      | None => inr None
      | Some data =>
          match json_get data s!"scripts" with
          | inl e => inl e
          | inr v =>
              let scripts := if json_truthy v then v else JDict [] in
              match json_contains scripts s!"test" with
              | inl e => inl e
              | inr true =>
                  inr (Some [s!"npm"; s!"test"; s!"--"; s!"--watch=false"])
              | inr false => inr None
              end
          end
      end
  end.

(** [any(path_exists(marker) for marker in markers)]: the markers are
    examined in order, up to the first one that is there. *)
Fixpoint any_path_exists (fs : FS) (markers : list Path) : exn + bool :=
  match markers with
  | [] => inr false
  | marker :: rest =>
      found ← path_exists fs marker;
      if found : bool then mret true else any_path_exists fs rest
  end.

Definition test_command_python (_ : World) (fs : FS) (repo_root : Path)
  : exn + option (list pystr) :=
  let pytest_markers :=
    [ repo_root </> s!"tests";
      repo_root </> s!"test";
      repo_root </> s!"pytest.ini" ] in
  found ← any_path_exists fs pytest_markers;
  if found : bool then
    mret (Some [s!"python"; s!"-m"; s!"pytest"])
  else mret None.

(** The profiles of the registry (lines 164-203). *)
Definition config_c : LanguageConfig :=
  {| name := s!"c";
     detector := detect_c;
     base_image_env := s!"WHANOS_BASE_IMAGE_C";
     default_base_image := s!"whanos-c:latest";
     test_command := test_command_none;
     dockerfile_instructions := docker_steps_c |}.

Definition config_java : LanguageConfig :=
  {| name := s!"java";
     detector := detect_java;
     base_image_env := s!"WHANOS_BASE_IMAGE_JAVA";
     default_base_image := s!"whanos-java:latest";
     test_command := test_command_java;
     dockerfile_instructions := docker_steps_java |}.

Definition config_javascript : LanguageConfig :=
  {| name := s!"javascript";
     detector := detect_javascript;
     base_image_env := s!"WHANOS_BASE_IMAGE_JAVASCRIPT";
     default_base_image := s!"whanos-javascript:latest";
     test_command := test_command_javascript;
     dockerfile_instructions := docker_steps_javascript |}.

Definition config_python : LanguageConfig :=
  {| name := s!"python";
     detector := detect_python;
     base_image_env := s!"WHANOS_BASE_IMAGE_PYTHON";
     default_base_image := s!"whanos-python:latest";
     test_command := test_command_python;
     dockerfile_instructions := docker_steps_python |}.

Definition config_befunge : LanguageConfig :=
  {| name := s!"befunge";
     detector := detect_befunge;
     base_image_env := s!"WHANOS_BASE_IMAGE_BEFUNGE";
     default_base_image := s!"whanos-befunge:latest";
     test_command := test_command_none;
     dockerfile_instructions := docker_steps_befunge |}.

(** The registry, keyed by language, in the insertion order of the dict. *)
Definition LANGUAGE_CONFIGS : list (pystr * LanguageConfig) :=
  [ (s!"c", config_c);
    (s!"java", config_java);
    (s!"javascript", config_javascript);
    (s!"python", config_python);
    (s!"befunge", config_befunge) ].

(** ** Language detection (main.py lines 207-227) *)

Definition no_language_message : pystr :=
  s!"Unable to detect repository language. "
  ++ s!"Make sure the repo contains exactly one of: "
  ++ s!"Makefile, pom.xml, package.json, requirements.txt, app/main.bf.".

Definition ambiguous_message (langs : pystr) : pystr :=
  s!"Repository matches multiple language detectors: " ++ langs ++ s!". "
  ++ s!"Ensure it only meets one language criterion.".

(** The loop of lines 209-211; an exception of a detector ends it. *)
Fixpoint collect_matches (fs : FS) (repo_root : Path)
    (configs : list (pystr * LanguageConfig)) (matches : list (pystr * LanguageConfig))
  : exn + list (pystr * LanguageConfig) :=
  match configs with
  | [] => inr matches
  | (language, config) :: rest =>
      detected ← detector config fs repo_root;
      if detected : bool
      then collect_matches fs repo_root rest (matches ++ [(language, config)])
      else collect_matches fs repo_root rest matches
  end.

Definition detect_language (fs : FS) (repo_root : Path) : exn + LanguageConfig :=
  matches ← collect_matches fs repo_root LANGUAGE_CONFIGS [];
  match matches with
  | [] => inl (OrchestratorError no_language_message)
  | first :: others =>
      if (1 <? length matches)%nat then
        let langs := Py.join s!", " (map fst matches) in
        inl (OrchestratorError (ambiguous_message langs))
      else inr first.2
  end.

(** ** Base image (main.py lines 230-231) *)

(** [os.environ.get(key, default)] *)
Definition environ_get (w : World) (key : pystr) (default : pystr) : pystr :=
  match environ w !! key with
  | Some v => v
  | None => default
  end.

Definition resolve_base_image (w : World) (config : LanguageConfig) : pystr :=
  environ_get w (base_image_env config) (default_base_image config).

(** ** Running processes (main.py lines 27-48) *)

Definition nl : pystr := [10%N].

(** [subprocess.run(argv, input=stdin)]: the attempt is recorded, then the
    world decides how it ends. A program that cannot be started raises
    [FileNotFoundError] and touches nothing; a process that ran leaves
    the filesystem as the world says, whatever its exit status. *)
Definition subprocess_run (w : World) (inv : Invocation)
  : M (Z * pystr * pystr) :=
  fun st =>
    match spawn w (trace st) inv with
    | NoSuchProgram =>
        (inl FileNotFoundError,
         {| fs := fs st; trace := trace st ++ [inv]; console := console st |})
    | Completed rc out err =>
        (inr (rc, out, err),
         {| fs := effect w (trace st) inv (fs st); trace := trace st ++ [inv];
            console := console st |})
    end.

(** How an f-string shows a captured stream: its text, or [None] when the
    stream was not captured. *)
Definition show_captured (capture_output : bool) (text : pystr) : pystr :=
  if capture_output then text else s!"None".

(** [run_command]; no caller passes [cwd]. The result is the exit
    status. *)
Definition run_command (w : World) (command : list pystr)
    (check capture_output : bool) : M Z :=
  '(rc, out, err) ← subprocess_run w {| argv := command; stdin := None |};
  if check && negb (rc =? 0)%Z then
    raise (OrchestratorError
      (s!"Command failed with exit code " ++ Py.of_int rc ++ s!": "
       ++ Py.join s!" " command ++ nl
       ++ s!"stdout:" ++ nl ++ show_captured capture_output out ++ nl ++ nl
       ++ s!"stderr:" ++ nl ++ show_captured capture_output err))
  else mret rc.

(** ** The test stage (main.py lines 234-261) *)

Definition cmd_truthy (c : option (list pystr)) : bool :=
  match c with
  | Some (_ :: _) => true
  | _ => false
  end.

Definition build_test_in_container (w : World) (config : LanguageConfig)
    (repo_root : Path) (skip_tests : bool) : M unit :=
  if skip_tests then mret tt
  else
    cur ← get_fs;
    test_command ← lift (test_command config w cur repo_root);
    if negb (cmd_truthy test_command) then
      print Stdout (s!"No test command configured for " ++ name config
                    ++ s!"; skipping test phase.")
    else
      let test_command := default [] test_command in
      let base_image := resolve_base_image w config in
      let command :=
        [ s!"docker"; s!"run"; s!"--rm"; s!"-v";
          path_str repo_root ++ s!":/app"; s!"-w"; s!"/app"; base_image ]
        ++ test_command in
      print Stdout (s!"Running tests in " ++ base_image ++ s!": "
                    ++ Py.join s!" " test_command);;
      run_command w command true false;;
      mret tt.

(** ** Rendering the Dockerfile (main.py lines 264-285) *)

Definition header_line : pystr :=
  s!"# Generated by Whanos orchestrator. Do not edit.".
Definition begin_marker : pystr :=
  s!"# --- Begin repository-provided customizations ---".
Definition end_marker : pystr :=
  s!"# --- End repository-provided customizations ---".

Definition render_dockerfile (w : World) (cur : FS) (config : LanguageConfig)
    (repo_root : Path) (extra_snippet : option pystr) : exn + pystr :=
  let base_image := resolve_base_image w config in
  steps ← dockerfile_instructions config cur repo_root;
  let instructions :=
    [ header_line; s!"FROM " ++ base_image; s!"WORKDIR /app" ]
    ++ steps in
  let instructions :=
    match extra_snippet with
    | Some snippet =>
        if Py.truthy snippet then
          instructions ++ [ [] ] ++ [ begin_marker ] ++ [ Py.strip snippet ]
          ++ [ end_marker ]
        else instructions
    | None => instructions
    end in
  mret (Py.join nl instructions ++ nl).

(** ** Customization files (main.py lines 288-293) *)

(** The dict comprehension of line 293, over the items of [overrides]
    in order. *)
Fixpoint locate (cur : FS) (overrides : list (pystr * Path))
  : exn + list (pystr * option Path) :=
  match overrides with
  | [] => inr []
  | (name, path) :: rest =>
      found ← path_exists cur path;
      located ← locate cur rest;
      mret ((name, if found : bool then Some path else None) :: located)
  end.

(** The dict of the function, as the list of its items. *)
Definition locate_customizations (cur : FS) (repo_root : Path)
  : exn + list (pystr * option Path) :=
  let overrides :=
    [ (s!"override", repo_root </> s!"whanos" </> s!"Dockerfile.override");
      (s!"append", repo_root </> s!"whanos" </> s!"Dockerfile.append") ] in
  locate cur overrides.

(** [d[key]] on that dict; both keys read by [main] are always there. *)
Fixpoint getitem (d : list (pystr * option Path)) (key : pystr) : option Path :=
  match d with
  | [] => None
  | (k, v) :: rest => if bool_decide (k = key) then v else getitem rest key
  end.

(** ** Registry login (main.py lines 296-328) *)

Definition docker_login (w : World) (registry : option pystr) : M unit :=
  if negb (Py.opt_truthy registry) then mret tt
  else
    let registry := default [] registry in
    let username := environ w !! s!"WHANOS_REGISTRY_USERNAME" in
    let password := environ w !! s!"WHANOS_REGISTRY_PASSWORD" in
    if negb (Py.opt_truthy username) || negb (Py.opt_truthy password) then
      print Stderr
        s!"Registry credentials not provided; assuming docker login already performed."
    else
      let username := default [] username in
      let password := default [] password in
      print Stdout (s!"Logging into registry " ++ registry ++ s!" as " ++ username);;
      '(rc, _, err) ← subprocess_run w
          {| argv := [ s!"docker"; s!"login"; registry; s!"-u"; username;
                       s!"--password-stdin" ];
             stdin := Some password |};
      if negb (rc =? 0)%Z then
        raise (OrchestratorError
          (s!"Docker login failed for registry " ++ registry ++ s!": " ++ err))
      else mret tt.

(** ** Build and push (main.py lines 331-356) *)

(** [main] always passes a list for [build_args]; the guard of line 346
    only skips the loop over an empty one. *)

Definition build_image (w : World) (repo_root : Path) (dockerfile_path : Path)
    (image_ref : pystr) (build_args : list pystr) : M unit :=
  let command :=
    [ s!"docker"; s!"build"; s!"-f"; path_str dockerfile_path; s!"-t"; image_ref ] in
  let command :=
    command ++ flat_map (fun arg => [ s!"--build-arg"; arg ]) build_args in
  let command := command ++ [ path_str repo_root ] in
  print Stdout (s!"Building image " ++ image_ref);;
  run_command w command true false;;
  mret tt.

Definition push_image (w : World) (image_ref : pystr) : M unit :=
  print Stdout (s!"Pushing image " ++ image_ref);;
  run_command w [ s!"docker"; s!"push"; image_ref ] true false;;
  mret tt.

(** ** Registry of an image reference (main.py lines 395-401) *)

Definition slash : Py.char := 47%N.

Definition extract_registry (image_ref : pystr) : option pystr :=
  if negb (Py.contains s!"/" image_ref) then None
  else
    let registry_candidate := hd [] (Py.split slash image_ref) in
    if Py.contains s!"." registry_candidate
       || Py.contains s!":" registry_candidate
    then Some registry_candidate
    else None.

(** ** The pipeline (main.py lines 404-462) *)

(** The parsed command line. [repo] is the repository path after
    [Path(...).resolve()]. *)
Record Args := {
  repo : Path;
  image : pystr;
  skip_tests : bool;
  no_push : bool;
  build_args : list pystr;
  registry : option pystr;
}.

(** The name [tempfile.NamedTemporaryFile] picks with the suffix of
    line 426. *)
Definition tmp_name (w : World) : Path :=
  tmp_dir w </> (s!"tmp" ++ tmp_random w ++ s!".Dockerfile").

(** Lines 426-428: create the file, write the content, keep the path
    ([delete=False]). The file is opened with [O_EXCL], so an existing
    entry is never written over: [tmp_random] is the name the generator
    settles on, and where that name is taken no usable name is found. A
    file that could not be created is not there afterwards; one that
    could not be written in full stays, since the [with] block only
    closes it. The script runs on a POSIX system, where writing in text
    mode leaves ["\n"] as it is. *)
Definition named_temporary_file (w : World) (content : pystr) : M Path :=
  fun st =>
    let p := tmp_name w in
    let holding text :=
      {| fs := <[p := Plain (File true (Text text))]> (fs st);
         trace := trace st; console := console st |} in
    if blocked (fs st) p then (inl PermissionError, st)
    else
      match fs st !! p with
      | Some _ => (inl FileExistsError, st)
      | None =>
          match tmp_fault w with
          | Some CreationFails => (inl OSError, st)
          | Some (WriteFails written) => (inl OSError, holding written)
          | None => (inr p, holding content)
          end
      end.

(** [p.unlink(missing_ok=True)]: a missing path is fine, a path that
    cannot be reached or a directory cannot be unlinked, and the
    operating system may refuse. *)
Definition unlink (w : World) (p : Path) : M unit :=
  fun st =>
    if blocked (fs st) p then (inl PermissionError, st)
    else
      match fs st !! p with
      | None => (inr tt, st)
      | Some (Plain (Directory _)) => (inl IsADirectoryError, st)
      | Some _ =>
          if unlink_denied w p then (inl PermissionError, st)
          else (inr tt, {| fs := delete p (fs st); trace := trace st;
                           console := console st |})
      end.

(** Lines 414-424: the customization files and the text of the
    Dockerfile. *)
Definition dockerfile_content (w : World) (config : LanguageConfig)
    (repo_root : Path) : M pystr :=
  cur ← get_fs;
  customizations ← lift (locate_customizations cur repo_root);
  let dockerfile_override := getitem customizations s!"override" in
  let dockerfile_append := getitem customizations s!"append" in
  match dockerfile_override with
  | Some override =>
      content ← lift (read_text cur override);
      print Stdout (s!"Using repository-provided Dockerfile override: "
                    ++ path_str override);;
      mret content
  | None =>
      append_snippet ←
        match dockerfile_append with
        | Some p => text ← lift (read_text cur p); mret (Some text)
        | None => mret None
        end;
      lift (render_dockerfile w cur config repo_root append_snippet)
  end.

(** Line 433. *)
Definition effective_registry (args : Args) : option pystr :=
  if Py.opt_truthy (registry args) then registry args
  else extract_registry (image args).

(** Lines 431-446: the body of the [try]. *)
Definition pipeline_stages (w : World) (args : Args) (config : LanguageConfig)
    (repo_root tmp_path : Path) : M unit :=
  build_test_in_container w config repo_root (skip_tests args);;
  let registry := effective_registry args in
  docker_login w registry;;
  build_image w repo_root tmp_path (image args) (build_args args);;
  if negb (no_push args) then push_image w (image args)
  else print Stdout s!"Skipping image push (--no-push specified)".

(** Lines 448-451: the [finally] clause. *)
Definition cleanup (w : World) (tmp_path : Path) : M unit :=
  suppress_OSError (unlink w tmp_path).

(** Lines 407-428: everything before the [try]; returns the profile and
    the path of the temporary Dockerfile. *)
Definition prepare (w : World) (args : Args) : M (LanguageConfig * Path) :=
  let repo_root := repo args in
  cur ← get_fs;
  is_directory ← lift (is_dir cur repo_root);
  if negb is_directory then
    raise (OrchestratorError
             (s!"Repository path does not exist: " ++ path_str repo_root))
  else
    config ← lift (detect_language cur repo_root);
    print Stdout (s!"Detected language: " ++ name config);;
    content ← dockerfile_content w config repo_root;
    tmp_path ← named_temporary_file w content;
    mret (config, tmp_path).

Definition main (w : World) (args : Args) : M Z :=
  '(config, tmp_path) ← prepare w args;
  try_finally (pipeline_stages w args config (repo args) tmp_path)
              (cleanup w tmp_path);;
  print Stdout s!"Build pipeline completed successfully.";;
  mret 0%Z.

(** Lines 457-462: the exit status of the script. An
    [OrchestratorError] is reported on the error stream; any other
    exception ends the interpreter, also with status 1. *)
Definition script (w : World) (args : Args) (st : State) : Z * State :=
  match main w args st with
  | (inr code, st') => (code, st')
  | (inl (OrchestratorError msg), st') =>
      (1%Z, (print Stderr (s!"ERROR: " ++ msg) st').2)
  | (inl _, st') => (1%Z, st')
  end.

(** A state before the script has done anything. *)
Definition initial (cur : FS) : State :=
  {| fs := cur; trace := []; console := [] |}.

(** ** Vocabulary of the properties *)

(** [n] occurs in [h] as a contiguous run of characters. *)
Definition substring (n h : pystr) : Prop := exists a b, h = a ++ n ++ b.

(** The five marker files and the language each one signals, in the
    words of the specification. *)
Definition markers (repo_root : Path) : list (pystr * Path) :=
  [ (s!"c", repo_root </> s!"Makefile");
    (s!"java", repo_root </> s!"pom.xml");
    (s!"javascript", repo_root </> s!"package.json");
    (s!"python", repo_root </> s!"requirements.txt");
    (s!"befunge", repo_root </> s!"app" </> s!"main.bf") ].

Definition marker_names : list pystr :=
  [ s!"Makefile"; s!"pom.xml"; s!"package.json"; s!"requirements.txt";
    s!"app/main.bf" ].

Definition is_inr {A B} (r : A + B) : bool :=
  match r with inr _ => true | inl _ => false end.

(** The path could be examined: the check returned an answer. *)
Definition examined (cur : FS) (p : Path) : bool := is_inr (path_exists cur p).

(** The path was examined and something is there. *)
Definition present (cur : FS) (p : Path) : bool :=
  match path_exists cur p with inr found => found | inl _ => false end.

(** The languages whose marker is present. *)
Definition matching (cur : FS) (repo_root : Path) : list pystr :=
  map fst (List.filter (fun m => present cur m.2) (markers repo_root)).

(** [v is None] *)
Definition is_none (v : json) : bool :=
  match v with JNone => true | _ => false end.

(** A line of a Dockerfile that declares the runtime entry point. *)
Definition is_cmd (line : pystr) : bool := Py.startswith s!"CMD " line.

Definition dot : Py.char := 46%N.
Definition colon : Py.char := 58%N.

(** The descriptor with the append content kept verbatim between the
    markers, in the words of the specification's testable property. *)
Definition appended_verbatim (base content : pystr) : pystr :=
  base ++ nl ++ begin_marker ++ nl ++ content ++ nl ++ end_marker ++ nl.

(** [m] only ever moves the state along [R]. *)
Definition respects {A} (R : relation State) (m : M A) : Prop :=
  forall st, R st (m st).2.

(** [R] does not look at what was printed. *)
Class ConsoleBlind (R : relation State) : Prop :=
  console_blind : forall st c,
    R st {| fs := fs st; trace := trace st; console := c |}.

(** [R] tolerates a process that satisfies [Q], with whatever the
    process does to the filesystem. *)
Definition allows (w : World) (R : relation State) (Q : Invocation -> Prop) : Prop :=
  forall st inv, Q inv -> R st (subprocess_run w inv st).2.

(** The filesystem is left as it was. *)
Definition same_fs : relation State := fun st st' => fs st' = fs st.

(** The invocation [docker <sub> ...]. *)
Definition subcommand (sub : pystr) (inv : Invocation) : Prop :=
  exists rest, argv inv = s!"docker" :: sub :: rest.

(** The invocation of the test stage, [docker run ...] (line 249). *)
Definition is_test_run (inv : Invocation) : bool :=
  match argv inv with
  | prog :: sub :: _ => bool_decide (prog = s!"docker") && bool_decide (sub = s!"run")
  | _ => false
  end.

(** The processes started are those of before followed by ones that
    satisfy [P]. *)
Definition starts_only (P : Invocation -> Prop) : relation State :=
  fun st st' => exists l, trace st' = trace st ++ l /\ Forall P l.

(** What the process [inv], started after the history [h], makes of the
    filesystem [cur], and what the processes [l] started in that order
    make of it. *)
Definition process_effect (w : World) (h : list Invocation) (inv : Invocation)
    (cur : FS) : FS :=
  match spawn w h inv with
  | NoSuchProgram => cur
  | Completed _ _ _ => effect w h inv cur
  end.

Fixpoint replay (w : World) (h l : list Invocation) (cur : FS) : FS :=
  match l with
  | [] => cur
  | inv :: rest => replay w (h ++ [inv]) rest (process_effect w h inv cur)
  end.

(** Between the two states the filesystem changed only by what the
    processes started in between did to it. *)
Definition processes_only (w : World) : relation State :=
  fun st st' =>
    exists l, trace st' = trace st ++ l /\ fs st' = replay w (trace st) l (fs st).

(** What is left of [cur] after [p.unlink(missing_ok=True)], whether or
    not the call raised. *)
Definition unlinked (w : World) (p : Path) (cur : FS) : FS :=
  if blocked cur p then cur
  else
    match cur !! p with
    | None | Some (Plain (Directory _)) => cur
    | Some _ => if unlink_denied w p then cur else delete p cur
    end.

(** The two customization files (lines 290-291). *)
Definition override_path (repo_root : Path) : Path :=
  repo_root </> s!"whanos" </> s!"Dockerfile.override".
Definition append_path (repo_root : Path) : Path :=
  repo_root </> s!"whanos" </> s!"Dockerfile.append".

(** The [docker build] call of [build_image] (lines 338-349). *)
Definition build_invocation (repo_root dockerfile_path : Path) (image_ref : pystr)
    (bargs : list pystr) : Invocation :=
  {| argv :=
       ([ s!"docker"; s!"build"; s!"-f"; path_str dockerfile_path; s!"-t"; image_ref ]
        ++ flat_map (fun arg => [ s!"--build-arg"; arg ]) bargs)
       ++ [ path_str repo_root ];
     stdin := None |}.

(** The command the javascript profile runs its tests with (line 148). *)
Definition npm_test : list pystr := [ s!"npm"; s!"test"; s!"--"; s!"--watch=false" ].

(** ** Scenarios *)

Definition srv : Path := [ s!"srv"; s!"app" ].

Definition plain_file (text : pystr) : node := Plain (File true (Text text)).

(** A repository holding only a Makefile. *)
Definition fs_makefile : FS :=
  <[ srv := Plain (Directory true) ]>
    (<[ srv </> s!"Makefile" := plain_file s!"all:" ]> ∅).

(** An empty repository. *)
Definition fs_bare : FS := <[ srv := Plain (Directory true) ]> ∅.

(** A Makefile repository with a directory app/ that the running user
    may not search. *)
Definition fs_makefile_locked : FS :=
  <[ srv </> s!"app" := Plain (Directory false) ]> fs_makefile.

(** A repository holding both a pom.xml and a requirements.txt. *)
Definition fs_java_python : FS :=
  <[ srv </> s!"pom.xml" := plain_file s!"<project/>" ]>
    (<[ srv </> s!"requirements.txt" := plain_file s!"flask" ]> fs_bare).

(** A world in which every process succeeds silently and nothing is set. *)
Definition quiet : World :=
  {| environ := ∅;
     json_loads := fun _ => None;
     spawn := fun _ _ => Completed 0 [] [];
     effect := fun _ _ cur => cur;
     tmp_fault := None;
     unlink_denied := fun _ => false;
     tmp_dir := [ s!"tmp" ];
     tmp_random := s!"k3x9" |}.


(** The C base image variable names another image. *)
Definition world_custom_c : World :=
  {| environ := {[ s!"WHANOS_BASE_IMAGE_C" := s!"mirror.local/whanos-c:2" ]};
     json_loads := json_loads quiet;
     spawn := spawn quiet;
     effect := effect quiet;
     tmp_fault := tmp_fault quiet;
     unlink_denied := unlink_denied quiet;
     tmp_dir := tmp_dir quiet;
     tmp_random := tmp_random quiet |}.

(** A Makefile repository whose append file starts with two spaces
    and ends with a newline. *)
Definition indented_snippet : pystr := s!"  RUN make check" ++ nl.

Definition fs_append : FS :=
  <[ srv </> s!"whanos" </> s!"Dockerfile.append" := plain_file indented_snippet ]>
    fs_makefile.

(** A Makefile repository whose append file is empty. *)
Definition fs_append_empty : FS :=
  <[ srv </> s!"whanos" </> s!"Dockerfile.append" := plain_file [] ]> fs_makefile.

(** A Maven repository. *)
Definition fs_java : FS :=
  <[ srv </> s!"pom.xml" := plain_file s!"<project/>" ]> fs_bare.

(** Command lines for the repository [srv]. *)
Definition args_plain : Args :=
  {| repo := srv; image := s!"registry.example.com/org/app:1";
     skip_tests := false; no_push := false; build_args := []; registry := None |}.

Definition args_skip_tests : Args :=
  {| repo := srv; image := s!"registry.example.com/org/app:1";
     skip_tests := true; no_push := false; build_args := []; registry := None |}.

(** A Makefile repository with both customization files. *)
Definition override_text : pystr := s!"FROM scratch" ++ nl ++ s!"COPY app /app" ++ nl.

Definition fs_override : FS :=
  <[ override_path srv := plain_file override_text ]> fs_append.

(** A world in which the operating system refuses every deletion. *)
Definition world_denied : World :=
  {| environ := environ quiet;
     json_loads := json_loads quiet;
     spawn := spawn quiet;
     effect := effect quiet;
     tmp_fault := tmp_fault quiet;
     unlink_denied := fun _ => true;
     tmp_dir := tmp_dir quiet;
     tmp_random := tmp_random quiet |}.

(** A world in which the test run leaves a directory [target] in the
    repository it is given. *)
Definition world_tests_write : World :=
  {| environ := environ quiet;
     json_loads := json_loads quiet;
     spawn := spawn quiet;
     effect := fun _ inv cur =>
       if is_test_run inv then <[ srv </> s!"target" := Plain (Directory true) ]> cur
       else cur;
     tmp_fault := tmp_fault quiet;
     unlink_denied := unlink_denied quiet;
     tmp_dir := tmp_dir quiet;
     tmp_random := tmp_random quiet |}.

(** A world in which the disk fills up while the temporary file is
    written. *)
Definition world_disk_full : World :=
  {| environ := environ quiet;
     json_loads := json_loads quiet;
     spawn := spawn quiet;
     effect := effect quiet;
     tmp_fault := Some (WriteFails s!"# Generated by");
     unlink_denied := unlink_denied quiet;
     tmp_dir := tmp_dir quiet;
     tmp_random := tmp_random quiet |}.

(** A world in which [docker build] exits with status 2. *)
Definition world_build_fails : World :=
  {| environ := environ quiet;
     json_loads := json_loads quiet;
     spawn := fun _ inv =>
       if bool_decide (argv inv !! 1%nat = Some s!"build")
       then Completed 2 [] [] else Completed 0 [] [];
     effect := effect quiet;
     tmp_fault := tmp_fault quiet;
     unlink_denied := unlink_denied quiet;
     tmp_dir := tmp_dir quiet;
     tmp_random := tmp_random quiet |}.

(** A package manifest and the value it decodes to. *)
Definition manifest_text : pystr := q!"{'scripts': {'test': 'jest'}}".

Definition manifest_value : json :=
  JDict [ (s!"scripts", JDict [ (s!"test", JStr s!"jest") ]) ].

(** A world whose JSON decoder knows that manifest and rejects any other
    text. *)
Definition world_js : World :=
  {| environ := environ quiet;
     json_loads := fun text =>
       if bool_decide (text = manifest_text) then Some manifest_value else None;
     spawn := spawn quiet;
     effect := effect quiet;
     tmp_fault := tmp_fault quiet;
     unlink_denied := unlink_denied quiet;
     tmp_dir := tmp_dir quiet;
     tmp_random := tmp_random quiet |}.

(** Node repositories: a manifest with a test script, one that is not
    JSON, a dangling link, a manifest the user may not read, and a
    directory named package.json. *)
Definition fs_js : FS :=
  <[ srv </> s!"package.json" := plain_file manifest_text ]> fs_bare.

Definition fs_js_garbage : FS :=
  <[ srv </> s!"package.json" := plain_file s!"{scripts" ]> fs_bare.

Definition fs_js_dangling : FS :=
  <[ srv </> s!"package.json" := Symlink None ]> fs_bare.

Definition fs_js_unreadable : FS :=
  <[ srv </> s!"package.json" := Plain (File false (Text manifest_text)) ]> fs_bare.

Definition fs_js_directory : FS :=
  <[ srv </> s!"package.json" := Plain (Directory true) ]> fs_bare.

(** The same override with CR LF line endings, and an append file with
    a CR LF between its two lines. *)
Definition cr : pystr := [13%N].

Definition override_text_crlf : pystr :=
  s!"FROM scratch" ++ cr ++ nl ++ s!"COPY app /app" ++ cr ++ nl.

Definition fs_override_crlf : FS :=
  <[ override_path srv := plain_file override_text_crlf ]> fs_append.

Definition snippet_crlf : pystr := s!"RUN make check" ++ cr ++ nl ++ s!"RUN make lint".

Definition fs_append_crlf : FS :=
  <[ append_path srv := plain_file snippet_crlf ]> fs_makefile.

(** ** Vocabulary of the pipeline's processes *)

(** The [docker run] call of the test stage (lines 249-259). *)
Definition test_invocation (repo_root : Path) (base_image : pystr)
    (test_command : list pystr) : Invocation :=
  {| argv :=
       [ s!"docker"; s!"run"; s!"--rm"; s!"-v"; path_str repo_root ++ s!":/app";
         s!"-w"; s!"/app"; base_image ] ++ test_command;
     stdin := None |}.

(** The [docker login] call (lines 311-321). *)
Definition login_invocation (registry username password : pystr) : Invocation :=
  {| argv := [ s!"docker"; s!"login"; registry; s!"-u"; username;
               s!"--password-stdin" ];
     stdin := Some password |}.

(** The [docker push] call (line 356). *)
Definition push_invocation (image_ref : pystr) : Invocation :=
  {| argv := [ s!"docker"; s!"push"; image_ref ]; stdin := None |}.

(** Whether [docker_login] has a registry and both credentials. *)
Definition login_ready (w : World) (registry : option pystr) : bool :=
  Py.opt_truthy registry
  && Py.opt_truthy (environ w !! s!"WHANOS_REGISTRY_USERNAME")
  && Py.opt_truthy (environ w !! s!"WHANOS_REGISTRY_PASSWORD").

(** The stage a process belongs to, by its docker subcommand: 0 test,
    1 login, 2 build, 3 push, 4 anything else. *)
Definition stage_rank (inv : Invocation) : nat :=
  match argv inv with
  | _ :: sub :: _ =>
      if bool_decide (sub = s!"run") then 0
      else if bool_decide (sub = s!"login") then 1
      else if bool_decide (sub = s!"build") then 2
      else if bool_decide (sub = s!"push") then 3
      else 4
  | _ => 4
  end.

(** Every process of [l], started in that order after the history [h],
    ran to exit status 0. *)
Definition all_succeeded (w : World) (h l : list Invocation) : Prop :=
  forall l1 inv l2, l = l1 ++ inv :: l2 ->
    exists out err, spawn w (h ++ l1) inv = Completed 0 out err.

(** [m] extends the trace by some [l] that satisfies [S], told the
    history and whether [m] returned normally. *)
Definition emits {A} (S : list Invocation -> list Invocation -> bool -> Prop)
    (m : M A) : Prop :=
  forall st, exists l,
    trace (m st).2 = trace st ++ l /\ S (trace st) l (is_inr (m st).1).

(** A stage starts nothing, or one process that satisfies [Q]; when it
    started one and returned normally, the process exited with 0. *)
Definition stage_spec (w : World) (Q : Invocation -> Prop)
    (h l : list Invocation) (ok : bool) : Prop :=
  l = []
  \/ exists inv, l = [inv] /\ Q inv
       /\ (ok = true -> exists out err, spawn w h inv = Completed 0 out err).

(** The stages from number [k] on: processes in ascending stage order,
    all successful except possibly the last one of a failed run. *)
Definition tail_spec (w : World) (k : nat) (h l : list Invocation) (ok : bool)
  : Prop :=
  StronglySorted lt (map stage_rank l)
  /\ Forall (fun inv => k <= stage_rank inv < 4)%nat l
  /\ all_succeeded w h (if ok then l else removelast l).

(** The step does not start a process. *)
Definition silent_spec (h l : list Invocation) (ok : bool) : Prop := l = [].

(** The invocation [docker push ...]. *)
Definition is_push (inv : Invocation) : bool :=
  match argv inv with
  | prog :: sub :: _ => bool_decide (prog = s!"docker") && bool_decide (sub = s!"push")
  | _ => false
  end.

(** More command lines and worlds for the repository [srv]. *)
Definition args_no_push : Args :=
  {| repo := srv; image := s!"registry.example.com/org/app:1";
     skip_tests := false; no_push := true; build_args := [ s!"MODE=release" ];
     registry := None |}.

Definition world_credentials : World :=
  {| environ := {[ s!"WHANOS_REGISTRY_USERNAME" := s!"ci";
                   s!"WHANOS_REGISTRY_PASSWORD" := s!"hunter2" ]};
     json_loads := json_loads quiet;
     spawn := spawn quiet;
     effect := effect quiet;
     tmp_fault := tmp_fault quiet;
     unlink_denied := unlink_denied quiet;
     tmp_dir := tmp_dir quiet;
     tmp_random := tmp_random quiet |}.

Definition world_other_password : World :=
  {| environ := <[ s!"WHANOS_REGISTRY_PASSWORD" := s!"correct horse" ]>
                  (environ world_credentials);
     json_loads := json_loads quiet;
     spawn := fun _ _ => Completed 1 [] s!"denied";
     effect := effect quiet;
     tmp_fault := tmp_fault quiet;
     unlink_denied := unlink_denied quiet;
     tmp_dir := tmp_dir quiet;
     tmp_random := tmp_random quiet |}.

(** A repository whose Makefile is a dangling link, and one where it is
    a directory. *)
Definition fs_makefile_dangling : FS :=
  <[ srv </> s!"Makefile" := Symlink None ]> fs_bare.

Definition fs_makefile_directory : FS :=
  <[ srv </> s!"Makefile" := Plain (Directory true) ]> fs_bare.

(** A repository whose Makefile is a link into a directory that the
    running user may not search. *)
Definition fs_makefile_barred : FS :=
  <[ srv </> s!"Makefile" := SymlinkBarred ]> fs_bare.

(** * Manifest renderer (src/kubernetes/render_deployment.py)

    The values [yaml.safe_load] returns and the manifests the script
    builds are Python dicts, lists and scalars: they are modelled with
    the type [json] above, a dict being the list of its items in
    insertion order. Documents are taken to have string keys and scalars
    that are null, booleans, numbers or strings. *)

Module Render.

(** What [int(v)] can raise. *)
Inductive int_error := IntTypeError | IntValueError | IntOverflowError.

(** The library functions the script calls: [yaml.safe_load] ([None]
    when it raises), [yaml.safe_dump(m, sort_keys=False)] and the
    built-in [int]. *)
Record Lib := {
  safe_load : pystr -> option json;
  safe_dump : json -> pystr;
  int_of : json -> int_error + Z;
}.

(** What the script can end with: its own [RenderError], an exception
    of [int], of the YAML loader, of a filesystem call, or of an
    unpacking assignment. *)
Inductive error :=
  | RenderError (msg : pystr)
  | IntError (e : int_error)
  | YAMLError
  | FileError (e : exn)
  | UnpackError.

(** [d.get(key, default)]: the value of the first item with that key. *)
Fixpoint dict_find (items : list (pystr * json)) (key : pystr) : option json :=
  match items with
  | [] => None
  | (k, v) :: rest => if bool_decide (k = key) then Some v else dict_find rest key
  end.

(** [d.pop(key, None)] *)
Fixpoint dict_pop (items : list (pystr * json)) (key : pystr)
  : list (pystr * json) :=
  match items with
  | [] => []
  | (k, v) :: rest =>
      if bool_decide (k = key) then rest else (k, v) :: dict_pop rest key
  end.

(** [d[key] = v]: replaces the value in place, or appends the item. *)
Fixpoint dict_set (items : list (pystr * json)) (key : pystr) (v : json)
  : list (pystr * json) :=
  match items with
  | [] => [ (key, v) ]
  | (k, old) :: rest =>
      if bool_decide (k = key) then (k, v) :: rest
      else (k, old) :: dict_set rest key v
  end.

(** Lines 31-38. *)
Definition load_config (lib : Lib) (cur : FS) (path : Path)
  : error + list (pystr * json) :=
  match exists_ cur path with
  | inl e => inl (FileError e)
  | inr false =>
      inl (RenderError (s!"Configuration file not found: " ++ path_str path))
  | inr true =>
      match read_text cur path with
      | inl e => inl (FileError e)
      | inr text =>
          match safe_load lib text with
          | None => inl YAMLError
          | Some loaded =>
              let data := if json_truthy loaded then loaded else JDict [] in
              match data with
              | JDict items => inr items
              | _ =>
                  inl (RenderError s!"whanos.yml must contain a mapping at the root.")
              end
          end
      end
  end.

(** Lines 41-47. *)
Definition extract_deployment (config : list (pystr * json))
  : error + list (pystr * json) :=
  let deployment := dict_get config s!"deployment" in
  match deployment with
  | JNone =>
      inl (RenderError
             s!"'deployment' section missing in whanos.yml. Nothing to render.")
  | JDict items => inr items
  | _ => inl (RenderError s!"'deployment' must be a mapping in whanos.yml.")
  end.

(** Lines 50-58. *)
Definition ensure_namespace_manifest (namespace : pystr) (labels : json) : json :=
  JDict [ (s!"apiVersion", JStr s!"v1");
          (s!"kind", JStr s!"Namespace");
          (s!"metadata", JDict [ (s!"name", JStr namespace);
                                 (s!"labels", labels) ]) ].

(** [f"tcp-{port}"] *)
Definition port_name (port : Z) : pystr := s!"tcp-" ++ Py.of_int port.

(** Lines 114-117: the entries that hold [None] are removed. *)
Definition drop_none (container_spec : list (pystr * json)) (key : pystr)
  : list (pystr * json) :=
  match dict_get container_spec key with
  | JNone => dict_pop container_spec key
  | _ => container_spec
  end.

(** Lines 61-119. The loop of lines 115-117 changes the container dict
    inside the manifest; here the dict is cleaned before it is put
    there. *)
Definition build_deployment_manifest (app namespace image : pystr) (replicas : Z)
    (resources : json) (ports : list Z) (env : json) : json :=
  let container_ports :=
    map (fun port => JDict [ (s!"containerPort", JInt port);
                             (s!"name", JStr (port_name port)) ]) ports in
  let container_spec :=
    [ (s!"name", JStr app);
      (s!"image", JStr image);
      (s!"imagePullPolicy", JStr s!"IfNotPresent");
      (s!"ports", match container_ports with [] => JNone | _ => JList container_ports end);
      (s!"resources", if json_truthy resources then resources else JNone);
      (s!"env", if json_truthy env then env else JNone) ] in
  let container_spec :=
    fold_left drop_none [ s!"ports"; s!"resources"; s!"env" ] container_spec in
  JDict [ (s!"apiVersion", JStr s!"apps/v1");
          (s!"kind", JStr s!"Deployment");
          (s!"metadata",
           JDict [ (s!"name", JStr app);
                   (s!"namespace", JStr namespace);
                   (s!"labels",
                    JDict [ (s!"app.kubernetes.io/name", JStr app);
                            (s!"app.kubernetes.io/managed-by", JStr s!"whanos") ]) ]);
          (s!"spec",
           JDict [ (s!"replicas", JInt replicas);
                   (s!"selector",
                    JDict [ (s!"matchLabels",
                             JDict [ (s!"app.kubernetes.io/name", JStr app) ]) ]);
                   (s!"template",
                    JDict [ (s!"metadata",
                             JDict [ (s!"labels",
                                      JDict [ (s!"app.kubernetes.io/name", JStr app);
                                              (s!"app.kubernetes.io/managed-by",
                                               JStr s!"whanos") ]) ]);
                            (s!"spec",
                             JDict [ (s!"containers",
                                      JList [ JDict container_spec ]) ]) ]) ]) ].

(** Lines 134-143: one entry of the service, [index] counting from 0. *)
Definition service_port (service_type : pystr) (nodeport_base : Z)
    (index : nat) (port : Z) : json :=
  let entry :=
    [ (s!"name", JStr (port_name port));
      (s!"protocol", JStr s!"TCP");
      (s!"port", JInt port);
      (s!"targetPort", JInt port) ] in
  JDict (if bool_decide (service_type = s!"NodePort")
         then dict_set entry s!"nodePort" (JInt (nodeport_base + Z.of_nat index))
         else entry).

(** Lines 122-164. *)
Definition build_service_manifest (app namespace : pystr) (ports : list Z)
    (service_type : pystr) (nodeport_base : Z) : option json :=
  match ports with
  | [] => None
  | _ =>
      let service_ports := imap (service_port service_type nodeport_base) ports in
      Some (JDict
        [ (s!"apiVersion", JStr s!"v1");
          (s!"kind", JStr s!"Service");
          (s!"metadata",
           JDict [ (s!"name", JStr app);
                   (s!"namespace", JStr namespace);
                   (s!"labels",
                    JDict [ (s!"app.kubernetes.io/name", JStr app);
                            (s!"app.kubernetes.io/managed-by", JStr s!"whanos") ]) ]);
          (s!"spec",
           JDict [ (s!"selector", JDict [ (s!"app.kubernetes.io/name", JStr app) ]);
                   (s!"type", JStr service_type);
                   (s!"ports", JList service_ports) ]) ])
  end.

(** Lines 167-222. *)
Definition build_ingress_manifest (app namespace domain : pystr) (ports : list Z)
    (tls_secret : option pystr) : error + json :=
  match ports with
  | [] => inl (RenderError s!"Cannot create ingress without exposed ports.")
  | primary_port :: _ =>
      let host := app ++ s!"." ++ domain in
      let rules :=
        JList [ JDict
          [ (s!"host", JStr host);
            (s!"http",
             JDict [ (s!"paths",
               JList [ JDict
                 [ (s!"path", JStr s!"/");
                   (s!"pathType", JStr s!"Prefix");
                   (s!"backend",
                    JDict [ (s!"service",
                      JDict [ (s!"name", JStr app);
                              (s!"port",
                               JDict [ (s!"number", JInt primary_port) ]) ]) ]) ] ]) ]) ] ] in
      let spec := [ (s!"rules", rules) ] in
      let spec :=
        if Py.opt_truthy tls_secret then
          dict_set spec s!"tls"
            (JList [ JDict [ (s!"hosts", JList [ JStr host ]);
                             (s!"secretName", JStr (default [] tls_secret)) ] ])
        else spec in
      inr (JDict
        [ (s!"apiVersion", JStr s!"networking.k8s.io/v1");
          (s!"kind", JStr s!"Ingress");
          (s!"metadata",
           JDict [ (s!"name", JStr (app ++ s!"-ingress"));
                   (s!"namespace", JStr namespace);
                   (s!"annotations",
                    JDict [ (s!"nginx.ingress.kubernetes.io/backend-protocol",
                             JStr s!"HTTP") ]) ]);
          (s!"spec", JDict spec) ])
  end.

Definition all_verbs : json :=
  JList (map JStr [ s!"get"; s!"list"; s!"watch"; s!"create"; s!"update";
                    s!"patch"; s!"delete" ]).

(** Lines 225-250. *)
Definition build_role_manifest (namespace app : pystr) : json :=
  JDict
    [ (s!"apiVersion", JStr s!"rbac.authorization.k8s.io/v1");
      (s!"kind", JStr s!"Role");
      (s!"metadata", JDict [ (s!"name", JStr (app ++ s!"-deployer"));
                             (s!"namespace", JStr namespace) ]);
      (s!"rules",
       JList
         [ JDict [ (s!"apiGroups", JList [ JStr [] ]);
                   (s!"resources",
                    JList (map JStr [ s!"pods"; s!"services"; s!"configmaps";
                                      s!"secrets" ]));
                   (s!"verbs", all_verbs) ];
           JDict [ (s!"apiGroups", JList [ JStr s!"apps" ]);
                   (s!"resources",
                    JList (map JStr [ s!"deployments"; s!"replicasets" ]));
                   (s!"verbs", all_verbs) ];
           JDict [ (s!"apiGroups", JList [ JStr s!"networking.k8s.io" ]);
                   (s!"resources", JList [ JStr s!"ingresses" ]);
                   (s!"verbs", all_verbs) ] ]) ].

(** Lines 253-278. *)
Definition build_role_binding_manifest (namespace app : pystr)
    (deployer_service_account : pystr * pystr) : json :=
  let '(deployer_namespace, service_account) := deployer_service_account in
  JDict
    [ (s!"apiVersion", JStr s!"rbac.authorization.k8s.io/v1");
      (s!"kind", JStr s!"RoleBinding");
      (s!"metadata", JDict [ (s!"name", JStr (app ++ s!"-deployer-binding"));
                             (s!"namespace", JStr namespace) ]);
      (s!"subjects",
       JList [ JDict [ (s!"kind", JStr s!"ServiceAccount");
                       (s!"name", JStr service_account);
                       (s!"namespace", JStr deployer_namespace) ] ]);
      (s!"roleRef",
       JDict [ (s!"apiGroup", JStr s!"rbac.authorization.k8s.io");
               (s!"kind", JStr s!"Role");
               (s!"name", JStr (app ++ s!"-deployer")) ]) ].

(** [s.split(sep, 1)]: the text before the first separator and the text
    after it, or the string alone when it holds no separator. *)
Fixpoint split_once (sep : Py.char) (cur : pystr) (s : pystr) : list pystr :=
  match s with
  | [] => [ rev cur ]
  | c :: s' =>
      if (c =? sep)%N then [ rev cur; s' ] else split_once sep (c :: cur) s'
  end.

(** Lines 281-287. *)
Definition parse_service_account (value : pystr) : error + (pystr * pystr) :=
  if negb (Py.contains s!"/" value) then
    inl (RenderError
           s!"--deployer-service-account must be in the form <namespace>/<name>")
  else
    match split_once slash [] value with
    | [ namespace; name ] =>
        if negb (Py.truthy namespace) || negb (Py.truthy name) then
          inl (RenderError (s!"--deployer-service-account is invalid: " ++ value))
        else inr (namespace, name)
    | _ => inl UnpackError
    end.

(** [sorted({...})]: the elements in ascending order, each once. *)
Fixpoint insert_sorted (z : Z) (l : list Z) : list Z :=
  match l with
  | [] => [ z ]
  | x :: rest =>
      if (z <? x)%Z then z :: l
      else if (z =? x)%Z then l
      else x :: insert_sorted z rest
  end.

Definition sorted_set (l : list Z) : list Z := fold_right insert_sorted [] l.

(** [int(port) for port in raw_ports], up to the first element [int]
    rejects. *)
Fixpoint int_all (lib : Lib) (raw : list json) : int_error + list Z :=
  match raw with
  | [] => inr []
  | v :: rest =>
      match int_of lib v with
      | inl e => inl e
      | inr z =>
          match int_all lib rest with
          | inl e => inl e
          | inr zs => inr (z :: zs)
          end
      end
  end.

(** Lines 326-329: [TypeError] and [ValueError] become a
    [RenderError]; the handler does not catch [OverflowError]. *)
Definition parse_ports (lib : Lib) (raw : list json) : error + list Z :=
  match int_all lib raw with
  | inl IntTypeError | inl IntValueError => inl (RenderError s!"Ports must be numeric.")
  | inl IntOverflowError => inl (IntError IntOverflowError)
  | inr zs => inr (sorted_set zs)
  end.

(** The keyword arguments of [render]. *)
Record Params := {
  config_path : Path;
  image : pystr;
  namespace : pystr;
  app : pystr;
  deployer_service_account : pystr * pystr;
  expose_mode : pystr;
  service_type : pystr;
  nodeport_base : Z;
  domain : option pystr;
  tls_secret : option pystr;
}.

Definition bind_error {A B} (m : error + A) (k : A -> error + B) : error + B :=
  match m with
  | inl e => inl e
  | inr a => k a
  end.

Notation "'attempt' x := m 'in' k" := (bind_error m (fun x => k))
  (at level 10, x name, m at level 100, k at level 200, only parsing).

(** Line 353: exposing through node ports forces the service type. *)
Definition effective_service_type (p : Params) : pystr :=
  if bool_decide (expose_mode p = s!"nodeport")
     && negb (bool_decide (service_type p = s!"NodePort"))
  then s!"NodePort" else service_type p.

(** Lines 318-388 of [render]: the list of manifests, each with its file
    name, that the loop of lines 390-391 then writes. *)
Definition render_manifests (lib : Lib) (cur : FS) (p : Params)
  : error + list (pystr * json) :=
  attempt config := load_config lib cur (config_path p) in
  attempt deployment_cfg := extract_deployment config in
  attempt replicas :=
    match int_of lib (default (JInt 1) (dict_find deployment_cfg s!"replicas")) with
    | inl e => inl (IntError e)
    | inr z => inr z
    end in
  let resources := dict_get deployment_cfg s!"resources" in
  let raw_ports :=
    let v := dict_get deployment_cfg s!"ports" in
    if json_truthy v then v else JList [] in
  match raw_ports with
  | JList raw =>
      attempt ports := parse_ports lib raw in
      let manifests := [] in
      let namespace_labels :=
        JDict [ (s!"app.kubernetes.io/managed-by", JStr s!"whanos");
                (s!"whanos/app", JStr (app p)) ] in
      let manifests :=
        manifests ++ [ (s!"namespace.yaml",
                        ensure_namespace_manifest (namespace p) namespace_labels) ] in
      let manifests :=
        manifests ++ [ (s!"deployment.yaml",
                        build_deployment_manifest (app p) (namespace p) (image p)
                          replicas resources ports JNone) ] in
      let service_type := effective_service_type p in
      let service_manifest :=
        build_service_manifest (app p) (namespace p) ports service_type
          (nodeport_base p) in
      let manifests :=
        match service_manifest with
        | Some m => manifests ++ [ (s!"service.yaml", m) ]
        | None => manifests
        end in
      attempt manifests :=
        if bool_decide (expose_mode p = s!"ingress") then
          if negb (Py.opt_truthy (domain p)) then
            inl (RenderError s!"Ingress exposure selected but --domain not provided.")
          else
            attempt ingress :=
              build_ingress_manifest (app p) (namespace p) (default [] (domain p))
                ports (tls_secret p) in
            inr (manifests ++ [ (s!"ingress.yaml", ingress) ])
        else inr manifests in
      let manifests :=
        manifests ++ [ (s!"role.yaml", build_role_manifest (namespace p) (app p)) ] in
      let manifests :=
        manifests ++ [ (s!"rolebinding.yaml",
                        build_role_binding_manifest (namespace p) (app p)
                          (deployer_service_account p)) ] in
      inr manifests
  | _ => inl (RenderError s!"'deployment.ports' must be a list of integers.")
  end.

End Render.

(** ** Vocabulary and scenarios of the renderer *)

(** One step into a manifest: the value of a key, or an element of a
    list. *)
Inductive step := Key (k : pystr) | Index (i : nat).

Definition at_step (v : json) (s : step) : json :=
  match s, v with
  | Key k, JDict items => dict_get items k
  | Index i, JList l => default JNone (l !! i)
  | _, _ => JNone
  end.

(** The value found by following [steps] from [v], [None] when a step
    does not apply. *)
Definition at_path (v : json) (steps : list step) : json :=
  fold_left at_step steps v.

(** The container dict of a Deployment manifest. *)
Definition container_of (manifest : json) : json :=
  at_path manifest [ Key s!"spec"; Key s!"template"; Key s!"spec";
                     Key s!"containers"; Index 0 ].

(** An [int] that accepts integers and booleans, refuses strings with
    [ValueError] and everything else with [TypeError]. *)
Definition lib_ints : Render.Lib :=
  {| Render.safe_load := fun _ => None;
     Render.safe_dump := fun _ => [];
     Render.int_of := fun v =>
       match v with
       | JInt z => inr z
       | JBool b => inr (if b then 1 else 0)%Z
       | JStr _ => inl Render.IntValueError
       | _ => inl Render.IntTypeError
       end |}.

(** The same library with a loader that returns [doc] for every text. *)
Definition lib_loading (doc : json) : Render.Lib :=
  {| Render.safe_load := fun _ => Some doc;
     Render.safe_dump := Render.safe_dump lib_ints;
     Render.int_of := Render.int_of lib_ints |}.

Definition whanos_yml : Path := srv </> s!"whanos.yml".

Definition fs_whanos : FS := <[ whanos_yml := plain_file s!"deployment: ..." ]> fs_bare.

(** Two replicas, ports 8080, 80 and 8080 again. *)
Definition doc_two_ports : json :=
  JDict [ (s!"deployment",
           JDict [ (s!"replicas", JInt 2);
                   (s!"ports", JList [ JInt 8080; JInt 80; JInt 8080 ]) ]) ].

(** A replica count that is not a number. *)
Definition doc_bad_replicas : json :=
  JDict [ (s!"deployment", JDict [ (s!"replicas", JStr s!"many") ]) ].

(** A port that is not a number. *)
Definition doc_bad_port : json :=
  JDict [ (s!"deployment", JDict [ (s!"ports", JList [ JInt 80; JStr s!"http" ]) ]) ].

Definition params_ingress : Render.Params :=
  {| Render.config_path := whanos_yml;
     Render.image := s!"registry.example.com/org/app:1";
     Render.namespace := s!"whanos-app";
     Render.app := s!"app";
     Render.deployer_service_account := (s!"jenkins", s!"whanos-deployer");
     Render.expose_mode := s!"ingress";
     Render.service_type := s!"ClusterIP";
     Render.nodeport_base := 30000;
     Render.domain := Some s!"apps.example.com";
     Render.tls_secret := None |}.

Definition params_nodeport : Render.Params :=
  {| Render.config_path := whanos_yml;
     Render.image := s!"registry.example.com/org/app:1";
     Render.namespace := s!"whanos-app";
     Render.app := s!"app";
     Render.deployer_service_account := (s!"jenkins", s!"whanos-deployer");
     Render.expose_mode := s!"nodeport";
     Render.service_type := s!"ClusterIP";
     Render.nodeport_base := 30000;
     Render.domain := None;
     Render.tls_secret := None |}.

(** What the renderer produces for [doc_two_ports] in the two exposure
    modes (the empty list if it failed). *)
Definition manifests_ingress : list (pystr * json) :=
  match Render.render_manifests (lib_loading doc_two_ports) fs_whanos params_ingress with
  | inr ms => ms
  | inl _ => []
  end.

Definition manifests_nodeport : list (pystr * json) :=
  match Render.render_manifests (lib_loading doc_two_ports) fs_whanos params_nodeport with
  | inr ms => ms
  | inl _ => []
  end.

(** * Properties *)

(** ** Strings *)

Lemma startswith_spec (p s : pystr) :
  Py.startswith p s = true <-> exists t, s = p ++ t.
Proof.
  revert s. induction p as [|a p IH]; intros s; simpl.
  - split; [eauto | done].
  - destruct s as [|b s].
    + split; [done | intros [t Ht]; discriminate].
    + rewrite andb_true_iff, N.eqb_eq, IH. split.
      * intros [-> [t ->]]. eauto.
      * intros [t [= -> ->]]. eauto.
Qed.

Lemma contains_spec (n h : pystr) :
  Py.contains n h = true <-> substring n h.
Proof.
  unfold substring. induction h as [|c h IH]; simpl.
  - rewrite orb_false_r, startswith_spec. split.
    + intros [t Ht]. exists [], t. done.
    + intros [a [b Hab]]. destruct a; [|discriminate]. exists b. done.
  - rewrite orb_true_iff, startswith_spec, IH. split.
    + intros [[t Ht] | [a [b Hab]]].
      * exists [], t. done.
      * exists (c :: a), b. simpl. by f_equal.
    + intros [[|x a] [b Hab]].
      * left. by exists b.
      * right. injection Hab as _ ->. by exists a, b.
Qed.

Lemma contains_char (c : Py.char) (s : pystr) :
  Py.contains [c] s = true <-> c ∈ s.
Proof.
  rewrite contains_spec. unfold substring. split.
  - intros [a [b ->]]. set_solver.
  - intros Hin. apply list_elem_of_split in Hin as [a [b ->]]. by exists a, b.
Qed.

Lemma substring_app_l (n h pre : pystr) : substring n h -> substring n (pre ++ h).
Proof. intros [a [b ->]]. exists (pre ++ a), b. by rewrite <- app_assoc. Qed.

Lemma substring_app_r (n h post : pystr) : substring n h -> substring n (h ++ post).
Proof. intros [a [b ->]]. exists a, (b ++ post). by rewrite <- !app_assoc. Qed.

Lemma substring_join (sep n : pystr) (parts : list pystr) :
  n ∈ parts -> substring n (Py.join sep parts).
Proof.
  induction parts as [|p rest IH]; [by intros ?%elem_of_nil|].
  intros [-> | Hin]%elem_of_cons.
  - destruct rest as [|q rest]; simpl.
    + exists [], []. by rewrite app_nil_r.
    + by exists [], (sep ++ Py.join sep (q :: rest)).
  - specialize (IH Hin). destruct rest as [|q rest]; [by apply elem_of_nil in Hin|].
    change (Py.join sep (p :: q :: rest)) with (p ++ sep ++ Py.join sep (q :: rest)).
    by do 2 apply substring_app_l.
Qed.

(** ** Paths that can and cannot be reached *)

Ltac unfold_result := unfold mbind, result_bind, mret, result_ret.

Lemma ancestors_join (p : Path) (name : pystr) :
  ancestors (p </> name) = ancestors p ++ [p].
Proof.
  unfold path_join. induction p as [|c p IH]; [done|].
  simpl. rewrite IH, map_app. done.
Qed.

(** Two names of one directory can be reached or not together. *)
Lemma blocked_join (cur : FS) (p : Path) (name : pystr) :
  blocked cur (p </> name) = blocked cur p || locked cur p.
Proof.
  unfold blocked. rewrite ancestors_join, existsb_app. simpl.
  by rewrite orb_false_r.
Qed.

Lemma blocked_sibling (cur : FS) (p : Path) (name name' : pystr) :
  blocked cur (p </> name) = blocked cur (p </> name').
Proof. by rewrite !blocked_join. Qed.

(** The three outcomes of [path_exists]: the path cannot be reached and
    the check raises, or it answers whether the path has an entry. *)
Lemma path_exists_cases (cur : FS) (p : Path) :
  path_exists cur p =
  if unreachable cur p then inl PermissionError
  else inr (bool_decide (is_Some (cur !! p))).
Proof.
  unfold path_exists, exists_, is_symlink, stat, lstat, unreachable, barred, resolve.
  unfold_result.
  destruct (blocked cur p); [done|].
  by destruct (cur !! p) as [[t|[t|]|]|].
Qed.

Lemma path_exists_raises (cur : FS) (p : Path) (e : exn) :
  path_exists cur p = inl e -> e = PermissionError /\ unreachable cur p = true.
Proof.
  rewrite path_exists_cases. destruct (unreachable cur p); [|done].
  by intros [= <-].
Qed.

Lemma resolve_not_barred cur p t : resolve cur p = Some t -> barred cur p = false.
Proof. unfold resolve, barred. by destruct (cur !! p) as [[]|]. Qed.

Lemma read_text_path_exists cur p text :
  read_text cur p = inr text -> path_exists cur p = inr true.
Proof.
  rewrite path_exists_cases. unfold read_text, stat, resolve.
  destruct (unreachable cur p); [done|].
  by destruct (cur !! p) as [[[[] []|]|[[[] []|]|]|]|].
Qed.

Lemma read_text_exists cur path text :
  read_text cur path = inr text -> exists_ cur path = inr true.
Proof.
  unfold read_text, exists_, stat. destruct (unreachable cur path); [done|].
  by destruct (resolve cur path) as [[[] []|]|].
Qed.

(** ** Language detection *)

Section Detection.
Variables (cur : FS) (repo_root : Path).

Let check (lc : pystr * LanguageConfig) : exn + bool := detector lc.2 cur repo_root.
Let hit (lc : pystr * LanguageConfig) : bool :=
  match check lc with inr found => found | inl _ => false end.

(** As long as the detectors answer, the loop is a filter that keeps the
    order of the registry. *)
Lemma collect_matches_filter configs acc :
  Forall (fun r : exn + bool => is_inr r = true) (map check configs) ->
  collect_matches cur repo_root configs acc = inr (acc ++ List.filter hit configs).
Proof.
  revert acc. induction configs as [|[language config] rest IH]; intros acc Hall; simpl.
  - by rewrite app_nil_r.
  - apply Forall_cons in Hall as [Hfirst Hrest]. unfold hit at 1. unfold check in *.
    simpl in *. unfold_result.
    destruct (detector config cur repo_root) as [e|[]]; [done| |].
    + by rewrite IH, <- app_assoc.
    + by apply IH.
Qed.

(** The first detector that raises ends the loop with its exception. *)
Lemma collect_matches_raises configs acc answers e rest :
  map check configs = answers ++ inl e :: rest ->
  Forall (fun r : exn + bool => is_inr r = true) answers ->
  collect_matches cur repo_root configs acc = inl e.
Proof.
  revert acc answers.
  induction configs as [|[language config] configs IH]; intros acc answers Heq Hall.
  - by destruct answers.
  - destruct answers as [|a answers]; simpl in Heq; injection Heq as Hhead Htail.
    + simpl. unfold check in Hhead. simpl in Hhead. unfold_result. by rewrite Hhead.
    + apply Forall_cons in Hall as [Ha Hall]. simpl. unfold check in Hhead.
      simpl in Hhead. unfold_result. rewrite Hhead.
      destruct a as [e'|[]]; [done| |]; by eapply IH.
Qed.

(** Each profile's detector looks for the marker the specification
    names. *)
Lemma registry_checks :
  map check LANGUAGE_CONFIGS = map (fun m => path_exists cur m.2) (markers repo_root).
Proof. reflexivity. Qed.

Lemma hits_matching :
  map fst (List.filter hit LANGUAGE_CONFIGS) = matching cur repo_root.
Proof.
  unfold matching, markers, LANGUAGE_CONFIGS, hit, check, present.
  cbn [List.filter snd detector config_c config_java config_javascript
         config_python config_befunge].
  unfold detect_c, detect_java, detect_javascript, detect_python, detect_befunge.
  destruct (match path_exists cur (repo_root </> s!"Makefile") with
            | inr found => found | inl _ => false end),
    (match path_exists cur (repo_root </> s!"pom.xml") with
     | inr found => found | inl _ => false end),
    (match path_exists cur (repo_root </> s!"package.json") with
     | inr found => found | inl _ => false end),
    (match path_exists cur (repo_root </> s!"requirements.txt") with
     | inr found => found | inl _ => false end),
    (match path_exists cur (repo_root </> s!"app" </> s!"main.bf") with
     | inr found => found | inl _ => false end); done.
Qed.

Lemma markers_examined :
  Forall (fun m : pystr * Path => examined cur m.2 = true) (markers repo_root) ->
  Forall (fun r : exn + bool => is_inr r = true) (map check LANGUAGE_CONFIGS).
Proof. intros Hall. rewrite registry_checks. by apply Forall_fmap. Qed.

Lemma detect_language_filter :
  Forall (fun m : pystr * Path => examined cur m.2 = true) (markers repo_root) ->
  detect_language cur repo_root =
    match List.filter hit LANGUAGE_CONFIGS with
    | [] => inl (OrchestratorError no_language_message)
    | [lc] => inr lc.2
    | hits =>
        inl (OrchestratorError (ambiguous_message (Py.join s!", " (map fst hits))))
    end.
Proof.
  intros Hall. unfold detect_language.
  rewrite collect_matches_filter by (by apply markers_examined).
  unfold_result. rewrite app_nil_l.
  destruct (List.filter hit LANGUAGE_CONFIGS) as [|a [|b rest]]; reflexivity.
Qed.

Lemma detect_language_raises reached m rest e :
  markers repo_root = reached ++ m :: rest ->
  Forall (fun m' : pystr * Path => examined cur m'.2 = true) reached ->
  path_exists cur m.2 = inl e ->
  detect_language cur repo_root = inl e.
Proof.
  intros Hsplit Hreached Hm. unfold detect_language.
  rewrite (collect_matches_raises LANGUAGE_CONFIGS []
             (map (fun m' => path_exists cur m'.2) reached) e
             (map (fun m' => path_exists cur m'.2) rest)); [done | |].
  - rewrite registry_checks, Hsplit, map_app. simpl. by rewrite Hm.
  - by apply Forall_fmap.
Qed.

Lemma filter_registry_key lc :
  lc ∈ List.filter hit LANGUAGE_CONFIGS ->
  lc ∈ LANGUAGE_CONFIGS /\ name lc.2 = lc.1 /\ detector lc.2 cur repo_root = inr true.
Proof.
  rewrite list_elem_of_In, filter_In, <- list_elem_of_In.
  intros [Hin Hhit]. split; [done|]. split.
  - unfold LANGUAGE_CONFIGS in Hin.
    repeat (apply elem_of_cons in Hin as [-> | Hin]; [reflexivity|]).
    by apply elem_of_nil in Hin.
  - unfold hit, check in Hhit. by destruct (detector lc.2 cur repo_root) as [e|[]].
Qed.
End Detection.

(** C1, as the code has it. When each of the five markers (Makefile,
    pom.xml, package.json, requirements.txt, app/main.bf) can be
    examined, detection returns the one profile whose marker is present
    when exactly one is; with none present it fails with the message that
    lists the five markers; with two or more present it fails with a
    message that names every matching language. When a marker cannot be
    examined, detection ends with the exception of the first such check,
    in the order of the registry, which is none of the two detection
    errors. *)
Theorem detect_language_outcome (cur : FS) (repo_root : Path) :
  (Forall (fun m => examined cur m.2 = true) (markers repo_root) ->
   (forall language, matching cur repo_root = [language] ->
      exists config,
        detect_language cur repo_root = inr config
        /\ (language, config) ∈ LANGUAGE_CONFIGS
        /\ name config = language
        /\ detector config cur repo_root = inr true)
   /\ (matching cur repo_root = [] ->
       detect_language cur repo_root = inl (OrchestratorError no_language_message)
       /\ Forall (fun m => substring m no_language_message) marker_names)
   /\ ((2 <= length (matching cur repo_root))%nat ->
       exists msg,
         detect_language cur repo_root = inl (OrchestratorError msg)
         /\ msg = ambiguous_message (Py.join s!", " (matching cur repo_root))
         /\ forall language,
              language ∈ matching cur repo_root -> substring language msg))
  /\ (forall reached m rest e,
        markers repo_root = reached ++ m :: rest ->
        Forall (fun m' => examined cur m'.2 = true) reached ->
        path_exists cur m.2 = inl e ->
        detect_language cur repo_root = inl e
        /\ forall msg, e <> OrchestratorError msg).
Proof.
  split.
  - intros Hall. rewrite detect_language_filter by done. rewrite <- hits_matching.
    pose proof (filter_registry_key cur repo_root) as Hkey.
    destruct (List.filter _ LANGUAGE_CONFIGS) as [|[l1 c1] [|[l2 c2] rest]] eqn:Hf;
      cbn [map fst length].
    + split; [intros language [=]|]. split; [|lia].
      intros _. split; [reflexivity|].
      repeat constructor; apply contains_spec; vm_compute; reflexivity.
    + split; [|split; [intros [=] | lia]].
      intros language [= <-]. exists c1.
      destruct (Hkey (l1, c1)) as (Hin & Hname & Hdet); [by constructor|].
      done.
    + split; [intros language [=]|]. split; [intros [=]|].
      intros _. eexists. split; [reflexivity|]. split; [reflexivity|].
      intros language Hin. unfold ambiguous_message.
      apply substring_app_l, substring_app_r. by apply substring_join.
  - intros reached m rest e Hsplit Hreached Hm.
    split; [by eapply detect_language_raises|].
    apply path_exists_raises in Hm as [-> _]. done.
Qed.

(** The three cases of detection on a repository with a Makefile only,
    an empty one, and one with pom.xml and requirements.txt; and a
    Makefile repository whose directory app/ cannot be searched. *)
Lemma detect_language_outcome_witness :
  ((exists config,
      detect_language fs_makefile srv = inr config
      /\ (s!"c", config) ∈ LANGUAGE_CONFIGS
      /\ name config = s!"c"
      /\ detector config fs_makefile srv = inr true)
   /\ (detect_language fs_bare srv = inl (OrchestratorError no_language_message)
       /\ Forall (fun m => substring m no_language_message) marker_names)
   /\ (exists msg,
         detect_language fs_java_python srv = inl (OrchestratorError msg)
         /\ msg = ambiguous_message (Py.join s!", " (matching fs_java_python srv))
         /\ forall language,
              language ∈ matching fs_java_python srv -> substring language msg))
  /\ detect_language fs_makefile_locked srv = inl PermissionError
     /\ forall msg, PermissionError <> OrchestratorError msg.
Proof.
  split; [split; [|split]|].
  - apply (proj1 (proj1 (detect_language_outcome fs_makefile srv)
                    ltac:(by vm_compute; repeat constructor))).
    vm_compute. reflexivity.
  - apply (proj1 (proj2 (proj1 (detect_language_outcome fs_bare srv)
                           ltac:(by vm_compute; repeat constructor)))).
    vm_compute. reflexivity.
  - apply (proj2 (proj2 (proj1 (detect_language_outcome fs_java_python srv)
                           ltac:(by vm_compute; repeat constructor)))).
    vm_compute. apply le_n.
  - apply (proj2 (detect_language_outcome fs_makefile_locked srv)
             [ (s!"c", srv </> s!"Makefile"); (s!"java", srv </> s!"pom.xml");
               (s!"javascript", srv </> s!"package.json");
               (s!"python", srv </> s!"requirements.txt") ]
             (s!"befunge", srv </> s!"app" </> s!"main.bf") [] PermissionError).
    + reflexivity.
    + by vm_compute; repeat constructor.
    + vm_compute. reflexivity.
Defined.

(** C1 as stated fails. In a repository that holds a Makefile and a
    directory app/ that the running user may not search, exactly one of
    the five markers is found, yet detection neither returns the c
    profile nor fails with one of its two errors: the check of
    app/main.bf raises [PermissionError], and the run ends with it. *)
Lemma detection_ends_with_permission_error :
  matching fs_makefile_locked srv = [ s!"c" ]
  /\ path_exists fs_makefile_locked (srv </> s!"Makefile") = inr true
  /\ path_exists fs_makefile_locked (srv </> s!"app" </> s!"main.bf")
     = inl PermissionError
  /\ detect_language fs_makefile_locked srv = inl PermissionError
  /\ (main quiet args_plain (initial fs_makefile_locked)).1 = inl PermissionError.
Proof. repeat split; vm_compute; reflexivity. Qed.

(** ** Base image *)




(** ** Entry point of the generated instructions *)

(** C9. For every profile of the registry and every repository, the
    generated instructions hold exactly one [CMD] line, and it is the
    last one. Only the python profile looks at the repository to
    generate them, and it generates none when requirements.txt cannot be
    examined. *)
Theorem every_profile_one_cmd (cur : FS) (repo_root : Path) :
  Forall (fun lc : pystr * LanguageConfig =>
            match dockerfile_instructions lc.2 cur repo_root with
            | inr steps =>
                length (List.filter is_cmd steps) = 1%nat
                /\ exists pre line,
                     steps = pre ++ [line]
                     /\ is_cmd line = true
                     /\ forallb (fun l => negb (is_cmd l)) pre = true
            | inl e =>
                lc.1 = s!"python"
                /\ path_exists cur (repo_root </> s!"requirements.txt") = inl e
            end)
         LANGUAGE_CONFIGS.
Proof.
  unfold LANGUAGE_CONFIGS.
  rewrite !Forall_cons.
  cbn [fst snd dockerfile_instructions config_c config_java config_javascript
         config_python config_befunge].
  split; [|split; [|split; [|split; [|split; [|apply Forall_nil_2]]]]].
  - split; [reflexivity|]. eexists [_; _], _. by vm_compute.
  - split; [reflexivity|]. eexists [_; _], _. by vm_compute.
  - split; [reflexivity|]. eexists [_; _; _], _. by vm_compute.
  - unfold docker_steps_python. unfold_result.
    destruct (path_exists cur (repo_root </> s!"requirements.txt")) as [e|[]].
    + done.
    + split; [reflexivity|]. eexists [_; _; _], _. by vm_compute.
    + split; [reflexivity|]. eexists [_; _], _. by vm_compute.
  - split; [reflexivity|]. eexists [_], _. by vm_compute.
Qed.

(** ** Registry of an image reference *)

Lemma split_on_no_sep (sep : Py.char) (cur s : pystr) :
  sep ∉ s -> Py.split_on sep cur s = [rev cur ++ s].
Proof.
  revert cur. induction s as [|c s IH]; intros cur Hs; simpl.
  - by rewrite app_nil_r.
  - apply not_elem_of_cons in Hs as [Hc Hs].
    destruct (N.eqb_spec c sep) as [->|_]; [done|].
    rewrite IH by done. simpl. by rewrite <- app_assoc.
Qed.

Lemma split_on_first_sep (sep : Py.char) (cur h rest : pystr) :
  sep ∉ h ->
  Py.split_on sep cur (h ++ sep :: rest) = (rev cur ++ h) :: Py.split_on sep [] rest.
Proof.
  revert cur. induction h as [|c h IH]; intros cur Hh; simpl.
  - by rewrite N.eqb_refl, app_nil_r.
  - apply not_elem_of_cons in Hh as [Hc Hh].
    destruct (N.eqb_spec c sep) as [->|_]; [done|].
    rewrite IH by done. simpl. by rewrite <- app_assoc.
Qed.

(** C6. Without an explicit registry the effective registry is what
    [extract_registry] finds in the image reference: the text before the
    first slash, when there is a slash and that text holds a dot or a
    colon, and nothing otherwise; with no registry the login stage
    returns at once, starting no process and printing nothing. *)
Theorem extract_registry_hostname (image_ref : pystr) :
  (forall h,
     extract_registry image_ref = Some h <->
     exists rest,
       image_ref = h ++ slash :: rest /\ (slash ∉ h) /\ (dot ∈ h \/ colon ∈ h))
  /\ (extract_registry image_ref = None <->
      slash ∉ image_ref
      \/ exists h rest,
           image_ref = h ++ slash :: rest /\ (slash ∉ h) /\ (dot ∉ h) /\ colon ∉ h)
  /\ (forall repo_root skip nopush bargs,
        effective_registry
          {| repo := repo_root; image := image_ref; skip_tests := skip;
             no_push := nopush; build_args := bargs; registry := None |}
        = extract_registry image_ref)
  /\ (forall w st, docker_login w None st = (inr tt, st)).
Proof.
  assert (Hcases :
    ((slash ∉ image_ref) /\ extract_registry image_ref = None)
    \/ exists h rest, image_ref = h ++ slash :: rest /\ (slash ∉ h)
         /\ extract_registry image_ref
            = if Py.contains [dot] h || Py.contains [colon] h then Some h else None).
  { unfold extract_registry. change s!"/" with [slash].
    change s!"." with [dot]. change s!":" with [colon].
    destruct (Py.contains [slash] image_ref) eqn:Hc.
    - right. apply contains_char in Hc.
      apply list_elem_of_split_l in Hc as (h & rest & -> & Hh).
      exists h, rest. unfold Py.split. by rewrite split_on_first_sep.
    - left. split; [|done]. intros Hin%contains_char. congruence. }
  assert (Huniq : forall h h' rest rest',
    h ++ slash :: rest = h' ++ slash :: rest' -> slash ∉ h -> slash ∉ h' -> h = h').
  { induction h as [|c h IH]; intros [|c' h'] rest rest' Heq Hh Hh'; simpl in Heq.
    - done.
    - injection Heq as <- _. exfalso. apply Hh'. by left.
    - injection Heq as -> _. exfalso. apply Hh. by left.
    - injection Heq as -> Heq. f_equal.
      apply not_elem_of_cons in Hh as [_ Hh]. apply not_elem_of_cons in Hh' as [_ Hh'].
      by eapply IH. }
  split; [|split; [|split]].
  - intros h. destruct Hcases as [[Hno ->] | (h0 & rest & -> & Hh0 & ->)].
    + split; [done|]. intros (rest & -> & _). exfalso. apply Hno.
      apply elem_of_app. right. by left.
    + split.
      * destruct (Py.contains [dot] h0 || Py.contains [colon] h0) eqn:Hd; [|done].
        intros [= <-]. exists rest. split; [done|]. split; [done|].
        apply orb_true_iff in Hd as [Hd|Hd]; apply contains_char in Hd; auto.
      * intros (rest' & Heq & Hh & Hd).
        assert (h0 = h) as -> by (by eapply Huniq).
        destruct Hd as [Hd|Hd]; apply contains_char in Hd; rewrite Hd;
          by rewrite ?orb_true_r.
  - destruct Hcases as [[Hno ->] | (h0 & rest & -> & Hh0 & ->)].
    + split; auto.
    + destruct (Py.contains [dot] h0) eqn:Hd; [|destruct (Py.contains [colon] h0) eqn:Hk];
        simpl.
      * split; [done|]. intros [Hno | (h & rest' & Heq & Hh & Hnd & _)].
        -- exfalso. apply Hno, elem_of_app. right. by left.
        -- assert (h0 = h) as -> by (by eapply Huniq).
           apply contains_char in Hd. done.
      * split; [done|]. intros [Hno | (h & rest' & Heq & Hh & _ & Hnk)].
        -- exfalso. apply Hno, elem_of_app. right. by left.
        -- assert (h0 = h) as -> by (by eapply Huniq).
           apply contains_char in Hk. done.
      * split; [|done]. intros _. right. exists h0, rest.
        repeat split; [done| |]; intros Hin%contains_char; congruence.
  - reflexivity.
  - reflexivity.
Qed.

Example extract_registry_examples :
  extract_registry s!"registry.example.com/org/app:tag" = Some s!"registry.example.com"
  /\ extract_registry s!"localhost:5000/app" = Some s!"localhost:5000"
  /\ extract_registry s!"library/app" = None
  /\ extract_registry s!"app:1.0" = None.
Proof. by vm_compute. Qed.

(** ** Rendering *)

Lemma lstrip_spec (s : pystr) :
  exists a,
    s = a ++ Py.lstrip s
    /\ forallb Py.isspace a = true
    /\ (forall c, head (Py.lstrip s) = Some c -> Py.isspace c = false).
Proof.
  induction s as [|c s (a & Ha & Hsp & Hhd)]; simpl.
  - exists []. by repeat split.
  - destruct (Py.isspace c) eqn:Hc.
    + exists (c :: a). simpl. rewrite Hc, Hsp. repeat split; [by f_equal | done].
    + exists []. repeat split. intros c' [= <-]. done.
Qed.

Lemma rstrip_spec (s : pystr) :
  exists b,
    s = Py.rstrip s ++ b
    /\ forallb Py.isspace b = true
    /\ (forall c, last (Py.rstrip s) = Some c -> Py.isspace c = false).
Proof.
  unfold Py.rstrip. destruct (lstrip_spec (rev s)) as (a & Ha & Hsp & Hhd).
  exists (rev a). split; [|split].
  - rewrite <- rev_app_distr, <- Ha. by rewrite rev_involutive.
  - rewrite forallb_forall in *. intros x Hx. apply Hsp. by apply in_rev.
  - intros c Hc. apply Hhd. rewrite <- Hc.
    rewrite (rev_alt (Py.lstrip _)). symmetry.
    apply (last_reverse (Py.lstrip (rev s))).
Qed.

(** [strip] removes a run of whitespace at each end and nothing else;
    what is left neither starts nor ends with whitespace. *)
Lemma strip_spec (s : pystr) :
  exists a b,
    s = a ++ Py.strip s ++ b
    /\ forallb Py.isspace a = true
    /\ forallb Py.isspace b = true
    /\ (forall c, head (Py.strip s) = Some c -> Py.isspace c = false)
    /\ (forall c, last (Py.strip s) = Some c -> Py.isspace c = false).
Proof.
  unfold Py.strip.
  destruct (lstrip_spec s) as (a & Ha & Hsa & Hhd).
  destruct (rstrip_spec (Py.lstrip s)) as (b & Hb & Hsb & Hlast).
  exists a, b. repeat split; try done.
  - by rewrite <- Hb.
  - intros c Hc. apply Hhd. rewrite Hb.
    destruct (Py.rstrip (Py.lstrip s)); [done|]. exact Hc.
Qed.

Lemma join_app (sep : pystr) (l1 l2 : list pystr) :
  l1 <> [] -> l2 <> [] ->
  Py.join sep (l1 ++ l2) = Py.join sep l1 ++ sep ++ Py.join sep l2.
Proof.
  intros H1 H2. induction l1 as [|p [|q l1] IH]; [done| |].
  - destruct l2; done.
  - change (Py.join sep ((p :: q :: l1) ++ l2))
      with (p ++ sep ++ Py.join sep ((q :: l1) ++ l2)).
    rewrite IH by done.
    change (Py.join sep (p :: q :: l1)) with (p ++ sep ++ Py.join sep (q :: l1)).
    by rewrite <- !app_assoc.
Qed.

Lemma render_dockerfile_plain w cur config repo_root :
  render_dockerfile w cur config repo_root (Some []) =
  render_dockerfile w cur config repo_root None.
Proof. reflexivity. Qed.

Lemma render_dockerfile_rendered w cur config repo_root steps :
  dockerfile_instructions config cur repo_root = inr steps ->
  render_dockerfile w cur config repo_root None
  = inr (Py.join nl ([ header_line; s!"FROM " ++ resolve_base_image w config;
                       s!"WORKDIR /app" ] ++ steps) ++ nl).
Proof. intros Hsteps. unfold render_dockerfile. by rewrite Hsteps. Qed.

Lemma render_dockerfile_snippet w cur config repo_root snippet :
  snippet <> [] ->
  render_dockerfile w cur config repo_root (Some snippet) =
  match render_dockerfile w cur config repo_root None with
  | inr base => inr (appended_verbatim base (Py.strip snippet))
  | inl e => inl e
  end.
Proof.
  intros Hne. unfold render_dockerfile, appended_verbatim. unfold_result.
  destruct (dockerfile_instructions config cur repo_root) as [e|steps]; [done|].
  destruct snippet as [|c snippet]; [done|]. cbn [Py.truthy].
  set (instructions :=
         [header_line; s!"FROM " ++ resolve_base_image w config; s!"WORKDIR /app"]
         ++ steps).
  assert (instructions <> []) as Hi by done.
  rewrite (join_app nl instructions) by done.
  cbn [Py.join app]. by rewrite <- !app_assoc.
Qed.

(** ** Reasoning about the monad *)

Ltac unfold_monad :=
  unfold mbind, M_bind, bind, mret, M_ret, ret, raise, lift, get_fs, print.

Lemma subprocess_run_trace w inv st :
  trace (subprocess_run w inv st).2 = trace st ++ [inv].
Proof. unfold subprocess_run. by destruct (spawn w (trace st) inv). Qed.

Lemma subprocess_run_fs w inv st :
  fs (subprocess_run w inv st).2 = process_effect w (trace st) inv (fs st).
Proof.
  unfold subprocess_run, process_effect. by destruct (spawn w (trace st) inv).
Qed.

Section Respects.
Context (R : relation State) `{!PreOrder R} `{!ConsoleBlind R}.

Lemma respects_ret {A} (a : A) : respects R (mret a).
Proof. intros st. unfold_monad. simpl. reflexivity. Qed.

Lemma respects_raise {A} (e : exn) : respects R (@raise A e).
Proof. intros st. unfold_monad. simpl. reflexivity. Qed.

Lemma respects_lift {A} (r : exn + A) : respects R (lift r).
Proof. intros st. unfold_monad. simpl. reflexivity. Qed.

Lemma respects_get_fs : respects R get_fs.
Proof. intros st. unfold_monad. simpl. reflexivity. Qed.

Lemma respects_print out line : respects R (print out line).
Proof. intros st. unfold_monad. simpl. apply console_blind. Qed.

Lemma respects_bind {A B} (m : M A) (k : A -> M B) :
  respects R m -> (forall a, respects R (k a)) -> respects R (m ≫= k).
Proof.
  intros Hm Hk st. unfold_monad. specialize (Hm st).
  destruct (m st) as [[e|a] st1]; simpl in *; [done|].
  etransitivity; [exact Hm | apply Hk].
Qed.

Lemma respects_try_finally {A} (body : M A) (final : M unit) :
  respects R body -> respects R final -> respects R (try_finally body final).
Proof.
  intros Hb Hf st. unfold try_finally. specialize (Hb st).
  destruct (body st) as [r st1]. specialize (Hf st1).
  destruct (final st1) as [[e|[]] st2]; simpl in *; by etransitivity.
Qed.

Lemma respects_suppress (body : M unit) :
  respects R body -> respects R (suppress_OSError body).
Proof.
  intros Hb st. unfold suppress_OSError. specialize (Hb st).
  destruct (body st) as [[e|[]] st1]; [destruct (is_OSError e)|]; done.
Qed.

Lemma respects_subprocess_run Q w inv :
  allows w R Q -> Q inv -> respects R (subprocess_run w inv).
Proof. intros HQ Hinv st. by apply HQ. Qed.

Lemma respects_run_command Q w command check capture_output :
  allows w R Q -> Q {| argv := command; stdin := None |} ->
  respects R (run_command w command check capture_output).
Proof.
  intros HQ Hinv. unfold run_command. apply respects_bind.
  - by eapply respects_subprocess_run.
  - intros [[rc out] err]. destruct (check && negb (rc =? 0)%Z).
    + apply respects_raise.
    + apply respects_ret.
Qed.

Lemma respects_build_test_in_container w config repo_root skip :
  allows w R (subcommand s!"run") ->
  respects R (build_test_in_container w config repo_root skip).
Proof.
  intros HQ. unfold build_test_in_container.
  destruct skip; [apply respects_ret|].
  apply respects_bind; [apply respects_get_fs|]. intros cur.
  apply respects_bind; [apply respects_lift|]. intros cmd.
  destruct (negb (cmd_truthy cmd)); [apply respects_print|].
  apply respects_bind; [apply respects_print|]. intros _.
  apply respects_bind; [|intros; apply respects_ret].
  eapply respects_run_command; [exact HQ|]. by eexists.
Qed.

Lemma respects_docker_login w registry :
  allows w R (subcommand s!"login") -> respects R (docker_login w registry).
Proof.
  intros HQ. unfold docker_login.
  destruct (negb (Py.opt_truthy registry)); [apply respects_ret|].
  destruct (_ || _); [apply respects_print|].
  apply respects_bind; [apply respects_print|]. intros _.
  apply respects_bind.
  - eapply respects_subprocess_run; [exact HQ|]. by eexists.
  - intros [[rc out] err]. destruct (negb (rc =? 0)%Z).
    + apply respects_raise.
    + apply respects_ret.
Qed.

Lemma respects_build_image w repo_root dockerfile_path image_ref bargs :
  allows w R (subcommand s!"build") ->
  respects R (build_image w repo_root dockerfile_path image_ref bargs).
Proof.
  intros HQ. unfold build_image.
  apply respects_bind; [apply respects_print|]. intros _.
  apply respects_bind; [|intros; apply respects_ret].
  eapply respects_run_command; [exact HQ|]. by eexists.
Qed.

Lemma respects_push_image w image_ref :
  allows w R (subcommand s!"push") -> respects R (push_image w image_ref).
Proof.
  intros HQ. unfold push_image.
  apply respects_bind; [apply respects_print|]. intros _.
  apply respects_bind; [|intros; apply respects_ret].
  eapply respects_run_command; [exact HQ|]. by eexists.
Qed.

Lemma respects_pipeline_stages w args config repo_root tmp_path :
  (skip_tests args = false -> allows w R (subcommand s!"run")) ->
  allows w R (subcommand s!"login") ->
  allows w R (subcommand s!"build") ->
  allows w R (subcommand s!"push") ->
  respects R (pipeline_stages w args config repo_root tmp_path).
Proof.
  intros Hrun Hlogin Hbuild Hpush. unfold pipeline_stages.
  apply respects_bind.
  { destruct (skip_tests args) eqn:Hskip; [apply respects_ret|].
    by apply respects_build_test_in_container, Hrun. }
  intros _. apply respects_bind; [by apply respects_docker_login|].
  intros _. apply respects_bind; [by apply respects_build_image|].
  intros _. destruct (negb (no_push args)).
  - by apply respects_push_image.
  - apply respects_print.
Qed.

Lemma respects_dockerfile_content w config repo_root :
  respects R (dockerfile_content w config repo_root).
Proof.
  unfold dockerfile_content.
  apply respects_bind; [apply respects_get_fs|]. intros cur.
  apply respects_bind; [apply respects_lift|]. intros customizations.
  destruct (getitem customizations s!"override") as [override|].
  - apply respects_bind; [apply respects_lift|]. intros content.
    apply respects_bind; [apply respects_print|]. intros _.
    apply respects_ret.
  - apply respects_bind; [|intros; apply respects_lift].
    destruct (getitem customizations s!"append") as [p|]; [|apply respects_ret].
    apply respects_bind; [apply respects_lift|]. intros; apply respects_ret.
Qed.

Lemma respects_prepare w args :
  (forall content, respects R (named_temporary_file w content)) ->
  respects R (prepare w args).
Proof.
  intros Htmp. unfold prepare.
  apply respects_bind; [apply respects_get_fs|]. intros cur.
  apply respects_bind; [apply respects_lift|]. intros is_directory.
  destruct (negb is_directory); [apply respects_raise|].
  apply respects_bind; [apply respects_lift|]. intros config.
  apply respects_bind; [apply respects_print|]. intros _.
  apply respects_bind; [apply respects_dockerfile_content|]. intros content.
  apply respects_bind; [apply Htmp|]. intros; apply respects_ret.
Qed.

Lemma respects_main w args :
  (skip_tests args = false -> allows w R (subcommand s!"run")) ->
  allows w R (subcommand s!"login") ->
  allows w R (subcommand s!"build") ->
  allows w R (subcommand s!"push") ->
  (forall content, respects R (named_temporary_file w content)) ->
  (forall p, respects R (unlink w p)) ->
  respects R (main w args).
Proof.
  intros Hrun Hlogin Hbuild Hpush Htmp Hunlink. unfold main.
  apply respects_bind; [by apply respects_prepare|]. intros [config tmp_path].
  apply respects_bind.
  - apply respects_try_finally; [by apply respects_pipeline_stages|].
    apply respects_suppress, Hunlink.
  - intros _. apply respects_bind; [apply respects_print|].
    intros; apply respects_ret.
Qed.
End Respects.

#[global] Instance same_fs_preorder : PreOrder same_fs.
Proof.
  split; [by intros st | intros st1 st2 st3 H12 H23].
  unfold same_fs in *. congruence.
Qed.

#[global] Instance same_fs_console_blind : ConsoleBlind same_fs.
Proof. by intros st c. Qed.

Section StartsOnly.
Context (P : Invocation -> Prop).

#[global] Instance starts_only_preorder : PreOrder (starts_only P).
Proof.
  split.
  - intros st. exists []. by rewrite app_nil_r.
  - intros st1 st2 st3 (l1 & H1 & HP1) (l2 & H2 & HP2).
    exists (l1 ++ l2). rewrite H2, H1, <- app_assoc. split; [done|].
    by apply Forall_app.
Qed.

#[global] Instance starts_only_console_blind : ConsoleBlind (starts_only P).
Proof. intros st c. exists []. simpl. by rewrite app_nil_r. Qed.

Lemma starts_only_allows w (Q : Invocation -> Prop) :
  (forall inv, Q inv -> P inv) -> allows w (starts_only P) Q.
Proof.
  intros HQ st inv Hinv. exists [inv]. rewrite subprocess_run_trace.
  split; [done|]. auto.
Qed.

Lemma named_temporary_file_trace w content st :
  trace (named_temporary_file w content st).2 = trace st.
Proof.
  unfold named_temporary_file. destruct (blocked (fs st) (tmp_name w)); [done|].
  destruct (fs st !! tmp_name w); [done|].
  by destruct (tmp_fault w) as [[]|].
Qed.

Lemma unlink_trace w p st : trace (unlink w p st).2 = trace st.
Proof.
  unfold unlink. destruct (blocked (fs st) p); [done|].
  destruct (fs st !! p) as [[[]| |]|]; try done; by destruct (unlink_denied w p).
Qed.

Lemma starts_only_named_temporary_file w content :
  respects (starts_only P) (named_temporary_file w content).
Proof.
  intros st. exists []. by rewrite app_nil_r, named_temporary_file_trace.
Qed.

Lemma starts_only_unlink w p : respects (starts_only P) (unlink w p).
Proof. intros st. exists []. by rewrite app_nil_r, unlink_trace. Qed.
End StartsOnly.

(** ** What processes do to the filesystem *)

Lemma unlink_fs w p st : fs (unlink w p st).2 = unlinked w p (fs st).
Proof.
  unfold unlink, unlinked. destruct (blocked (fs st) p); [done|].
  destruct (fs st !! p) as [[[]| |]|]; try done; by destruct (unlink_denied w p).
Qed.

Lemma replay_app w h l1 l2 cur :
  replay w h (l1 ++ l2) cur = replay w (h ++ l1) l2 (replay w h l1 cur).
Proof.
  revert h cur. induction l1 as [|inv l1 IH]; intros h cur; simpl.
  - by rewrite app_nil_r.
  - rewrite IH. by rewrite <- app_assoc.
Qed.

#[global] Instance processes_only_preorder w : PreOrder (processes_only w).
Proof.
  split.
  - intros st. exists []. by rewrite app_nil_r.
  - intros st1 st2 st3 (l1 & Ht1 & Hfs1) (l2 & Ht2 & Hfs2).
    exists (l1 ++ l2). rewrite Ht2, Ht1, <- app_assoc. split; [done|].
    by rewrite replay_app, <- Hfs1, <- Ht1.
Qed.

#[global] Instance processes_only_console_blind w : ConsoleBlind (processes_only w).
Proof. intros st c. exists []. simpl. by rewrite app_nil_r. Qed.

Lemma processes_only_allows w Q : allows w (processes_only w) Q.
Proof.
  intros st inv _. exists [inv].
  by rewrite subprocess_run_trace, subprocess_run_fs.
Qed.

(** From the first stage to the last, the script itself writes nothing:
    the filesystem changes only by what its processes do. *)
Lemma pipeline_stages_processes_only w args config repo_root tmp_path :
  respects (processes_only w) (pipeline_stages w args config repo_root tmp_path).
Proof.
  apply respects_pipeline_stages; try apply _; intros; apply processes_only_allows.
Qed.

(** Processes that write nothing leave the filesystem as it was. *)
Lemma replay_idle w h l cur :
  (forall h' inv cur', effect w h' inv cur' = cur') -> replay w h l cur = cur.
Proof.
  intros Hidle. revert h cur. induction l as [|inv l IH]; intros h cur; simpl; [done|].
  rewrite IH. unfold process_effect. by destruct (spawn w h inv).
Qed.

(** A new regular file changes nothing to what can be reached. *)
Lemma blocked_insert_file cur tmp readable data p :
  cur !! tmp = None ->
  blocked (<[ tmp := Plain (File readable data) ]> cur) p = blocked cur p.
Proof.
  intros Hfree. unfold blocked.
  induction (ancestors p) as [|a l IH]; [done|]. simpl. rewrite IH. f_equal.
  unfold locked, barred, resolve.
  destruct (decide (a = tmp)) as [->|Hne].
  - by rewrite lookup_insert_eq, Hfree.
  - by rewrite lookup_insert_ne.
Qed.

Lemma unreachable_insert_file cur tmp readable data p :
  cur !! tmp = None ->
  unreachable (<[ tmp := Plain (File readable data) ]> cur) p = unreachable cur p.
Proof.
  intros Hfree. unfold unreachable. rewrite blocked_insert_file by done. f_equal.
  unfold barred. destruct (decide (p = tmp)) as [->|Hne].
  - by rewrite lookup_insert_eq, Hfree.
  - by rewrite lookup_insert_ne.
Qed.

Lemma read_text_insert_file cur tmp readable data p e :
  cur !! tmp = None ->
  read_text cur p = inl e -> e <> FileNotFoundError ->
  read_text (<[ tmp := Plain (File readable data) ]> cur) p = inl e.
Proof.
  intros Hfree. unfold read_text, stat.
  rewrite unreachable_insert_file by done.
  destruct (unreachable cur p); [done|]. unfold resolve.
  destruct (decide (p = tmp)) as [->|Hne].
  - rewrite Hfree. by intros [= <-].
  - by rewrite lookup_insert_ne.
Qed.

Lemma subcommand_not_test_run (sub : pystr) (inv : Invocation) :
  sub <> s!"run" -> subcommand sub inv -> is_test_run inv = false.
Proof.
  intros Hsub [rest Hargv]. unfold is_test_run. rewrite Hargv.
  rewrite (bool_decide_eq_false_2 (sub = s!"run")) by done. apply andb_false_r.
Qed.

(** ** The test stage *)

(** C8. With the skip-tests flag set the test stage returns at once,
    whatever the profile's test command would be, and no process started
    during the whole run is a test run. *)
Theorem skip_tests_starts_no_test_run (w : World) (args : Args) (st : State) :
  skip_tests args = true ->
  (forall config repo_root,
     build_test_in_container w config repo_root (skip_tests args) st = (inr tt, st))
  /\ starts_only (fun inv => is_test_run inv = false) st (main w args st).2.
Proof.
  intros Hskip. split; [by rewrite Hskip|].
  apply respects_main; try apply _.
  - congruence.
  - apply starts_only_allows. intros inv. by apply subcommand_not_test_run.
  - apply starts_only_allows. intros inv. by apply subcommand_not_test_run.
  - apply starts_only_allows. intros inv. by apply subcommand_not_test_run.
  - apply starts_only_named_temporary_file.
  - apply starts_only_unlink.
Qed.

(** On a Maven repository, whose test command is [mvn test]. *)
Lemma skip_tests_starts_no_test_run_witness :
  test_command config_java quiet fs_java srv = inr (Some [s!"mvn"; s!"test"])
  /\ (forall config repo_root,
        build_test_in_container quiet config repo_root (skip_tests args_skip_tests)
          (initial fs_java) = (inr tt, initial fs_java))
  /\ starts_only (fun inv => is_test_run inv = false) (initial fs_java)
       (main quiet args_skip_tests (initial fs_java)).2.
Proof.
  split; [reflexivity|].
  apply (skip_tests_starts_no_test_run quiet args_skip_tests (initial fs_java)).
  reflexivity.
Defined.

(** Without the flag the same run starts [docker run ... mvn test] first. *)
Example tests_run_without_skip :
  map argv (trace (main quiet args_plain (initial fs_java)).2) =
  [ [ s!"docker"; s!"run"; s!"--rm"; s!"-v"; s!"/srv/app:/app"; s!"-w"; s!"/app";
      s!"whanos-java:latest"; s!"mvn"; s!"test" ];
    [ s!"docker"; s!"build"; s!"-f"; s!"/tmp/tmpk3x9.Dockerfile"; s!"-t";
      s!"registry.example.com/org/app:1"; s!"/srv/app" ];
    [ s!"docker"; s!"push"; s!"registry.example.com/org/app:1" ] ].
Proof. by vm_compute. Qed.

Example skip_tests_trace :
  map argv (trace (main quiet args_skip_tests (initial fs_java)).2) =
  [ [ s!"docker"; s!"build"; s!"-f"; s!"/tmp/tmpk3x9.Dockerfile"; s!"-t";
      s!"registry.example.com/org/app:1"; s!"/srv/app" ];
    [ s!"docker"; s!"push"; s!"registry.example.com/org/app:1" ] ].
Proof. by vm_compute. Qed.

(** ** Customizations and the Dockerfile text *)

(** Both customization files are looked for before either is read. *)
Lemma locate_customizations_cases cur repo_root :
  locate_customizations cur repo_root =
  match path_exists cur (override_path repo_root),
        path_exists cur (append_path repo_root) with
  | inl e, _ => inl e
  | inr _, inl e => inl e
  | inr has_override, inr has_append =>
      inr [ (s!"override",
             if has_override then Some (override_path repo_root) else None);
            (s!"append",
             if has_append then Some (append_path repo_root) else None) ]
  end.
Proof.
  unfold locate_customizations, locate, override_path, append_path. unfold_result.
  destruct (path_exists cur (repo_root </> s!"whanos" </> s!"Dockerfile.override"))
    as [e|has_override]; [done|].
  by destruct (path_exists cur (repo_root </> s!"whanos" </> s!"Dockerfile.append")).
Qed.

Lemma dockerfile_content_cases w config repo_root st :
  dockerfile_content w config repo_root st =
  match path_exists (fs st) (override_path repo_root),
        path_exists (fs st) (append_path repo_root) with
  | inl e, _ => (inl e, st)
  | inr _, inl e => (inl e, st)
  | inr true, inr _ =>
      match read_text (fs st) (override_path repo_root) with
      | inl e => (inl e, st)
      | inr text =>
          (inr text,
           (print Stdout (s!"Using repository-provided Dockerfile override: "
                          ++ path_str (override_path repo_root)) st).2)
      end
  | inr false, inr true =>
      match read_text (fs st) (append_path repo_root) with
      | inl e => (inl e, st)
      | inr text => (render_dockerfile w (fs st) config repo_root (Some text), st)
      end
  | inr false, inr false => (render_dockerfile w (fs st) config repo_root None, st)
  end.
Proof.
  unfold dockerfile_content. unfold_monad. simpl.
  rewrite locate_customizations_cases.
  destruct (path_exists (fs st) (override_path repo_root)) as [e|[]]; [done| |];
    destruct (path_exists (fs st) (append_path repo_root)) as [e|[]]; simpl;
    try done.
  by destruct (read_text _ _).
Qed.

(** The text depends on the state through the filesystem only. *)
Lemma dockerfile_content_fs w config repo_root st st' :
  fs st' = fs st ->
  (dockerfile_content w config repo_root st').1 =
  (dockerfile_content w config repo_root st).1.
Proof.
  intros Hfs. rewrite !dockerfile_content_cases, Hfs.
  destruct (path_exists (fs st) (override_path repo_root)) as [e|[]]; [done| |];
    destruct (path_exists (fs st) (append_path repo_root)) as [e|[]]; try done;
    by destruct (read_text _ _).
Qed.

Lemma dockerfile_content_same_fs w config repo_root st :
  fs (dockerfile_content w config repo_root st).2 = fs st.
Proof. apply (respects_dockerfile_content same_fs). Qed.

(** A readable override file is the text, whatever the profile, the
    world and the append file, once the two customization paths could
    be looked at. *)
Lemma dockerfile_content_override w config repo_root st raw :
  is_inr (path_exists (fs st) (override_path repo_root)) = true ->
  is_inr (path_exists (fs st) (append_path repo_root)) = true ->
  resolve (fs st) (override_path repo_root) = Some (File true (Text raw)) ->
  dockerfile_content w config repo_root st =
  (inr (Py.universal_newlines raw),
   (print Stdout (s!"Using repository-provided Dockerfile override: "
                  ++ path_str (override_path repo_root)) st).2).
Proof.
  intros Hreach Happend Hraw.
  assert (Hread : read_text (fs st) (override_path repo_root)
                  = inr (Py.universal_newlines raw)).
  { revert Hreach. rewrite path_exists_cases. unfold read_text, stat.
    destruct (unreachable (fs st) (override_path repo_root)); [done|].
    by rewrite Hraw. }
  rewrite dockerfile_content_cases, (read_text_path_exists _ _ _ Hread), Hread.
  by destruct (path_exists (fs st) (append_path repo_root)).
Qed.

Lemma prepare_success w args st config tmp_path st1 :
  prepare w args st = (inr (config, tmp_path), st1) ->
  tmp_path = tmp_name w
  /\ is_dir (fs st) (repo args) = inr true
  /\ detect_language (fs st) (repo args) = inr config
  /\ blocked (fs st) tmp_path = false
  /\ fs st !! tmp_path = None
  /\ tmp_fault w = None
  /\ trace st1 = trace st
  /\ exists content,
       (dockerfile_content w config (repo args) st).1 = inr content
       /\ fs st1 = <[ tmp_path := plain_file content ]> (fs st).
Proof.
  unfold prepare. unfold_monad. simpl.
  destruct (is_dir (fs st) (repo args)) as [e|[]]; simpl; [done| |done].
  destruct (detect_language (fs st) (repo args)) as [e|config']; simpl; [done|].
  set (pst := {| fs := fs st; trace := trace st; console := _ |}).
  pose proof (dockerfile_content_same_fs w config' (repo args) pst) as Hfs.
  pose proof (dockerfile_content_fs w config' (repo args) st pst eq_refl) as Hres.
  pose proof (respects_dockerfile_content (starts_only (fun _ => False)) w config'
                (repo args) pst) as (l & Htrace & Hl).
  destruct (dockerfile_content _ _ _ pst) as [[e|content] st2]; simpl in *; [done|].
  unfold named_temporary_file. rewrite Hfs.
  destruct (blocked (fs st) (tmp_name w)) eqn:Hreach; [done|].
  destruct (fs st !! tmp_name w) eqn:Hfree; [done|].
  destruct (tmp_fault w) as [[]|] eqn:Hfault; try done.
  intros [= <- <- <-]. do 6 (split; [done|]). split.
  - simpl. rewrite Htrace. destruct l as [|inv l]; [by rewrite app_nil_r|].
    by apply Forall_cons in Hl as [[] _].
  - exists content. split; [done|]. done.
Qed.

Lemma build_image_trace w repo_root dockerfile_path image_ref bargs st :
  trace (build_image w repo_root dockerfile_path image_ref bargs st).2 =
  trace st ++ [ build_invocation repo_root dockerfile_path image_ref bargs ].
Proof.
  unfold build_image, run_command, subprocess_run. unfold_monad. simpl.
  fold (build_invocation repo_root dockerfile_path image_ref bargs).
  destruct (spawn w (trace st) _) as [|rc out err]; simpl; [done|].
  by destruct (negb (rc =? 0)%Z).
Qed.

Lemma universal_newlines_no_cr (s : pystr) :
  13%N ∉ s -> Py.universal_newlines s = s.
Proof.
  induction s as [|c s IH]; [done|].
  intros [Hc Hs]%not_elem_of_cons. simpl.
  destruct (N.eqb_spec c 13) as [->|_]; [done|]. by rewrite IH.
Qed.

(** What [main] does once the temporary file is there. *)
Lemma main_after_prepare w args st config tmp_path st1 :
  prepare w args st = (inr (config, tmp_path), st1) ->
  let stages := pipeline_stages w args config (repo args) tmp_path st1 in
  main w args st =
  match stages.1 with
  | inl e => (inl e, (unlink w tmp_path stages.2).2)
  | inr _ =>
      (inr 0%Z,
       (print Stdout s!"Build pipeline completed successfully."
          (unlink w tmp_path stages.2).2).2)
  end.
Proof.
  intros Hprep stages. unfold main. unfold_monad. rewrite Hprep. simpl.
  unfold try_finally. fold stages. destruct stages as [r st2]. simpl.
  unfold cleanup, suppress_OSError.
  destruct (unlink w tmp_path st2) as [[e|[]] st3] eqn:Hunlink; simpl.
  - assert (is_OSError e = true) as ->.
    { revert Hunlink. unfold unlink. destruct (blocked (fs st2) tmp_path).
      - by intros [= <- _].
      - destruct (fs st2 !! tmp_path) as [[[]| |]|]; try done;
          destruct (unlink_denied w tmp_path); try done; by intros [= <- _]. }
    by destruct r.
  - by destruct r.
Qed.

(** The build and push stages, started in any state: the first process
    is the build on the given Dockerfile, and the filesystem changes only
    by what the processes do. *)
Lemma build_and_push w args repo_root tmp_path st :
  let out :=
    (build_image w repo_root tmp_path (image args) (build_args args);;
     if negb (no_push args) then push_image w (image args)
     else print Stdout s!"Skipping image push (--no-push specified)") st in
  exists rest,
    trace out.2
    = trace st ++ build_invocation repo_root tmp_path (image args) (build_args args)
                  :: rest
    /\ fs out.2
       = replay w (trace st)
           (build_invocation repo_root tmp_path (image args) (build_args args) :: rest)
           (fs st).
Proof.
  intros out.
  assert (Hout : processes_only w st out.2).
  { apply (respects_bind (processes_only w)).
    - apply respects_build_image; [apply _ ..|]. apply processes_only_allows.
    - intros _. destruct (negb (no_push args)).
      + apply respects_push_image; [apply _ ..|]. apply processes_only_allows.
      + apply respects_print; apply _. }
  destruct Hout as (l & Htrace & Hfs).
  assert (Hfirst : exists rest,
    trace out.2
    = trace st ++ build_invocation repo_root tmp_path (image args) (build_args args)
                  :: rest).
  { unfold out. unfold_monad.
    pose proof (build_image_trace w repo_root tmp_path (image args) (build_args args) st)
      as Hbuild.
    destruct (build_image w repo_root tmp_path (image args) (build_args args) st)
      as [[e|[]] sc]; simpl in *; [by exists []|].
    destruct (no_push args); simpl; [by exists []|].
    pose proof (respects_push_image (starts_only (fun _ => True)) w (image args)
                  ltac:(by apply starts_only_allows) sc) as (lp & Hpush & _).
    exists lp. rewrite Hpush, Hbuild. by rewrite <- app_assoc. }
  destruct Hfirst as [rest Hfirst]. exists rest. split; [done|].
  rewrite Htrace in Hfirst. apply app_inv_head in Hfirst. by rewrite <- Hfirst.
Qed.

(** C3, as the code has it. When the repository has a readable override
    file, the text of the Dockerfile is that file's content as a read in
    text mode returns it: every CR LF and every lone CR turned into LF,
    and the content itself when it holds no CR. This is so whatever the
    profile, the environment and the append file. The run writes that
    text to a new temporary file; until the image build is started the
    filesystem changes only by what the processes of the test stage and
    of the login do to it, so the file still holds the text when they
    leave it alone. When one of the two stages fails the run ends with
    its exception and starts nothing more; otherwise the next process of
    the run is the [docker build] pointed at that file, started on the
    filesystem the two stages left. *)
Theorem override_read_in_text_mode (w : World) (args : Args) (st st1 : State)
    (config : LanguageConfig) (tmp_path : Path) (raw : pystr) :
  prepare w args st = (inr (config, tmp_path), st1) ->
  resolve (fs st) (override_path (repo args)) = Some (File true (Text raw)) ->
  let text := Py.universal_newlines raw in
  let before_build :=
    (build_test_in_container w config (repo args) (skip_tests args);;
     docker_login w (effective_registry args)) st1 in
  let build :=
    build_invocation (repo args) tmp_path (image args) (build_args args) in
  (forall w' config', (dockerfile_content w' config' (repo args) st).1 = inr text)
  /\ (13%N ∉ raw -> text = raw)
  /\ fs st !! tmp_path = None
  /\ fs st1 = <[ tmp_path := plain_file text ]> (fs st)
  /\ (exists l,
        trace before_build.2 = trace st ++ l
        /\ fs before_build.2
           = replay w (trace st) l (<[ tmp_path := plain_file text ]> (fs st)))
  /\ ((forall h inv cur, effect w h inv cur !! tmp_path = cur !! tmp_path) ->
      fs before_build.2 !! tmp_path = Some (plain_file text))
  /\ (forall e, before_build.1 = inl e ->
        (main w args st).1 = inl e
        /\ trace (main w args st).2 = trace before_build.2
        /\ fs (main w args st).2 = unlinked w tmp_path (fs before_build.2))
  /\ (before_build.1 = inr tt ->
      exists rest,
        trace (main w args st).2 = trace before_build.2 ++ build :: rest
        /\ fs (main w args st).2
           = unlinked w tmp_path
               (replay w (trace before_build.2) (build :: rest) (fs before_build.2))).
Proof.
  intros Hprep Hraw text before_build build.
  destruct (prepare_success _ _ _ _ _ _ Hprep)
    as (-> & Hdir & Hdet & Hreach & Hfree & Hfault & Htrace1 & content & Hcontent & Hfs1).
  assert (Hlooked :
    is_inr (path_exists (fs st) (override_path (repo args))) = true
    /\ is_inr (path_exists (fs st) (append_path (repo args))) = true).
  { revert Hcontent. rewrite dockerfile_content_cases.
    destruct (path_exists (fs st) (override_path (repo args))) as [e|[]]; [done| |];
      by destruct (path_exists (fs st) (append_path (repo args))). }
  destruct Hlooked as [Hoverride Happend].
  assert (Htext : forall w' config',
            (dockerfile_content w' config' (repo args) st).1 = inr text).
  { intros w' config'. by rewrite (dockerfile_content_override _ _ _ _ raw). }
  assert (content = text) as -> by (rewrite Htext in Hcontent; congruence).
  assert (Hbefore : processes_only w st1 before_build.2).
  { apply (respects_bind (processes_only w)
             (build_test_in_container w config (repo args) (skip_tests args))
             (fun _ => docker_login w (effective_registry args))).
    - apply respects_build_test_in_container; [apply _ ..|].
      apply processes_only_allows.
    - intros _. apply respects_docker_login; [apply _ ..|].
      apply processes_only_allows. }
  destruct Hbefore as (l & Htrace & Hfs). rewrite Htrace1 in Htrace.
  rewrite Htrace1, Hfs1 in Hfs.
  split; [exact Htext|]. split; [apply universal_newlines_no_cr|].
  split; [done|]. split; [done|]. split; [by exists l|].
  assert (Hmain := main_after_prepare _ _ _ _ _ _ Hprep). cbv zeta in Hmain.
  assert (Hstages :
    pipeline_stages w args config (repo args) (tmp_name w) st1 =
    match before_build.1 with
    | inl e => (inl e, before_build.2)
    | inr _ =>
        (build_image w (repo args) (tmp_name w) (image args) (build_args args);;
         if negb (no_push args) then push_image w (image args)
         else print Stdout s!"Skipping image push (--no-push specified)")
          before_build.2
    end).
  { unfold pipeline_stages, before_build. unfold_monad.
    destruct (build_test_in_container w config (repo args) (skip_tests args) st1)
      as [[e|[]] sa]; [done|].
    by destruct (docker_login w (effective_registry args) sa) as [[e|[]] sb]. }
  split; [|split].
  - intros Hquiet. rewrite Hfs. clear Hfs Htrace.
    generalize (trace st). revert l.
    assert (Hgen : forall l h cur, cur !! tmp_name w = Some (plain_file text) ->
              replay w h l cur !! tmp_name w = Some (plain_file text)).
    { induction l as [|inv l IH]; intros h cur Hcur; simpl; [done|].
      apply IH. unfold process_effect. destruct (spawn w h inv); [done|].
      by rewrite Hquiet. }
    intros l h. apply Hgen. apply lookup_insert_eq.
  - intros e He. rewrite Hmain, Hstages, He. simpl.
    by rewrite unlink_trace, unlink_fs.
  - intros Hok. rewrite Hmain, Hstages, Hok.
    destruct (build_and_push w args (repo args) (tmp_name w) before_build.2)
      as (rest & Htrace2 & Hfs2).
    exists rest. cbv zeta in Htrace2, Hfs2. fold build in Htrace2, Hfs2.
    destruct ((build_image w (repo args) (tmp_name w) (image args) (build_args args);;
               if negb (no_push args) then push_image w (image args)
               else print Stdout s!"Skipping image push (--no-push specified)")
                before_build.2) as [[e|[]] sd]; simpl in *;
      by rewrite unlink_trace, unlink_fs, Htrace2, Hfs2.
Qed.

(** On a Makefile repository that has both customization files. *)
Lemma override_read_in_text_mode_witness :
  let st := initial fs_override in
  let prepared := prepare quiet args_plain st in
  let text := Py.universal_newlines override_text in
  let before_build :=
    (build_test_in_container quiet config_c (repo args_plain) (skip_tests args_plain);;
     docker_login quiet (effective_registry args_plain)) prepared.2 in
  let build :=
    build_invocation (repo args_plain) (tmp_name quiet) (image args_plain)
      (build_args args_plain) in
  (forall w' config', (dockerfile_content w' config' (repo args_plain) st).1 = inr text)
  /\ (13%N ∉ override_text -> text = override_text)
  /\ fs st !! tmp_name quiet = None
  /\ fs prepared.2 = <[ tmp_name quiet := plain_file text ]> (fs st)
  /\ (exists l,
        trace before_build.2 = trace st ++ l
        /\ fs before_build.2
           = replay quiet (trace st) l (<[ tmp_name quiet := plain_file text ]> (fs st)))
  /\ ((forall h inv cur,
         effect quiet h inv cur !! tmp_name quiet = cur !! tmp_name quiet) ->
      fs before_build.2 !! tmp_name quiet = Some (plain_file text))
  /\ (forall e, before_build.1 = inl e ->
        (main quiet args_plain st).1 = inl e
        /\ trace (main quiet args_plain st).2 = trace before_build.2
        /\ fs (main quiet args_plain st).2
           = unlinked quiet (tmp_name quiet) (fs before_build.2))
  /\ (before_build.1 = inr tt ->
      exists rest,
        trace (main quiet args_plain st).2 = trace before_build.2 ++ build :: rest
        /\ fs (main quiet args_plain st).2
           = unlinked quiet (tmp_name quiet)
               (replay quiet (trace before_build.2) (build :: rest)
                  (fs before_build.2))).
Proof.
  apply (override_read_in_text_mode quiet args_plain (initial fs_override)
           (prepare quiet args_plain (initial fs_override)).2
           config_c (tmp_name quiet) override_text); vm_compute; reflexivity.
Defined.

Example override_without_cr_is_verbatim :
  (dockerfile_content quiet config_c srv (initial fs_override)).1 = inr override_text.
Proof. by vm_compute. Qed.

(** C3 as stated fails. An override file with CR LF line endings does
    not reach the build verbatim: the Dockerfile written for the build
    has LF line endings. *)
Lemma override_crlf_not_verbatim :
  resolve fs_override_crlf (override_path srv)
    = Some (File true (Text override_text_crlf))
  /\ (dockerfile_content quiet config_c srv (initial fs_override_crlf)).1
     = inr override_text
  /\ fs (prepare quiet args_plain (initial fs_override_crlf)).2 !! tmp_name quiet
     = Some (plain_file override_text)
  /\ override_text <> override_text_crlf.
Proof. repeat split; [by vm_compute ..|]. vm_compute. discriminate. Qed.

(** The profile that detection settles on generates its instructions:
    the only path they look at is a marker, which detection examined. *)
Lemma detected_instructions_generated cur repo_root config :
  detect_language cur repo_root = inr config ->
  is_inr (dockerfile_instructions config cur repo_root) = true.
Proof.
  unfold detect_language, LANGUAGE_CONFIGS.
  cbn [collect_matches detector config_c config_java config_javascript
         config_python config_befunge].
  unfold detect_c, detect_java, detect_javascript, detect_python, detect_befunge.
  unfold_result.
  destruct (path_exists cur (repo_root </> s!"Makefile")) as [e|[]]; [done|..];
    (destruct (path_exists cur (repo_root </> s!"pom.xml")) as [e|[]]; [done|..]);
    (destruct (path_exists cur (repo_root </> s!"package.json")) as [e|[]]; [done|..]);
    (destruct (path_exists cur (repo_root </> s!"requirements.txt")) as [e|[]] eqn:Hreq;
       [done|..]);
    (destruct (path_exists cur (repo_root </> s!"app" </> s!"main.bf")) as [e|[]];
       [done|..]);
    cbn [app length Nat.ltb Nat.leb]; try done; intros [= <-];
    cbn [dockerfile_instructions config_c config_java config_javascript
           config_python config_befunge snd]; try done;
    unfold docker_steps_python; by rewrite Hreq.
Qed.

(** C4, as the code has it. With an append file and no override, the
    Dockerfile is the rendered base (header, [FROM] line, [WORKDIR] line,
    the profile's instructions), then an empty line, the begin marker,
    the append text without its leading and trailing whitespace, and the
    end marker, provided the append text is not empty; an empty append
    file leaves the base alone. The append text is the file's content as
    a read in text mode returns it (the content itself when it holds no
    CR), and stripping drops a run of whitespace at each end and nothing
    else. The base is rendered whenever the profile generates its
    instructions, which the profile that detection settles on always
    does. *)
Theorem append_wrapped_after_strip (w : World) (config : LanguageConfig)
    (repo_root : Path) (st : State) (raw : pystr) :
  path_exists (fs st) (override_path repo_root) = inr false ->
  resolve (fs st) (append_path repo_root) = Some (File true (Text raw)) ->
  let snippet := Py.universal_newlines raw in
  let base := render_dockerfile w (fs st) config repo_root None in
  let produced := dockerfile_content w config repo_root st in
  base = match dockerfile_instructions config (fs st) repo_root with
         | inr steps =>
             inr (Py.join nl
                    ([ header_line; s!"FROM " ++ resolve_base_image w config;
                       s!"WORKDIR /app" ]
                     ++ steps) ++ nl)
         | inl e => inl e
         end
  /\ (detect_language (fs st) repo_root = inr config -> is_inr base = true)
  /\ (13%N ∉ raw -> snippet = raw)
  /\ (snippet <> [] ->
      produced = (match base with
                  | inr text => inr (appended_verbatim text (Py.strip snippet))
                  | inl e => inl e
                  end, st))
  /\ (snippet = [] -> produced = (base, st))
  /\ exists a b,
       snippet = a ++ Py.strip snippet ++ b
       /\ forallb Py.isspace a = true
       /\ forallb Py.isspace b = true
       /\ (forall c, head (Py.strip snippet) = Some c -> Py.isspace c = false)
       /\ (forall c, last (Py.strip snippet) = Some c -> Py.isspace c = false).
Proof.
  intros Hno Hraw snippet base produced.
  assert (Hoverride : blocked (fs st) (override_path repo_root) = false).
  { revert Hno. rewrite path_exists_cases. unfold unreachable.
    by destruct (blocked (fs st) (override_path repo_root)). }
  assert (Hreach : unreachable (fs st) (append_path repo_root) = false).
  { unfold unreachable, append_path.
    rewrite (blocked_sibling _ _ _ s!"Dockerfile.override").
    fold (override_path repo_root). fold (append_path repo_root).
    by rewrite Hoverride, (resolve_not_barred _ _ _ Hraw). }
  assert (Hread : read_text (fs st) (append_path repo_root) = inr snippet)
    by (unfold read_text, stat; by rewrite Hreach, Hraw).
  assert (Hbase :
    base = match dockerfile_instructions config (fs st) repo_root with
           | inr steps =>
               inr (Py.join nl
                      ([ header_line; s!"FROM " ++ resolve_base_image w config;
                         s!"WORKDIR /app" ]
                       ++ steps) ++ nl)
           | inl e => inl e
           end).
  { unfold base, render_dockerfile. unfold_result.
    by destruct (dockerfile_instructions config (fs st) repo_root). }
  assert (Hproduced :
    produced = (render_dockerfile w (fs st) config repo_root (Some snippet), st)).
  { unfold produced.
    by rewrite dockerfile_content_cases, Hno, (read_text_path_exists _ _ _ Hread), Hread. }
  split; [exact Hbase|]. split; [|split; [apply universal_newlines_no_cr|split; [|split]]].
  - intros Hdetected. rewrite Hbase.
    pose proof (detected_instructions_generated _ _ _ Hdetected) as Hsteps.
    by destruct (dockerfile_instructions config (fs st) repo_root).
  - intros Hne. by rewrite Hproduced, render_dockerfile_snippet.
  - intros Hempty. by rewrite Hproduced, Hempty, render_dockerfile_plain.
  - apply strip_spec.
Qed.

(** On a Makefile repository whose append file is
    ["  RUN make check\n"]. *)
Lemma append_wrapped_after_strip_witness :
  let snippet := Py.universal_newlines indented_snippet in
  let base := render_dockerfile quiet fs_append config_c srv None in
  let produced := dockerfile_content quiet config_c srv (initial fs_append) in
  base = match dockerfile_instructions config_c fs_append srv with
         | inr steps =>
             inr (Py.join nl
                    ([ header_line; s!"FROM " ++ resolve_base_image quiet config_c;
                       s!"WORKDIR /app" ]
                     ++ steps) ++ nl)
         | inl e => inl e
         end
  /\ (detect_language fs_append srv = inr config_c -> is_inr base = true)
  /\ (13%N ∉ indented_snippet -> snippet = indented_snippet)
  /\ (snippet <> [] ->
      produced = (match base with
                  | inr text => inr (appended_verbatim text (Py.strip snippet))
                  | inl e => inl e
                  end, initial fs_append))
  /\ (snippet = [] -> produced = (base, initial fs_append))
  /\ exists a b,
       snippet = a ++ Py.strip snippet ++ b
       /\ forallb Py.isspace a = true
       /\ forallb Py.isspace b = true
       /\ (forall c, head (Py.strip snippet) = Some c -> Py.isspace c = false)
       /\ (forall c, last (Py.strip snippet) = Some c -> Py.isspace c = false).
Proof.
  apply (append_wrapped_after_strip quiet config_c srv (initial fs_append)
           indented_snippet); vm_compute; reflexivity.
Defined.

Example strip_indented_snippet : Py.strip indented_snippet = s!"RUN make check".
Proof. by vm_compute. Qed.

Example rendered_with_snippet :
  (dockerfile_content quiet config_c srv (initial fs_append)).1
  = inr (header_line ++ nl
         ++ s!"FROM whanos-c:latest" ++ nl
         ++ s!"WORKDIR /app" ++ nl
         ++ s!"COPY . ." ++ nl
         ++ s!"RUN make" ++ nl
         ++ q!"CMD ['./compiled-app']" ++ nl
         ++ nl
         ++ begin_marker ++ nl
         ++ s!"RUN make check" ++ nl
         ++ end_marker ++ nl).
Proof. by vm_compute. Qed.

(** C4 as stated fails. The append file ["  RUN make check\n"] does not
    reach the Dockerfile verbatim: its two leading spaces are gone, so
    the content is not even a substring of the result. An empty append
    file produces no marker at all. An append file with a CR LF between
    two lines loses the CR. *)
Lemma append_content_not_verbatim :
  let produced := (dockerfile_content quiet config_c srv (initial fs_append)).1 in
  path_exists fs_append (override_path srv) = inr false
  /\ resolve fs_append (append_path srv) = Some (File true (Text indented_snippet))
  /\ (exists base,
        render_dockerfile quiet fs_append config_c srv None = inr base
        /\ produced <> inr (appended_verbatim base indented_snippet))
  /\ (exists d, produced = inr d /\ Py.contains indented_snippet d = false)
  /\ resolve fs_append_empty (append_path srv) = Some (File true (Text []))
  /\ (exists d,
        (dockerfile_content quiet config_c srv (initial fs_append_empty)).1 = inr d
        /\ Py.contains begin_marker d = false)
  /\ resolve fs_append_crlf (append_path srv) = Some (File true (Text snippet_crlf))
  /\ exists d,
       (dockerfile_content quiet config_c srv (initial fs_append_crlf)).1 = inr d
       /\ Py.contains snippet_crlf d = false.
Proof.
  cbv zeta. split; [by vm_compute|]. split; [by vm_compute|].
  split; [eexists; split; [by vm_compute | vm_compute; discriminate]|].
  split; [eexists; split; [by vm_compute | by vm_compute]|].
  split; [by vm_compute|].
  split; [eexists; split; [by vm_compute | by vm_compute]|].
  split; [by vm_compute|].
  eexists; split; [by vm_compute | by vm_compute].
Qed.

(** ** Cleanup of the temporary Dockerfile *)

(** Whatever stops the deletion is an [OSError], and nothing has been
    deleted then. *)
Lemma unlink_error w p st e :
  (unlink w p st).1 = inl e -> is_OSError e = true /\ (unlink w p st).2 = st.
Proof.
  unfold unlink. destruct (blocked (fs st) p); [by intros [= <-]|].
  destruct (fs st !! p) as [[[]| |]|]; try done;
    destruct (unlink_denied w p); try done; by intros [= <-].
Qed.

Lemma unlink_done w p st :
  (unlink w p st).1 = inr tt -> fs (unlink w p st).2 !! p = None.
Proof.
  unfold unlink. destruct (blocked (fs st) p); [done|].
  destruct (fs st !! p) as [[[]| |]|] eqn:Hp; try done;
    destruct (unlink_denied w p); try done; intros _; apply lookup_delete_eq.
Qed.

Lemma unlink_refused w p st :
  unlink_denied w p = true -> (unlink w p st).2 = st.
Proof.
  intros Hdenied. unfold unlink. destruct (blocked (fs st) p); [done|].
  destruct (fs st !! p) as [[[]| |]|]; try done; by rewrite Hdenied.
Qed.

(** The [finally] clause never raises: a refusal of the operating
    system is an [OSError] and is dropped. *)
Lemma cleanup_outcome w tmp_path st :
  (cleanup w tmp_path st).1 = inr tt.
Proof.
  unfold cleanup, suppress_OSError.
  pose proof (unlink_error w tmp_path st) as Herr.
  destruct (unlink w tmp_path st) as [[e|[]] st']; [|done].
  destruct (Herr e eq_refl) as [-> _]. done.
Qed.

Lemma cleanup_state w tmp_path st :
  (cleanup w tmp_path st).2 = (unlink w tmp_path st).2.
Proof.
  unfold cleanup, suppress_OSError.
  destruct (unlink w tmp_path st) as [[e|[]] st']; [|done].
  by destruct (is_OSError e).
Qed.

(** C5, as the code has it. Once the temporary Dockerfile exists, the
    outcome of the run is the outcome of the stages (test, login, build,
    push), whatever the deletion does; the deletion is attempted on both
    exits, and what the run leaves of the filesystem is what the deletion
    leaves. When the deletion goes through, the path is gone afterwards;
    when it is stopped, by an [OSError] that is dropped, nothing is
    deleted, and a file that the operating system refuses to delete is
    still there. *)
Theorem temporary_file_cleanup (w : World) (args : Args) (st st1 : State)
    (config : LanguageConfig) (tmp_path : Path) :
  prepare w args st = (inr (config, tmp_path), st1) ->
  let stages := pipeline_stages w args config (repo args) tmp_path st1 in
  let deletion := unlink w tmp_path stages.2 in
  let out := main w args st in
  out.1 = match stages.1 with inl e => inl e | inr _ => inr 0%Z end
  /\ (script w args st).1 = match stages.1 with inl _ => 1%Z | inr _ => 0%Z end
  /\ is_Some (fs st1 !! tmp_path)
  /\ fs out.2 = fs deletion.2
  /\ (deletion.1 = inr tt -> fs out.2 !! tmp_path = None)
  /\ (forall e, deletion.1 = inl e -> is_OSError e = true /\ fs out.2 = fs stages.2)
  /\ (unlink_denied w tmp_path = true ->
      fs out.2 = fs stages.2
      /\ (is_Some (fs stages.2 !! tmp_path) -> is_Some (fs out.2 !! tmp_path))).
Proof.
  intros Hprep stages deletion out.
  destruct (prepare_success _ _ _ _ _ _ Hprep)
    as (_ & _ & _ & _ & _ & _ & _ & content & _ & Hfs1).
  pose proof (main_after_prepare _ _ _ _ _ _ Hprep) as Hout. cbv zeta in Hout.
  fold stages deletion out in Hout.
  assert (Hfsout : fs out.2 = fs deletion.2)
    by (rewrite Hout; by destruct stages.1).
  split; [rewrite Hout; by destruct stages.1|].
  split; [unfold script; fold out; rewrite Hout; by destruct stages.1 as [[]|]|].
  split; [rewrite Hfs1, lookup_insert_eq; by eexists|].
  split; [done|]. rewrite Hfsout. split; [|split].
  - apply unlink_done.
  - intros e He. destruct (unlink_error _ _ _ _ He) as [Hos Hsame].
    split; [done|]. unfold deletion. by rewrite Hsame.
  - intros Hdenied. unfold deletion. by rewrite unlink_refused.
Qed.

(** A run whose build fails, in a world that allows the deletion. *)
Lemma temporary_file_cleanup_witness :
  let st1 := (prepare world_build_fails args_plain (initial fs_makefile)).2 in
  let tmp_path := tmp_name world_build_fails in
  let stages := pipeline_stages world_build_fails args_plain config_c
                  (repo args_plain) tmp_path st1 in
  let deletion := unlink world_build_fails tmp_path stages.2 in
  let out := main world_build_fails args_plain (initial fs_makefile) in
  out.1 = match stages.1 with inl e => inl e | inr _ => inr 0%Z end
  /\ (script world_build_fails args_plain (initial fs_makefile)).1
     = match stages.1 with inl _ => 1%Z | inr _ => 0%Z end
  /\ is_Some (fs st1 !! tmp_path)
  /\ fs out.2 = fs deletion.2
  /\ (deletion.1 = inr tt -> fs out.2 !! tmp_path = None)
  /\ (forall e, deletion.1 = inl e -> is_OSError e = true /\ fs out.2 = fs stages.2)
  /\ (unlink_denied world_build_fails tmp_path = true ->
      fs out.2 = fs stages.2
      /\ (is_Some (fs stages.2 !! tmp_path) -> is_Some (fs out.2 !! tmp_path))).
Proof.
  apply (temporary_file_cleanup world_build_fails args_plain (initial fs_makefile)).
  vm_compute. reflexivity.
Defined.

Example build_failure_reported :
  (script world_build_fails args_plain (initial fs_makefile)).1 = 1%Z
  /\ fs (script world_build_fails args_plain (initial fs_makefile)).2
       !! tmp_name world_build_fails = None.
Proof. by vm_compute. Qed.

(** When the write of the temporary file fails, the run ends before the
    [try]: no deletion is attempted and the file stays, with what was
    written. *)
Example failed_write_leaves_the_file :
  (main world_disk_full args_plain (initial fs_makefile)).1 = inl OSError
  /\ fs (main world_disk_full args_plain (initial fs_makefile)).2
       !! tmp_name world_disk_full
     = Some (plain_file s!"# Generated by").
Proof. by vm_compute. Qed.

(** C5 as stated fails. When the operating system refuses the deletion
    the run still succeeds, and the temporary Dockerfile is still there
    after it. *)
Lemma temporary_file_left_behind :
  (main world_denied args_plain (initial fs_makefile)).1 = inr 0%Z
  /\ is_Some (fs (main world_denied args_plain (initial fs_makefile)).2
              !! tmp_name world_denied).
Proof. split; [by vm_compute|]. vm_compute. by eexists. Qed.

(** ** Determinism of the Dockerfile text *)

(** C7. Producing the Dockerfile text twice in a row gives the same
    text; the text depends on the state only through the filesystem, not
    on what was printed or run before; and for a fixed append content
    the rendering reads nothing of the world but the profile's base
    image variable and nothing of the repository but what the profile's
    instructions depend on. *)
Theorem dockerfile_content_deterministic (w : World) (config : LanguageConfig)
    (repo_root : Path) (st : State) :
  let run s := dockerfile_content w config repo_root s in
  (run (run st).2).1 = (run st).1
  /\ (forall st', fs st' = fs st -> (run st').1 = (run st).1)
  /\ (forall w' cur' snippet,
        environ w' !! base_image_env config = environ w !! base_image_env config ->
        dockerfile_instructions config cur' repo_root
          = dockerfile_instructions config (fs st) repo_root ->
        render_dockerfile w' cur' config repo_root snippet
          = render_dockerfile w (fs st) config repo_root snippet).
Proof.
  intros run.
  assert (Hfs : forall st', fs st' = fs st -> (run st').1 = (run st).1).
  { intros st' Hfs. unfold run. by apply dockerfile_content_fs. }
  split; [|split; [exact Hfs|]].
  - apply Hfs. unfold run. apply dockerfile_content_same_fs.
  - intros w' cur' snippet Henv Hsteps.
    unfold render_dockerfile, resolve_base_image, environ_get.
    by rewrite Henv, Hsteps.
Qed.

(** The python profile on two repositories without requirements.txt, in
    two worlds that differ in the C image variable only; and two states
    with the same files but another history. *)
Lemma dockerfile_content_deterministic_witness :
  render_dockerfile world_custom_c fs_bare config_python srv (Some indented_snippet)
  = render_dockerfile quiet (fs (initial fs_makefile)) config_python srv
      (Some indented_snippet)
  /\ (dockerfile_content quiet config_python srv
        {| fs := fs_makefile;
           trace := [ {| argv := [ s!"docker"; s!"version" ]; stdin := None |} ];
           console := [ (Stderr, s!"warming up") ] |}).1
     = (dockerfile_content quiet config_python srv (initial fs_makefile)).1.
Proof.
  split.
  - apply (proj2 (proj2
             (dockerfile_content_deterministic quiet config_python srv
                (initial fs_makefile))));
      vm_compute; reflexivity.
  - apply (proj1 (proj2
             (dockerfile_content_deterministic quiet config_python srv
                (initial fs_makefile)))
             {| fs := fs_makefile;
                trace := [ {| argv := [ s!"docker"; s!"version" ]; stdin := None |} ];
                console := [ (Stderr, s!"warming up") ] |}).
    reflexivity.
Defined.

Example render_twice_with_override :
  let run s := dockerfile_content quiet config_c srv s in
  console (run (initial fs_override)).2 <> console (initial fs_override)
  /\ (run (run (initial fs_override)).2).1 = inr override_text.
Proof. split; [vm_compute; discriminate | vm_compute; reflexivity]. Qed.

(** ** The javascript test command *)

Lemma scripts_contains (scripts : list (pystr * json)) (key : pystr) :
  json_contains (if json_truthy (JDict scripts) then JDict scripts else JDict []) key
  = inr (existsb (fun kv : pystr * json => bool_decide (kv.1 = key)) scripts).
Proof. by destruct scripts. Qed.

Lemma scripts_has_key (scripts : list (pystr * json)) (key : pystr) :
  existsb (fun kv : pystr * json => bool_decide (kv.1 = key)) scripts = true
  <-> key ∈ map fst scripts.
Proof.
  rewrite existsb_exists, list_elem_of_In, in_map_iff. split.
  - intros [kv [Hin Hk%bool_decide_eq_true]]. by exists kv.
  - intros [kv [Hk Hin]]. exists kv. split; [done|]. by apply bool_decide_eq_true.
Qed.

(** A resolver that raises ends the test stage, and with it the stages,
    before any process is started. *)
Lemma pipeline_stages_resolver_raises w args config tmp_path st e :
  skip_tests args = false ->
  test_command config w (fs st) (repo args) = inl e ->
  pipeline_stages w args config (repo args) tmp_path st = (inl e, st).
Proof.
  intros Hskip Hcmd. unfold pipeline_stages, build_test_in_container.
  rewrite Hskip. unfold_monad. simpl. by rewrite Hcmd.
Qed.

(** C10, as the code has it. The resolver returns no command when
    package.json is missing (a dangling link included) or is not JSON;
    any other failure of the read (a directory, no permission, bytes that
    are not UTF-8) leaves the resolver as an exception; when the manifest
    is an object whose [scripts] is a mapping, the command is [npm test]
    exactly when the mapping has the key [test], and without [scripts]
    there is no command. Whenever a resolver returns no command the test
    stage prints a note and starts no process. A run of the javascript
    profile that has its temporary Dockerfile and was not told to skip
    the tests ends with the exception of such a read, with exit status 1
    and without having started a process, after attempting the deletion
    of the temporary file. *)
Theorem test_command_javascript_cases (w : World) (cur : FS) (repo_root : Path) :
  let package_json := repo_root </> s!"package.json" in
  let result := test_command_javascript w cur repo_root in
  (read_text cur package_json = inl FileNotFoundError -> result = inr None)
  /\ (forall text,
        read_text cur package_json = inr text -> json_loads w text = None ->
        result = inr None)
  /\ (forall e,
        read_text cur package_json = inl e -> e <> FileNotFoundError ->
        result = inl e)
  /\ (forall text items scripts,
        read_text cur package_json = inr text ->
        json_loads w text = Some (JDict items) ->
        dict_get items s!"scripts" = JDict scripts ->
        (result = inr (Some npm_test) <-> s!"test" ∈ map fst scripts)
        /\ (result = inr None <-> s!"test" ∉ map fst scripts))
  /\ (forall text items,
        read_text cur package_json = inr text ->
        json_loads w text = Some (JDict items) ->
        dict_get items s!"scripts" = JNone ->
        result = inr None)
  /\ (forall config st,
        test_command config w (fs st) repo_root = inr None ->
        build_test_in_container w config repo_root false st
        = (inr tt,
           (print Stdout (s!"No test command configured for " ++ name config
                          ++ s!"; skipping test phase.") st).2))
  /\ (forall args st tmp_path st1 e,
        repo args = repo_root -> fs st = cur ->
        prepare w args st = (inr (config_javascript, tmp_path), st1) ->
        skip_tests args = false ->
        read_text cur package_json = inl e -> e <> FileNotFoundError ->
        (main w args st).1 = inl e
        /\ (script w args st).1 = 1%Z
        /\ trace (main w args st).2 = trace st
        /\ fs (main w args st).2 = fs (unlink w tmp_path st1).2).
Proof.
  intros package_json result.
  assert (Hraise : forall cur' e,
            read_text cur' package_json = inl e -> e <> FileNotFoundError ->
            test_command_javascript w cur' repo_root = inl e).
  { intros cur' e Hread He. unfold test_command_javascript. fold package_json.
    rewrite Hread. by destruct e. }
  unfold result, test_command_javascript. fold package_json.
  split; [|split; [|split; [|split; [|split; [|split]]]]].
  - by intros ->.
  - by intros text -> ->.
  - intros e Hread He. by apply Hraise.
  - intros text items scripts -> -> Hscripts. cbn [json_get]. rewrite Hscripts.
    rewrite scripts_contains, <- scripts_has_key.
    destruct (existsb _ scripts); split; split;
      first [ reflexivity | discriminate | intros _; discriminate
            | intros H; exfalso; by apply H ].
  - intros text items -> -> Hscripts. cbn [json_get]. by rewrite Hscripts.
  - intros config st Hnone. unfold build_test_in_container.
    unfold_monad. simpl. by rewrite Hnone.
  - intros args st tmp_path st1 e Hrepo Hcur Hprep Hskip Hread He. subst cur repo_root.
    destruct (prepare_success _ _ _ _ _ _ Hprep)
      as (_ & _ & _ & _ & Hfree & _ & Htrace1 & content & _ & Hfs1).
    assert (Hstages :
      pipeline_stages w args config_javascript (repo args) tmp_path st1 = (inl e, st1)).
    { apply pipeline_stages_resolver_raises; [done|].
      apply Hraise; [|done]. rewrite Hfs1. by apply read_text_insert_file. }
    pose proof (main_after_prepare _ _ _ _ _ _ Hprep) as Hmain. cbv zeta in Hmain.
    rewrite Hstages in Hmain. simpl in Hmain.
    unfold script. rewrite Hmain. simpl.
    split; [done|]. split; [by destruct e|]. split; [|done].
    by rewrite unlink_trace.
Qed.

(** A dangling link, a manifest that is not JSON, a manifest the user
    may not read, and a manifest with a test script. *)
Lemma test_command_javascript_cases_witness :
  test_command_javascript world_js fs_js_dangling srv = inr None
  /\ test_command_javascript world_js fs_js_garbage srv = inr None
  /\ test_command_javascript world_js fs_js_unreadable srv = inl PermissionError
  /\ test_command_javascript world_js fs_js srv = inr (Some npm_test)
  /\ build_test_in_container world_js config_javascript srv false
       (initial fs_js_garbage)
     = (inr tt,
        (print Stdout (s!"No test command configured for " ++ name config_javascript
                       ++ s!"; skipping test phase.") (initial fs_js_garbage)).2)
  /\ (main world_js args_plain (initial fs_js_unreadable)).1 = inl PermissionError
     /\ (script world_js args_plain (initial fs_js_unreadable)).1 = 1%Z
     /\ trace (main world_js args_plain (initial fs_js_unreadable)).2
        = trace (initial fs_js_unreadable)
     /\ fs (main world_js args_plain (initial fs_js_unreadable)).2
        = fs (unlink world_js (tmp_name world_js)
                (prepare world_js args_plain (initial fs_js_unreadable)).2).2.
Proof.
  split; [|split; [|split; [|split; [|split]]]].
  - apply (proj1 (test_command_javascript_cases world_js fs_js_dangling srv)).
    vm_compute. reflexivity.
  - apply (proj1 (proj2 (test_command_javascript_cases world_js fs_js_garbage srv))
             s!"{scripts"); vm_compute; reflexivity.
  - apply (proj1 (proj2 (proj2
             (test_command_javascript_cases world_js fs_js_unreadable srv)))
             PermissionError); [vm_compute; reflexivity | discriminate].
  - apply (proj1 (proj2 (proj2 (proj2
             (test_command_javascript_cases world_js fs_js srv))))
             manifest_text
             [ (s!"scripts", JDict [ (s!"test", JStr s!"jest") ]) ]
             [ (s!"test", JStr s!"jest") ]);
      [vm_compute; reflexivity ..|].
    cbn [map fst]. constructor.
  - apply (proj1 (proj2 (proj2 (proj2 (proj2 (proj2
             (test_command_javascript_cases world_js fs_js_garbage srv))))))
             config_javascript (initial fs_js_garbage)).
    vm_compute. reflexivity.
  - apply (proj2 (proj2 (proj2 (proj2 (proj2 (proj2
             (test_command_javascript_cases world_js fs_js_unreadable srv))))))
             args_plain (initial fs_js_unreadable) (tmp_name world_js)
             (prepare world_js args_plain (initial fs_js_unreadable)).2
             PermissionError);
      [reflexivity | reflexivity | vm_compute; reflexivity | reflexivity
      | vm_compute; reflexivity | discriminate].
Defined.

(** C10 as stated fails. A package.json that exists but cannot be read
    does not make the resolver return "no command": the exception of the
    read leaves the resolver and ends the run with status 1. *)
Lemma unreadable_manifest_fails_the_run :
  detect_language fs_js_unreadable srv = inr config_javascript
  /\ test_command_javascript quiet fs_js_unreadable srv = inl PermissionError
  /\ (main quiet args_plain (initial fs_js_unreadable)).1 = inl PermissionError
  /\ (script quiet args_plain (initial fs_js_unreadable)).1 = 1%Z
  /\ detect_language fs_js_directory srv = inr config_javascript
  /\ test_command_javascript quiet fs_js_directory srv = inl IsADirectoryError
  /\ (main quiet args_plain (initial fs_js_directory)).1 = inl IsADirectoryError.
Proof. repeat split; vm_compute; reflexivity. Qed.

(** With the skip-tests flag the resolver is not consulted, and the same
    repository is built. *)
Example unreadable_manifest_with_skip_tests :
  (main quiet args_skip_tests (initial fs_js_unreadable)).1 = inr 0%Z.
Proof. by vm_compute. Qed.

(** A manifest that decodes to something else than an object, or whose
    [scripts] is a number, also ends the resolver with an exception; a
    [scripts] that is a string is searched for the text [test]. *)
Example manifest_of_another_shape :
  let world_with value :=
    {| environ := environ quiet; json_loads := fun _ => Some value;
       spawn := spawn quiet; effect := effect quiet;
       tmp_fault := tmp_fault quiet; unlink_denied := unlink_denied quiet;
       tmp_dir := tmp_dir quiet; tmp_random := tmp_random quiet |} in
  test_command_javascript (world_with (JList [])) fs_js srv = inl AttributeError
  /\ test_command_javascript (world_with (JDict [ (s!"scripts", JInt 1) ])) fs_js srv
     = inl TypeError
  /\ test_command_javascript
       (world_with (JDict [ (s!"scripts", JStr s!"run the tests") ])) fs_js srv
     = inr (Some npm_test).
Proof. repeat split; vm_compute; reflexivity. Qed.

(** ** Order and success of the processes of a run *)

Lemma all_succeeded_nil w h : all_succeeded w h [].
Proof. intros [|x l1] inv l2 Heq; discriminate. Qed.

Lemma all_succeeded_cons w h inv l :
  (exists out err, spawn w h inv = Completed 0 out err) ->
  all_succeeded w (h ++ [inv]) l ->
  all_succeeded w h (inv :: l).
Proof.
  intros Hinv Hl [|x l1] inv' l2 Heq; simpl in Heq.
  - injection Heq as <- _. by rewrite app_nil_r.
  - injection Heq as <- ->. specialize (Hl l1 inv' l2 eq_refl).
    by rewrite <- app_assoc in Hl.
Qed.

Lemma all_succeeded_removelast w h l :
  all_succeeded w h l -> all_succeeded w h (removelast l).
Proof.
  intros Hl l1 inv l2 Heq.
  destruct (decide (l = [])) as [->|Hne]; [by destruct l1|].
  apply (Hl l1 inv (l2 ++ [List.last l inv])).
  rewrite (app_removelast_last inv Hne) at 1. rewrite Heq.
  by rewrite <- app_assoc.
Qed.

Lemma emits_bind {A B} S1 S2 S (m : M A) (k : A -> M B) :
  emits S1 m -> (forall a, emits S2 (k a)) ->
  (forall h l1, S1 h l1 false -> S h l1 false) ->
  (forall h l1 l2 ok, S1 h l1 true -> S2 (h ++ l1) l2 ok -> S h (l1 ++ l2) ok) ->
  emits S (m ≫= k).
Proof.
  intros Hm Hk Hfail Hseq st. unfold_monad.
  destruct (Hm st) as (l1 & Ht1 & HS1).
  destruct (m st) as [[e|a] st1]; simpl in *.
  - exists l1. auto.
  - destruct (Hk a st1) as (l2 & Ht2 & HS2). exists (l1 ++ l2).
    rewrite Ht2, Ht1, app_assoc. split; [done|].
    apply Hseq; [done|]. by rewrite <- Ht1.
Qed.

Lemma emits_silent {A} S (m : M A) :
  (forall st, trace (m st).2 = trace st) -> (forall h ok, S h [] ok) -> emits S m.
Proof. intros Hm HS st. exists []. by rewrite app_nil_r. Qed.

(** A step that starts nothing, followed by anything. *)
Lemma emits_silent_bind {A B} S (m : M A) (k : A -> M B) :
  (forall st, trace (m st).2 = trace st) -> (forall a, emits S (k a)) ->
  (forall h, S h [] false) ->
  emits S (m ≫= k).
Proof.
  intros Hm Hk Hnil.
  apply (emits_bind silent_spec S S); [| done | |].
  - by apply emits_silent.
  - by intros h l1 ->.
  - intros h l1 l2 ok ->. by rewrite app_nil_r.
Qed.

(** Anything, followed by a step that starts nothing and cannot fail. *)
Lemma emits_bind_silent {A B} S (m : M A) (k : A -> M B) :
  emits S m ->
  (forall a st, trace (k a st).2 = trace st /\ is_inr (k a st).1 = true) ->
  emits S (m ≫= k).
Proof.
  intros Hm Hk st. unfold_monad.
  destruct (Hm st) as (l1 & Ht1 & HS1).
  destruct (m st) as [[e|a] st1]; simpl in *; [by exists l1|].
  destruct (Hk a st1) as [Ht2 Hok]. exists l1. by rewrite Ht2, Hok.
Qed.

Lemma run_command_emits w command capture_output (Q : Invocation -> Prop) :
  Q {| argv := command; stdin := None |} ->
  emits (stage_spec w Q) (run_command w command true capture_output).
Proof.
  intros HQ st. exists [ {| argv := command; stdin := None |} ].
  unfold run_command, subprocess_run. unfold_monad.
  destruct (spawn w (trace st) _) as [|rc out err] eqn:Hspawn; simpl.
  - split; [done|]. right. eexists. split; [done|]. split; [done|]. intros [=].
  - destruct (Z.eqb_spec rc 0) as [->|Hrc]; simpl.
    + split; [done|]. right. eexists. split; [done|]. split; [done|]. eauto.
    + split; [done|]. right. eexists. split; [done|]. split; [done|]. intros [=].
Qed.

Lemma stage_spec_nil w Q h ok : stage_spec w Q h [] ok.
Proof. by left. Qed.

Lemma build_test_in_container_emits w config repo_root skip :
  emits (stage_spec w (fun inv => stage_rank inv = 0%nat))
        (build_test_in_container w config repo_root skip).
Proof.
  unfold build_test_in_container. destruct skip.
  { apply emits_silent; [done | intros; apply stage_spec_nil]. }
  apply emits_silent_bind; [done | | intros; apply stage_spec_nil]. intros cur.
  apply emits_silent_bind; [done | | intros; apply stage_spec_nil]. intros cmd.
  destruct (negb (cmd_truthy cmd)).
  { apply emits_silent; [done | intros; apply stage_spec_nil]. }
  apply emits_silent_bind; [done | | intros; apply stage_spec_nil]. intros _.
  apply emits_bind_silent; [|done].
  by apply run_command_emits.
Qed.

Lemma docker_login_emits w registry :
  emits (stage_spec w (fun inv => stage_rank inv = 1%nat)) (docker_login w registry).
Proof.
  unfold docker_login.
  destruct (negb (Py.opt_truthy registry)).
  { apply emits_silent; [done | intros; apply stage_spec_nil]. }
  destruct (_ || _).
  { apply emits_silent; [done | intros; apply stage_spec_nil]. }
  apply emits_silent_bind; [done | | intros; apply stage_spec_nil]. intros _ st.
  eexists [ _ ]. unfold subprocess_run. unfold_monad.
  destruct (spawn w (trace st) _) as [|rc out err] eqn:Hspawn; simpl.
  - split; [done|]. right. eexists. split; [done|]. split; [done|]. intros [=].
  - destruct (Z.eqb_spec rc 0) as [->|Hrc]; simpl.
    + split; [done|]. right. eexists. split; [done|]. split; [done|]. eauto.
    + split; [done|]. right. eexists. split; [done|]. split; [done|]. intros [=].
Qed.

Lemma build_image_emits w repo_root dockerfile_path image_ref bargs :
  emits (stage_spec w (fun inv => stage_rank inv = 2%nat))
        (build_image w repo_root dockerfile_path image_ref bargs).
Proof.
  unfold build_image.
  apply emits_silent_bind; [done | | intros; apply stage_spec_nil]. intros _.
  apply emits_bind_silent; [|done].
  by apply run_command_emits.
Qed.

Lemma push_image_emits w image_ref :
  emits (stage_spec w (fun inv => stage_rank inv = 3%nat)) (push_image w image_ref).
Proof.
  unfold push_image.
  apply emits_silent_bind; [done | | intros; apply stage_spec_nil]. intros _.
  apply emits_bind_silent; [|done].
  by apply run_command_emits.
Qed.

Lemma tail_spec_nil w k h ok : tail_spec w k h [] ok.
Proof.
  repeat split; [constructor | constructor |].
  destruct ok; apply all_succeeded_nil.
Qed.

Lemma stage_is_tail w k h l ok :
  (k < 4)%nat ->
  stage_spec w (fun inv => stage_rank inv = k) h l ok -> tail_spec w k h l ok.
Proof.
  intros Hk [-> | (inv & -> & Hrank & Hok)]; [apply tail_spec_nil|].
  split; [|split].
  - simpl. repeat constructor.
  - constructor; [lia | constructor].
  - destruct ok; [|apply all_succeeded_nil].
    apply all_succeeded_cons; [by apply Hok | apply all_succeeded_nil].
Qed.

Lemma stage_then_tail w k h l1 l2 ok :
  (k < 4)%nat ->
  stage_spec w (fun inv => stage_rank inv = k) h l1 true ->
  tail_spec w (S k) (h ++ l1) l2 ok ->
  tail_spec w k h (l1 ++ l2) ok.
Proof.
  intros Hk [-> | (inv & -> & Hrank & Hok)] (Hsorted & Hbounds & Hsucc).
  - rewrite app_nil_r in Hsucc. split; [done|]. split; [|done].
    eapply Forall_impl; [exact Hbounds|]. simpl. intros; lia.
  - simpl. split; [|split].
    + constructor; [done|]. rewrite Hrank. apply Forall_fmap.
      eapply Forall_impl; [exact Hbounds|]. simpl. intros; lia.
    + constructor; [lia|]. eapply Forall_impl; [exact Hbounds|]. simpl. intros; lia.
    + destruct ok.
      * apply all_succeeded_cons; [by apply Hok | done].
      * destruct l2 as [|x l2]; [apply all_succeeded_nil|].
        apply all_succeeded_cons; [by apply Hok | done].
Qed.

Lemma pipeline_stages_emits w args config repo_root tmp_path :
  emits (tail_spec w 0) (pipeline_stages w args config repo_root tmp_path).
Proof.
  unfold pipeline_stages.
  eapply emits_bind; [apply build_test_in_container_emits | |
    intros h l1; apply stage_is_tail; lia |
    intros h l1 l2 ok; apply stage_then_tail; lia ].
  intros _.
  eapply emits_bind; [apply docker_login_emits | |
    intros h l1; apply stage_is_tail; lia |
    intros h l1 l2 ok; apply stage_then_tail; lia ].
  intros _.
  eapply emits_bind; [apply build_image_emits | |
    intros h l1; apply stage_is_tail; lia |
    intros h l1 l2 ok; apply stage_then_tail; lia ].
  intros _. destruct (negb (no_push args)).
  - intros st. destruct (push_image_emits w (image args) st) as (l & Ht & Hl).
    exists l. split; [done|]. apply stage_is_tail; [lia | done].
  - apply emits_silent; [done | intros; apply tail_spec_nil].
Qed.

Lemma prepare_trace w args st : trace (prepare w args st).2 = trace st.
Proof.
  destruct (respects_prepare (starts_only (fun _ => False)) w args
              (starts_only_named_temporary_file _ w) st) as (l & Ht & Hl).
  destruct l as [|inv l]; [by rewrite app_nil_r in Ht|].
  by apply Forall_cons in Hl as [[] _].
Qed.

Lemma cleanup_trace w tmp_path st : trace (cleanup w tmp_path st).2 = trace st.
Proof.
  destruct (respects_suppress (starts_only (fun _ => False)) _
              (starts_only_unlink _ w tmp_path) st) as (l & Ht & Hl).
  destruct l as [|inv l]; [by rewrite app_nil_r in Ht|].
  by apply Forall_cons in Hl as [[] _].
Qed.

Lemma try_finally_cleanup {A} (body : M A) w tmp_path st :
  try_finally body (cleanup w tmp_path) st =
  ((body st).1, (cleanup w tmp_path (body st).2).2).
Proof.
  unfold try_finally. destruct (body st) as [r st1]. simpl.
  pose proof (cleanup_outcome w tmp_path st1) as Hc.
  destruct (cleanup w tmp_path st1) as [[e|[]] st2]; simpl in *; done.
Qed.

Lemma main_emits w args : emits (tail_spec w 0) (main w args).
Proof.
  unfold main.
  apply emits_silent_bind; [apply prepare_trace | | intros; apply tail_spec_nil].
  intros [config tmp_path].
  apply emits_bind_silent; [|done].
  intros st. rewrite try_finally_cleanup. simpl. rewrite cleanup_trace.
  apply pipeline_stages_emits.
Qed.

(** X1. The processes a run starts come in the order test, login,
    build, push, each stage at most once, and a run starts no other
    process. *)
Theorem main_starts_stages_in_order (w : World) (args : Args) (st : State) :
  exists l,
    trace (main w args st).2 = trace st ++ l
    /\ StronglySorted lt (map stage_rank l)
    /\ Forall (fun inv => stage_rank inv < 4)%nat l.
Proof.
  destruct (main_emits w args st) as (l & Ht & Hsorted & Hbounds & _).
  exists l. split; [done|]. split; [done|].
  eapply Forall_impl; [exact Hbounds|]. simpl. intros; lia.
Qed.

(** X2. A run stops at the first process that does not exit with status
    0: every process it started, except possibly the last, exited with
    0, and when the run returns normally so did the last. *)
Theorem main_stops_at_first_failure (w : World) (args : Args) (st : State) :
  exists l,
    trace (main w args st).2 = trace st ++ l
    /\ all_succeeded w (trace st) (removelast l)
    /\ (forall code, (main w args st).1 = inr code ->
          all_succeeded w (trace st) l).
Proof.
  destruct (main_emits w args st) as (l & Ht & _ & _ & Hsucc).
  exists l. split; [done|].
  destruct (main w args st).1 as [e|code]; simpl in Hsucc.
  - split; [done|]. intros code [=].
  - split; [by apply all_succeeded_removelast | done].
Qed.

(** ** What a failed preparation and a finished run leave behind *)

Lemma bind_inr {A B} (m : M A) (k : A -> M B) st b st' :
  (m ≫= k) st = (inr b, st') ->
  exists a st1, m st = (inr a, st1) /\ k a st1 = (inr b, st').
Proof.
  unfold_monad. destruct (m st) as [[e|a] st1]; [done|]. eauto.
Qed.

(** A preparation that fails has at most left what was written of the
    temporary file. *)
Lemma prepare_failure w args st e :
  (prepare w args st).1 = inl e ->
  main w args st = (inl e, (prepare w args st).2)
  /\ (fs (prepare w args st).2 = fs st
      \/ exists written,
           tmp_fault w = Some (WriteFails written)
           /\ fs (prepare w args st).2
              = <[ tmp_name w := plain_file written ]> (fs st)).
Proof.
  intros Hfail. split.
  - unfold main. unfold_monad.
    destruct (prepare w args st) as [[e'|[config tmp_path]] st1]; simpl in *;
      congruence.
  - revert Hfail. unfold prepare. unfold_monad. simpl.
    destruct (is_dir (fs st) (repo args)) as [e'|[]]; simpl; [by left| |by left].
    destruct (detect_language (fs st) (repo args)) as [e'|config]; simpl; [by left|].
    set (pst := {| fs := fs st; trace := trace st; console := _ |}).
    pose proof (dockerfile_content_same_fs w config (repo args) pst) as Hfs.
    destruct (dockerfile_content _ _ _ pst) as [[e'|content] st2]; simpl in *;
      [by left|].
    unfold named_temporary_file. rewrite Hfs.
    destruct (blocked (fs st) (tmp_name w)); [by left|].
    destruct (fs st !! tmp_name w); [by left|].
    destruct (tmp_fault w) as [[|written]|]; simpl; [by left| |done].
    intros _. right. by exists written.
Qed.

(** A failure of the directory check or of detection ends the run where
    it started. *)
Lemma prepare_stops_early w args st e :
  is_dir (fs st) (repo args) = inl e
  \/ (is_dir (fs st) (repo args) = inr false
      /\ e = OrchestratorError
               (s!"Repository path does not exist: " ++ path_str (repo args)))
  \/ (is_dir (fs st) (repo args) = inr true
      /\ detect_language (fs st) (repo args) = inl e) ->
  prepare w args st = (inl e, st).
Proof.
  unfold prepare. unfold_monad. simpl.
  intros [-> | [[-> ->] | [-> ->]]]; reflexivity.
Qed.

Lemma is_dir_raises cur p e : is_dir cur p = inl e -> e = PermissionError.
Proof.
  unfold is_dir, stat. destruct (unreachable cur p); [by intros [= <-]|].
  by destruct (resolve cur p) as [[]|].
Qed.

(** Either every marker of a list can be examined, or there is a first
    one that cannot. *)
Lemma first_unexamined (cur : FS) (l : list (pystr * Path)) :
  Forall (fun m => examined cur m.2 = true) l
  \/ exists reached m rest e,
       l = reached ++ m :: rest
       /\ Forall (fun m' => examined cur m'.2 = true) reached
       /\ path_exists cur m.2 = inl e.
Proof.
  induction l as [|m l [IH | (reached & m' & rest & e & -> & Hreached & Hm')]].
  - by left.
  - destruct (path_exists cur m.2) as [e|found] eqn:Hm.
    + right. by exists [], m, l, e.
    + left. constructor; [|done]. unfold examined. by rewrite Hm.
  - destruct (path_exists cur m.2) as [e'|found] eqn:Hm.
    + right. by exists [], m, (reached ++ m' :: rest), e'.
    + right. exists (m :: reached), m', rest, e. split; [done|]. split; [|done].
      constructor; [|done]. unfold examined. by rewrite Hm.
Qed.

(** Detection fails with one of its two errors, or with the
    [PermissionError] of a marker that cannot be examined. *)
Lemma detect_language_error cur repo_root e :
  detect_language cur repo_root = inl e ->
  (Forall (fun m => examined cur m.2 = true) (markers repo_root)
   /\ exists msg, e = OrchestratorError msg)
  \/ (~ Forall (fun m => examined cur m.2 = true) (markers repo_root)
      /\ e = PermissionError).
Proof.
  intros Hdet.
  destruct (first_unexamined cur (markers repo_root))
    as [Hall | (reached & m & rest & e' & Hsplit & Hreached & Hm)].
  - left. split; [done|]. revert Hdet. rewrite detect_language_filter by done.
    destruct (List.filter _ LANGUAGE_CONFIGS) as [|a [|b rest]]; intros [= <-]; eauto.
  - right. rewrite (detect_language_raises _ _ _ _ _ _ Hsplit Hreached Hm) in Hdet.
    injection Hdet as <-. split; [|by apply path_exists_raises in Hm as [-> _]].
    rewrite Hsplit. intros [_ Hbad%Forall_cons_1]%Forall_app.
    destruct Hbad as [Hbad _]. unfold examined in Hbad. by rewrite Hm in Hbad.
Qed.

(** X3. A run that is stopped before the temporary file is created,
    because the repository path is not a directory or cannot be
    examined, or because detection fails, ends with that very exception
    and exit status 1, in the state it started in: nothing has been
    written, started or printed. The exception is an
    [OrchestratorError] when the path and the five markers could be
    examined, and the [PermissionError] of the check that could not be
    made otherwise. *)
Theorem configuration_error_leaves_nothing (w : World) (args : Args) (st : State)
    (e : exn) :
  is_dir (fs st) (repo args) = inl e
  \/ (is_dir (fs st) (repo args) = inr false
      /\ e = OrchestratorError
               (s!"Repository path does not exist: " ++ path_str (repo args)))
  \/ (is_dir (fs st) (repo args) = inr true
      /\ detect_language (fs st) (repo args) = inl e) ->
  main w args st = (inl e, st)
  /\ (script w args st).1 = 1%Z
  /\ ((exists msg, e = OrchestratorError msg) \/ e = PermissionError)
  /\ (is_inr (is_dir (fs st) (repo args)) = true ->
      Forall (fun m => examined (fs st) m.2 = true) (markers (repo args)) ->
      exists msg, e = OrchestratorError msg).
Proof.
  intros Hbad.
  pose proof (prepare_stops_early w args st e Hbad) as Hprep.
  destruct (prepare_failure w args st e) as [Hmain _]; [by rewrite Hprep|].
  rewrite Hprep in Hmain. split; [done|]. split.
  { unfold script. rewrite Hmain. by destruct e. }
  destruct Hbad as [Hdir | [[Hdir ->] | [Hdir Hdet]]]; rewrite Hdir; simpl.
  - split; [right; by eapply is_dir_raises | done].
  - split; [left|]; eauto.
  - destruct (detect_language_error _ _ _ Hdet) as [[Hall Hmsg] | [Hnot ->]].
    + split; [by left | done].
    + split; [by right | done].
Qed.

(** A repository with two markers, one whose path is no directory, and
    one whose directory app/ cannot be searched. *)
Lemma configuration_error_leaves_nothing_witness :
  (exists msg,
     main quiet args_plain (initial fs_java_python)
     = (inl (OrchestratorError msg), initial fs_java_python))
  /\ main quiet args_plain (initial ∅)
     = (inl (OrchestratorError s!"Repository path does not exist: /srv/app"),
        initial ∅)
  /\ main quiet args_plain (initial fs_makefile_locked)
     = (inl PermissionError, initial fs_makefile_locked).
Proof.
  split; [|split].
  - eexists.
    apply (configuration_error_leaves_nothing quiet args_plain (initial fs_java_python)).
    right. right. split; vm_compute; reflexivity.
  - apply (configuration_error_leaves_nothing quiet args_plain (initial ∅)).
    right. left. split; vm_compute; reflexivity.
  - apply (configuration_error_leaves_nothing quiet args_plain
             (initial fs_makefile_locked)).
    right. right. split; vm_compute; reflexivity.
Defined.

(** The first stage to the last change the filesystem only through
    their processes, and the deletion is the last thing that touches
    it. *)
Lemma main_fs_after_prepare w args st config tmp_path st1 :
  prepare w args st = (inr (config, tmp_path), st1) ->
  exists l,
    trace (main w args st).2 = trace st1 ++ l
    /\ fs (main w args st).2 = unlinked w tmp_path (replay w (trace st1) l (fs st1)).
Proof.
  intros Hprep.
  pose proof (main_after_prepare _ _ _ _ _ _ Hprep) as Hmain. cbv zeta in Hmain.
  destruct (pipeline_stages_processes_only w args config (repo args) tmp_path st1)
    as (l & Htrace & Hfs).
  exists l. rewrite Hmain.
  destruct (pipeline_stages w args config (repo args) tmp_path st1) as [[e|[]] st2];
    simpl in *; by rewrite ?unlink_trace, unlink_fs, Hfs.
Qed.

(** X4. What a run does to the filesystem. A run that gets as far as
    its temporary Dockerfile creates it under a name that was free; from
    then on the filesystem changes only by what the processes of the run
    do to it, and by the deletion of the temporary file at the end. A
    run that is stopped earlier leaves the filesystem as it was, except
    that a failed write leaves the temporary file with what was written.
    So when the processes write nothing, the deletion is not refused and
    the write does not fail, the filesystem is after the run what it was
    before. *)
Theorem main_filesystem_footprint (w : World) (args : Args) (st : State) :
  exists l,
    trace (main w args st).2 = trace st ++ l
    /\ match (prepare w args st).1 with
       | inr (config, tmp_path) =>
           exists content,
             (dockerfile_content w config (repo args) st).1 = inr content
             /\ fs st !! tmp_path = None
             /\ fs (main w args st).2
                = unlinked w tmp_path
                    (replay w (trace st) l
                       (<[ tmp_path := plain_file content ]> (fs st)))
       | inl _ =>
           l = []
           /\ (fs (main w args st).2 = fs st
               \/ exists written,
                    tmp_fault w = Some (WriteFails written)
                    /\ fs (main w args st).2
                       = <[ tmp_name w := plain_file written ]> (fs st))
       end
    /\ ((forall h inv cur, effect w h inv cur = cur) ->
        unlink_denied w (tmp_name w) = false ->
        (forall written, tmp_fault w <> Some (WriteFails written)) ->
        fs (main w args st).2 = fs st).
Proof.
  destruct (prepare w args st) as [[e|[config tmp_path]] st1] eqn:Hprep.
  - destruct (prepare_failure w args st e) as [Hmain Hfs]; [by rewrite Hprep|].
    pose proof (prepare_trace w args st) as Htrace.
    rewrite Hprep in Hmain, Hfs, Htrace. simpl in *.
    exists []. rewrite Hmain, app_nil_r. simpl.
    split; [done|]. split; [done|].
    intros _ _ Hwrite. destruct Hfs as [Hfs | (written & Hfault & _)]; [done|].
    by destruct (Hwrite written).
  - destruct (prepare_success _ _ _ _ _ _ Hprep)
      as (-> & _ & _ & Hreach & Hfree & _ & Htrace1 & content & Hcontent & Hfs1).
    destruct (main_fs_after_prepare _ _ _ _ _ _ Hprep) as (l & Htrace & Hfs).
    rewrite Htrace1 in Htrace, Hfs. rewrite Hfs1 in Hfs.
    exists l. split; [done|]. split; [by exists content|].
    intros Hidle Hallowed _. rewrite Hfs, replay_idle by done.
    unfold unlinked, plain_file.
    rewrite blocked_insert_file, Hreach, lookup_insert_eq by done.
    rewrite Hallowed. by apply delete_insert_id.
Qed.

(** A run whose build fails in a world whose processes write nothing. *)
Lemma main_filesystem_footprint_witness :
  fs (main world_build_fails args_plain (initial fs_makefile)).2
  = fs (initial fs_makefile).
Proof.
  destruct (main_filesystem_footprint world_build_fails args_plain
              (initial fs_makefile)) as (l & _ & _ & Hsame).
  apply Hsame; [reflexivity | reflexivity | discriminate].
Defined.

(** A Maven run whose tests leave a directory in the repository: it is
    there after the run, and the temporary file is not. *)
Example tests_write_into_the_repository :
  let out := main world_tests_write args_plain (initial fs_java) in
  out.1 = inr 0%Z
  /\ fs_java !! (srv </> s!"target") = None
  /\ fs out.2 !! (srv </> s!"target") = Some (Plain (Directory true))
  /\ fs out.2 !! tmp_name world_tests_write = None.
Proof. by vm_compute. Qed.

(** ** Push *)

Section RespectsFlags.
Context (R : relation State) `{!PreOrder R} `{!ConsoleBlind R}.

Local Ltac step lem := apply lem; try apply _.

Lemma respects_main_flags w args :
  (skip_tests args = false -> allows w R (subcommand s!"run")) ->
  allows w R (subcommand s!"login") ->
  allows w R (subcommand s!"build") ->
  (no_push args = false -> allows w R (subcommand s!"push")) ->
  (forall content, respects R (named_temporary_file w content)) ->
  (forall p, respects R (unlink w p)) ->
  respects R (main w args).
Proof.
  intros Hrun Hlogin Hbuild Hpush Htmp Hunlink. unfold main.
  step @respects_bind; [by step respects_prepare|]. intros [config tmp_path].
  step @respects_bind.
  - step @respects_try_finally; [|step respects_suppress; apply Hunlink].
    unfold pipeline_stages. step @respects_bind.
    { destruct (skip_tests args) eqn:Hskip; [step @respects_ret|].
      step respects_build_test_in_container. by apply Hrun. }
    intros _. step @respects_bind; [by step respects_docker_login|].
    intros _. step @respects_bind; [by step respects_build_image|].
    intros _. destruct (no_push args); simpl.
    + step respects_print.
    + step respects_push_image. by apply Hpush.
  - intros _. step @respects_bind; [step respects_print|].
    intros; step @respects_ret.
Qed.
End RespectsFlags.

Lemma subcommand_not_push (sub : pystr) (inv : Invocation) :
  sub <> s!"push" -> subcommand sub inv -> is_push inv = false.
Proof.
  intros Hsub [rest Hargv]. unfold is_push. rewrite Hargv.
  rewrite (bool_decide_eq_false_2 (sub = s!"push")) by done. apply andb_false_r.
Qed.

(** X5. With the no-push flag set, no process started during the run is
    a [docker push]. *)
Theorem no_push_starts_no_push (w : World) (args : Args) (st : State) :
  no_push args = true ->
  starts_only (fun inv => is_push inv = false) st (main w args st).2.
Proof.
  intros Hflag. apply respects_main_flags; try apply _.
  - intros _. apply starts_only_allows. intros inv. by apply subcommand_not_push.
  - apply starts_only_allows. intros inv. by apply subcommand_not_push.
  - apply starts_only_allows. intros inv. by apply subcommand_not_push.
  - congruence.
  - apply starts_only_named_temporary_file.
  - apply starts_only_unlink.
Qed.

Lemma no_push_starts_no_push_witness :
  starts_only (fun inv => is_push inv = false) (initial fs_java)
    (main quiet args_no_push (initial fs_java)).2.
Proof.
  apply (no_push_starts_no_push quiet args_no_push (initial fs_java)). reflexivity.
Defined.

Example no_push_trace :
  map argv (trace (main quiet args_no_push (initial fs_java)).2) =
  [ [ s!"docker"; s!"run"; s!"--rm"; s!"-v"; s!"/srv/app:/app"; s!"-w"; s!"/app";
      s!"whanos-java:latest"; s!"mvn"; s!"test" ];
    [ s!"docker"; s!"build"; s!"-f"; s!"/tmp/tmpk3x9.Dockerfile"; s!"-t";
      s!"registry.example.com/org/app:1"; s!"--build-arg"; s!"MODE=release";
      s!"/srv/app" ] ]
  /\ (main quiet args_no_push (initial fs_java)).1 = inr 0%Z.
Proof. by vm_compute. Qed.

Lemma push_image_trace w image_ref st :
  trace (push_image w image_ref st).2 = trace st ++ [ push_invocation image_ref ].
Proof.
  unfold push_image, run_command, subprocess_run. unfold_monad. simpl.
  fold (push_invocation image_ref).
  destruct (spawn w (trace st) _) as [|rc out err]; simpl; [done|].
  by destruct (negb (rc =? 0)%Z).
Qed.

(** X6. A run that returns normally returns 0, has started
    [docker build] on the temporary Dockerfile with the image reference,
    the build arguments in order and the repository as context, has
    started [docker push] of the image unless the no-push flag is set,
    and ends by printing the success line. *)
Theorem main_success_means_built (w : World) (args : Args) (st : State) (code : Z) :
  (main w args st).1 = inr code ->
  code = 0%Z
  /\ (exists l,
        trace (main w args st).2 = trace st ++ l
        /\ build_invocation (repo args) (tmp_name w) (image args) (build_args args) ∈ l
        /\ (no_push args = false -> push_invocation (image args) ∈ l))
  /\ last (console (main w args st).2)
     = Some (Stdout, s!"Build pipeline completed successfully.").
Proof.
  intros Hok. destruct (main w args st) as [r st'] eqn:Hmain. simpl in Hok. subst r.
  unfold main in Hmain.
  apply bind_inr in Hmain as ([config tmp_path] & st1 & Hprep & Hrest).
  apply bind_inr in Hrest as ([] & st2 & Htry & Hend).
  revert Hend. unfold_monad. simpl. intros [= <- <-]. simpl.
  destruct (prepare_success _ _ _ _ _ _ Hprep) as (-> & _).
  pose proof (prepare_trace w args st) as Ht1. rewrite Hprep in Ht1. simpl in Ht1.
  rewrite try_finally_cleanup in Htry. injection Htry as Hstages <-.
  rewrite cleanup_trace.
  destruct (pipeline_stages w args config (repo args) (tmp_name w) st1)
    as [r sd] eqn:Hpipe. simpl in *. subst r.
  unfold pipeline_stages in Hpipe.
  apply bind_inr in Hpipe as ([] & sa & Htest & Hpipe).
  apply bind_inr in Hpipe as ([] & sb & Hlogin & Hpipe).
  apply bind_inr in Hpipe as ([] & sc & Hbuild & Hpush).
  destruct (build_test_in_container_emits w config (repo args) (skip_tests args) st1)
    as (la & Hta & _). rewrite Htest in Hta. simpl in Hta.
  destruct (docker_login_emits w (effective_registry args) sa) as (lb & Htb & _).
  rewrite Hlogin in Htb. simpl in Htb.
  pose proof (build_image_trace w (repo args) (tmp_name w) (image args)
                (build_args args) sb) as Htc.
  rewrite Hbuild in Htc. simpl in Htc.
  split; [done|]. split; [|by rewrite last_snoc].
  destruct (no_push args) eqn:Hflag; simpl in Hpush.
  - exists (la ++ lb ++ [ build_invocation (repo args) (tmp_name w) (image args)
                           (build_args args) ]).
    split; [|split; [|done]].
    + assert (trace sd = trace sc) as -> by (revert Hpush; unfold_monad; by intros [= <-]).
      rewrite Htc, Htb, Hta, Ht1. by rewrite <- !app_assoc.
    + rewrite !elem_of_app. right. right. by constructor.
  - pose proof (push_image_trace w (image args) sc) as Htd.
    rewrite Hpush in Htd. simpl in Htd.
    exists (la ++ lb ++ [ build_invocation (repo args) (tmp_name w) (image args)
                           (build_args args) ] ++ [ push_invocation (image args) ]).
    split; [|split].
    + rewrite Htd, Htc, Htb, Hta, Ht1. by rewrite <- !app_assoc.
    + rewrite !elem_of_app. right. right. left. by constructor.
    + intros _. rewrite !elem_of_app. right. right. right. by constructor.
Qed.

Lemma main_success_means_built_witness :
  0%Z = 0%Z
  /\ (exists l,
        trace (main quiet args_no_push (initial fs_java)).2
        = trace (initial fs_java) ++ l
        /\ build_invocation (repo args_no_push) (tmp_name quiet) (image args_no_push)
             (build_args args_no_push) ∈ l
        /\ (no_push args_no_push = false -> push_invocation (image args_no_push) ∈ l))
  /\ last (console (main quiet args_no_push (initial fs_java)).2)
     = Some (Stdout, s!"Build pipeline completed successfully.").
Proof.
  apply (main_success_means_built quiet args_no_push (initial fs_java) 0).
  vm_compute. reflexivity.
Defined.

(** ** Login *)

Lemma docker_login_trace w registry st :
  trace (docker_login w registry st).2 =
  trace st ++
  (if login_ready w registry then
     [ login_invocation (default [] registry)
         (default [] (environ w !! s!"WHANOS_REGISTRY_USERNAME"))
         (default [] (environ w !! s!"WHANOS_REGISTRY_PASSWORD")) ]
   else []).
Proof.
  unfold docker_login, login_ready.
  destruct (Py.opt_truthy registry); simpl; [|by rewrite app_nil_r].
  destruct (Py.opt_truthy (environ w !! s!"WHANOS_REGISTRY_USERNAME")); simpl;
    [|by rewrite app_nil_r].
  destruct (Py.opt_truthy (environ w !! s!"WHANOS_REGISTRY_PASSWORD")); simpl;
    [|by rewrite app_nil_r].
  unfold subprocess_run. unfold_monad. simpl.
  fold (login_invocation (default [] registry)
          (default [] (environ w !! s!"WHANOS_REGISTRY_USERNAME"))
          (default [] (environ w !! s!"WHANOS_REGISTRY_PASSWORD"))).
  destruct (spawn w (trace st) _) as [|rc out err]; simpl; [done|].
  by destruct (negb (rc =? 0)%Z).
Qed.

(** X7. Without a registry, or with the user name or the password
    unset or empty, the login stage starts no process and returns
    normally, leaving the filesystem alone. *)
Theorem docker_login_without_credentials (w : World) (registry : option pystr)
    (st : State) :
  login_ready w registry = false ->
  (docker_login w registry st).1 = inr tt
  /\ trace (docker_login w registry st).2 = trace st
  /\ fs (docker_login w registry st).2 = fs st.
Proof.
  intros Hready. split; [|split].
  - revert Hready. unfold docker_login, login_ready.
    destruct (Py.opt_truthy registry); simpl; [|done].
    destruct (Py.opt_truthy (environ w !! s!"WHANOS_REGISTRY_USERNAME")); simpl;
      [|done].
    by destruct (Py.opt_truthy (environ w !! s!"WHANOS_REGISTRY_PASSWORD")).
  - by rewrite docker_login_trace, Hready, app_nil_r.
  - revert Hready. unfold docker_login, login_ready.
    destruct (Py.opt_truthy registry); simpl; [|done].
    destruct (Py.opt_truthy (environ w !! s!"WHANOS_REGISTRY_USERNAME")); simpl;
      [|done].
    by destruct (Py.opt_truthy (environ w !! s!"WHANOS_REGISTRY_PASSWORD")).
Qed.

(** A registry with no credentials in the environment, then a password
    without a user name. *)
Lemma docker_login_without_credentials_witness :
  (docker_login quiet (Some s!"registry.example.com") (initial fs_bare)).1 = inr tt
  /\ trace (docker_login quiet (Some s!"registry.example.com") (initial fs_bare)).2
     = trace (initial fs_bare)
  /\ fs (docker_login quiet (Some s!"registry.example.com") (initial fs_bare)).2
     = fs (initial fs_bare).
Proof.
  apply (docker_login_without_credentials quiet (Some s!"registry.example.com")
           (initial fs_bare)).
  vm_compute. reflexivity.
Defined.

(** X8. With a registry and both credentials the login stage starts
    exactly one process, [docker login <registry> -u <user>
    --password-stdin], and hands it the password on its standard input;
    the command line is the same whatever the password is. *)
Theorem docker_login_password_on_stdin (w w' : World) (registry : option pystr)
    (st : State) (password' : pystr) :
  login_ready w registry = true ->
  environ w' = <[ s!"WHANOS_REGISTRY_PASSWORD" := password' ]> (environ w) ->
  password' <> [] ->
  (exists host user password,
     registry = Some host
     /\ environ w !! s!"WHANOS_REGISTRY_USERNAME" = Some user
     /\ environ w !! s!"WHANOS_REGISTRY_PASSWORD" = Some password
     /\ trace (docker_login w registry st).2
        = trace st ++ [ {| argv := [ s!"docker"; s!"login"; host; s!"-u"; user;
                                     s!"--password-stdin" ];
                           stdin := Some password |} ])
  /\ map argv (trace (docker_login w' registry st).2)
     = map argv (trace (docker_login w registry st).2)
  /\ map stdin (trace (docker_login w' registry st).2)
     = map stdin (trace st) ++ [ Some password' ].
Proof.
  intros Hready Henv Hne.
  assert (Hready' : login_ready w' registry = true).
  { revert Hready. unfold login_ready. rewrite Henv.
    rewrite lookup_insert_eq, lookup_insert_ne by done.
    destruct (Py.opt_truthy registry), (Py.opt_truthy (environ w !! _)); simpl;
      try done.
    intros _. by destruct password'. }
  rewrite !docker_login_trace, Hready, Hready'.
  rewrite Henv, lookup_insert_eq, lookup_insert_ne by done.
  split; [|split].
  - revert Hready. unfold login_ready.
    destruct registry as [host|]; simpl; [|done].
    destruct (environ w !! s!"WHANOS_REGISTRY_USERNAME") as [user|]; simpl;
      [|by rewrite andb_false_r].
    destruct (environ w !! s!"WHANOS_REGISTRY_PASSWORD") as [password|]; simpl;
      [|by rewrite !andb_false_r].
    intros _. by exists host, user, password.
  - by rewrite !map_app.
  - by rewrite map_app.
Qed.

Lemma docker_login_password_on_stdin_witness :
  (exists host user password,
     Some s!"registry.example.com" = Some host
     /\ environ world_credentials !! s!"WHANOS_REGISTRY_USERNAME" = Some user
     /\ environ world_credentials !! s!"WHANOS_REGISTRY_PASSWORD" = Some password
     /\ trace (docker_login world_credentials (Some s!"registry.example.com")
                 (initial fs_bare)).2
        = trace (initial fs_bare)
          ++ [ {| argv := [ s!"docker"; s!"login"; host; s!"-u"; user;
                            s!"--password-stdin" ];
                  stdin := Some password |} ])
  /\ map argv (trace (docker_login world_other_password
                        (Some s!"registry.example.com") (initial fs_bare)).2)
     = map argv (trace (docker_login world_credentials
                          (Some s!"registry.example.com") (initial fs_bare)).2)
  /\ map stdin (trace (docker_login world_other_password
                         (Some s!"registry.example.com") (initial fs_bare)).2)
     = map stdin (trace (initial fs_bare)) ++ [ Some s!"correct horse" ].
Proof.
  apply (docker_login_password_on_stdin world_credentials world_other_password
           (Some s!"registry.example.com") (initial fs_bare) s!"correct horse");
    [vm_compute; reflexivity | reflexivity | discriminate].
Defined.

(** ** The image of the tests and of the build *)

Lemma render_dockerfile_from w cur config repo_root snippet :
  match render_dockerfile w cur config repo_root snippet with
  | inr text =>
      exists rest,
        text = header_line ++ nl ++ (s!"FROM " ++ resolve_base_image w config)
               ++ nl ++ rest
  | inl e => dockerfile_instructions config cur repo_root = inl e
  end.
Proof.
  unfold render_dockerfile. unfold_result.
  destruct (dockerfile_instructions config cur repo_root) as [e|steps]; [done|].
  generalize (s!"FROM " ++ resolve_base_image w config). intros from.
  generalize s!"WORKDIR /app". intros workdir.
  generalize header_line, begin_marker, end_marker. intros header bm em.
  assert (Hjoin : forall lines : list pystr,
    Py.join nl (header :: from :: workdir :: lines) ++ nl =
    header ++ nl ++ from ++ nl ++ (Py.join nl (workdir :: lines) ++ nl)).
  { intros lines. cbn [Py.join]. by rewrite <- !app_assoc. }
  destruct snippet as [snippet|];
    [destruct (Py.truthy snippet)|]; eexists; cbn [app]; apply Hjoin.
Qed.

(** X9. When the test stage runs, it starts exactly one process:
    [docker run --rm -v <repo>:/app -w /app <image>] followed by the
    profile's test command, where the image is the one the rendered
    Dockerfile names on its [FROM] line, right after the header; the
    rendering fails only when the profile's instructions cannot be
    generated. *)
Theorem tests_run_in_base_image (w : World) (config : LanguageConfig)
    (repo_root : Path) (st : State) (command : list pystr) :
  test_command config w (fs st) repo_root = inr (Some command) ->
  command <> [] ->
  trace (build_test_in_container w config repo_root false st).2
  = trace st ++ [ test_invocation repo_root (resolve_base_image w config) command ]
  /\ forall cur snippet,
       match render_dockerfile w cur config repo_root snippet with
       | inr text =>
           exists rest,
             text = header_line ++ nl ++ (s!"FROM " ++ resolve_base_image w config)
                    ++ nl ++ rest
       | inl e => dockerfile_instructions config cur repo_root = inl e
       end.
Proof.
  intros Hcmd Hne. split; [|intros; apply render_dockerfile_from].
  unfold build_test_in_container, run_command, subprocess_run. unfold_monad. simpl.
  rewrite Hcmd. simpl. destruct command as [|c command]; [done|]. simpl.
  fold (test_invocation repo_root (resolve_base_image w config) (c :: command)).
  destruct (spawn w (trace st) _) as [|rc out err]; simpl; [done|].
  by destruct (negb (rc =? 0)%Z).
Qed.

Lemma tests_run_in_base_image_witness :
  trace (build_test_in_container quiet config_java srv false (initial fs_java)).2
  = trace (initial fs_java)
    ++ [ test_invocation srv (resolve_base_image quiet config_java)
           [ s!"mvn"; s!"test" ] ]
  /\ forall cur snippet,
       match render_dockerfile quiet cur config_java srv snippet with
       | inr text =>
           exists rest,
             text = header_line ++ nl
                    ++ (s!"FROM " ++ resolve_base_image quiet config_java)
                    ++ nl ++ rest
       | inl e => dockerfile_instructions config_java cur srv = inl e
       end.
Proof.
  apply (tests_run_in_base_image quiet config_java srv (initial fs_java)
           [ s!"mvn"; s!"test" ]); [reflexivity | discriminate].
Defined.

(** ** An append file of whitespace *)

Lemma lstrip_all_space (s : pystr) : forallb Py.isspace s = true -> Py.lstrip s = [].
Proof.
  induction s as [|c s IH]; [done|]. simpl.
  intros [Hc Hs]%andb_true_iff. rewrite Hc. by apply IH.
Qed.

(** X10. An append file that holds only whitespace (a lone newline,
    say) still gets its two marker lines, with an empty line between
    them. *)
Theorem whitespace_snippet_keeps_markers (w : World) (cur : FS)
    (config : LanguageConfig) (repo_root : Path) (snippet : pystr) :
  snippet <> [] ->
  forallb Py.isspace snippet = true ->
  render_dockerfile w cur config repo_root (Some snippet) =
  match render_dockerfile w cur config repo_root None with
  | inr base => inr (base ++ nl ++ begin_marker ++ nl ++ nl ++ end_marker ++ nl)
  | inl e => inl e
  end.
Proof.
  intros Hne Hspace. rewrite render_dockerfile_snippet by done.
  unfold appended_verbatim, Py.strip. by rewrite lstrip_all_space.
Qed.

Lemma whitespace_snippet_keeps_markers_witness :
  render_dockerfile quiet fs_makefile config_c srv (Some (s!"  " ++ nl)) =
  match render_dockerfile quiet fs_makefile config_c srv None with
  | inr base => inr (base ++ nl ++ begin_marker ++ nl ++ nl ++ end_marker ++ nl)
  | inl e => inl e
  end.
Proof.
  apply (whitespace_snippet_keeps_markers quiet fs_makefile config_c srv
           (s!"  " ++ nl)); [discriminate | reflexivity].
Defined.

Example whitespace_snippet_rendered :
  render_dockerfile quiet fs_makefile config_c srv (Some nl)
  = inr (header_line ++ nl
         ++ s!"FROM whanos-c:latest" ++ nl
         ++ s!"WORKDIR /app" ++ nl
         ++ s!"COPY . ." ++ nl
         ++ s!"RUN make" ++ nl
         ++ q!"CMD ['./compiled-app']" ++ nl
         ++ nl
         ++ begin_marker ++ nl
         ++ nl
         ++ end_marker ++ nl).
Proof. by vm_compute. Qed.

(** ** What detection looks at *)

Lemma collect_matches_ext cur cur' repo_root configs acc :
  Forall (fun lc : pystr * LanguageConfig =>
            detector lc.2 cur repo_root = detector lc.2 cur' repo_root) configs ->
  collect_matches cur repo_root configs acc = collect_matches cur' repo_root configs acc.
Proof.
  intros Hsame. revert acc.
  induction Hsame as [|[language config] configs Hhead _ IH]; intros acc; [done|].
  simpl in *. rewrite Hhead. unfold_result.
  destruct (detector config cur' repo_root) as [e|[]]; [done| |]; apply IH.
Qed.

(** X11. Detection depends only on whether each of the five marker
    paths can be reached and, if so, on whether it has a directory entry,
    not on what the entry is: a directory or a dangling symbolic link of
    that name counts like a file. A marker can be reached when every
    directory above it may be searched and neither it nor a path above it
    is a link into a directory that may not be; the check of a marker
    that cannot be reached raises [PermissionError]. *)
Theorem detect_language_looks_at_entries (cur cur' : FS) (repo_root : Path) :
  (forall m, m ∈ markers repo_root ->
     unreachable cur m.2 = unreachable cur' m.2
     /\ (is_Some (cur !! m.2) <-> is_Some (cur' !! m.2))) ->
  detect_language cur repo_root = detect_language cur' repo_root
  /\ forall m, m ∈ markers repo_root ->
       path_exists cur m.2
       = if unreachable cur m.2 then inl PermissionError
         else inr (bool_decide (is_Some (cur !! m.2))).
Proof.
  intros Hsame. split; [|intros; apply path_exists_cases].
  assert (Hpath : forall m, m ∈ markers repo_root ->
            path_exists cur m.2 = path_exists cur' m.2).
  { intros m Hm. destruct (Hsame m Hm) as [Hblocked Hentry].
    rewrite !path_exists_cases, Hblocked. destruct (unreachable cur' m.2); [done|].
    f_equal. by apply bool_decide_ext. }
  unfold detect_language. rewrite (collect_matches_ext cur cur'); [done|].
  unfold LANGUAGE_CONFIGS, markers in *.
  repeat (apply Forall_cons_2;
          [first [ apply (Hpath (s!"c", repo_root </> s!"Makefile"))
                 | apply (Hpath (s!"java", repo_root </> s!"pom.xml"))
                 | apply (Hpath (s!"javascript", repo_root </> s!"package.json"))
                 | apply (Hpath (s!"python", repo_root </> s!"requirements.txt"))
                 | apply (Hpath (s!"befunge", repo_root </> s!"app" </> s!"main.bf")) ];
           repeat constructor|]).
  apply Forall_nil_2.
Qed.

Lemma detect_language_looks_at_entries_witness :
  detect_language fs_makefile_dangling srv = detect_language fs_makefile srv
  /\ detect_language fs_makefile_directory srv = detect_language fs_makefile srv.
Proof.
  split.
  - apply (detect_language_looks_at_entries fs_makefile_dangling fs_makefile srv).
    intros m Hm. unfold markers in Hm.
    repeat (apply elem_of_cons in Hm as [-> | Hm];
            [split; [vm_compute; reflexivity|];
             vm_compute; split; intros [x Hx];
             first [discriminate | eexists; reflexivity]|]).
    by apply elem_of_nil in Hm.
  - apply (detect_language_looks_at_entries fs_makefile_directory fs_makefile srv).
    intros m Hm. unfold markers in Hm.
    repeat (apply elem_of_cons in Hm as [-> | Hm];
            [split; [vm_compute; reflexivity|];
             vm_compute; split; intros [x Hx];
             first [discriminate | eexists; reflexivity]|]).
    by apply elem_of_nil in Hm.
Defined.

(** The same Makefile counts for nothing once a directory above
    app/main.bf cannot be searched, and a Makefile that is a link into
    such a directory stops detection as well. *)
Example unsearchable_directory_stops_detection :
  detect_language fs_makefile srv = inr config_c
  /\ detect_language fs_makefile_locked srv = inl PermissionError
  /\ unreachable fs_makefile_locked (srv </> s!"app" </> s!"main.bf") = true
  /\ fs_makefile_locked !! (srv </> s!"app" </> s!"main.bf") = None
  /\ detect_language fs_makefile_barred srv = inl PermissionError
  /\ unreachable fs_makefile_barred (srv </> s!"Makefile") = true.
Proof. by vm_compute. Qed.

(** * Properties of the manifest renderer *)

(** ** The service account argument *)

Lemma split_once_no_sep (sep : Py.char) (cur s : pystr) :
  sep ∉ s -> Render.split_once sep cur s = [ rev cur ++ s ].
Proof.
  revert cur. induction s as [|c s IH]; intros cur Hs; simpl.
  - by rewrite app_nil_r.
  - apply not_elem_of_cons in Hs as [Hc Hs].
    destruct (N.eqb_spec c sep) as [->|_]; [done|].
    rewrite IH by done. simpl. by rewrite <- app_assoc.
Qed.

Lemma split_once_first_sep (sep : Py.char) (cur h rest : pystr) :
  sep ∉ h -> Render.split_once sep cur (h ++ sep :: rest) = [ rev cur ++ h; rest ].
Proof.
  revert cur. induction h as [|c h IH]; intros cur Hh; simpl.
  - by rewrite N.eqb_refl, app_nil_r.
  - apply not_elem_of_cons in Hh as [Hc Hh].
    destruct (N.eqb_spec c sep) as [->|_]; [done|].
    rewrite IH by done. simpl. by rewrite <- app_assoc.
Qed.

Lemma first_segment_unique (h h' rest rest' : pystr) :
  h ++ slash :: rest = h' ++ slash :: rest' -> slash ∉ h -> slash ∉ h' ->
  h = h' /\ rest = rest'.
Proof.
  revert h'. induction h as [|c h IH]; intros [|c' h'] Heq Hh Hh'; simpl in Heq.
  - by injection Heq as ->.
  - injection Heq as <- _. exfalso. apply Hh'. by left.
  - injection Heq as -> _. exfalso. apply Hh. by left.
  - injection Heq as -> Heq.
    apply not_elem_of_cons in Hh as [_ Hh]. apply not_elem_of_cons in Hh' as [_ Hh'].
    destruct (IH h' Heq Hh Hh') as [-> ->]. done.
Qed.

(** X12. [parse_service_account] accepts exactly the values of the form
    namespace, slash, name with both parts non-empty, splitting at the
    first slash (the name may hold further slashes), so that joining the
    two parts with a slash gives the value back; a value without a slash
    gets the "must be in the form" error and one with an empty part the
    "is invalid" error that quotes it. *)
Theorem parse_service_account_shape (value : pystr) :
  (forall namespace name,
     Render.parse_service_account value = inr (namespace, name) <->
     value = namespace ++ slash :: name
     /\ (slash ∉ namespace) /\ namespace <> [] /\ name <> [])
  /\ ((slash ∉ value) ->
      Render.parse_service_account value
      = inl (Render.RenderError
               s!"--deployer-service-account must be in the form <namespace>/<name>"))
  /\ (forall namespace name,
        value = namespace ++ slash :: name -> (slash ∉ namespace) ->
        namespace = [] \/ name = [] ->
        Render.parse_service_account value
        = inl (Render.RenderError
                 (s!"--deployer-service-account is invalid: " ++ value))).
Proof.
  assert (Hcases :
    ((slash ∉ value)
     /\ Render.parse_service_account value
        = inl (Render.RenderError
                 s!"--deployer-service-account must be in the form <namespace>/<name>"))
    \/ exists h rest, value = h ++ slash :: rest /\ (slash ∉ h)
         /\ Render.parse_service_account value
            = if negb (Py.truthy h) || negb (Py.truthy rest)
              then inl (Render.RenderError
                          (s!"--deployer-service-account is invalid: " ++ value))
              else inr (h, rest)).
  { unfold Render.parse_service_account. change s!"/" with [slash].
    destruct (Py.contains [slash] value) eqn:Hc; simpl.
    - right. apply contains_char in Hc.
      apply list_elem_of_split_l in Hc as (h & rest & -> & Hh).
      exists h, rest. by rewrite split_once_first_sep.
    - left. split; [|done]. intros Hin%contains_char. congruence. }
  split; [|split].
  - intros namespace name.
    destruct Hcases as [[Hno ->] | (h & rest & -> & Hh & ->)].
    + split; [done|]. intros (-> & _). exfalso. apply Hno, elem_of_app. right. by left.
    + split.
      * destruct h as [|c h], rest as [|d rest]; simpl; try done.
        intros [= <- <-]. done.
      * intros (Heq & Hns & Hne1 & Hne2).
        destruct (first_segment_unique _ _ _ _ Heq Hh Hns) as [-> ->].
        by destruct namespace, name.
  - intros Hno. destruct Hcases as [[_ ->] | (h & rest & -> & _)]; [done|].
    exfalso. apply Hno, elem_of_app. right. by left.
  - intros namespace name -> Hns Hempty.
    destruct Hcases as [[Hno _] | (h & rest & Heq & Hh & ->)].
    + exfalso. apply Hno, elem_of_app. right. by left.
    + destruct (first_segment_unique _ _ _ _ Heq Hns Hh) as [<- <-].
      destruct Hempty as [-> | ->]; simpl; [done|]. by rewrite orb_true_r.
Qed.

Example parse_service_account_examples :
  Render.parse_service_account s!"jenkins/whanos-deployer"
  = inr (s!"jenkins", s!"whanos-deployer")
  /\ Render.parse_service_account s!"a/b/c" = inr (s!"a", s!"b/c")
  /\ Render.parse_service_account s!"/deployer"
     = inl (Render.RenderError s!"--deployer-service-account is invalid: /deployer")
  /\ Render.parse_service_account s!"jenkins"
     = inl (Render.RenderError
              s!"--deployer-service-account must be in the form <namespace>/<name>").
Proof. by vm_compute. Qed.

(** ** The Service manifest *)

Lemma service_manifest_ports app namespace ports service_type nodeport_base m :
  Render.build_service_manifest app namespace ports service_type nodeport_base = Some m ->
  at_path m [ Key s!"spec"; Key s!"ports" ]
  = JList (imap (Render.service_port service_type nodeport_base) ports)
  /\ at_path m [ Key s!"spec"; Key s!"type" ] = JStr service_type.
Proof. destruct ports as [|port ports]; [done|]. by intros [= <-]. Qed.

Lemma at_path_app v steps1 steps2 :
  at_path v (steps1 ++ steps2) = at_path (at_path v steps1) steps2.
Proof. apply fold_left_app. Qed.

(** X13. [build_service_manifest] returns no manifest exactly when the
    port list is empty. Otherwise the Service has one entry per port, in
    the order of the list, each with [port] and [targetPort] equal to the
    port and the name [tcp-<port>]; when the service type is [NodePort]
    the entry number [i] (from 0) has [nodePort] equal to the base plus
    [i], and for any other type it has no [nodePort]. *)
Theorem service_ports_numbered (app namespace : pystr) (ports : list Z)
    (service_type : pystr) (nodeport_base : Z) :
  let result :=
    Render.build_service_manifest app namespace ports service_type nodeport_base in
  (result = None <-> ports = [])
  /\ forall m, result = Some m ->
       at_path m [ Key s!"spec"; Key s!"type" ] = JStr service_type
       /\ exists entries,
            at_path m [ Key s!"spec"; Key s!"ports" ] = JList entries
            /\ length entries = length ports
            /\ forall i port, ports !! i = Some port ->
                 let entry := at_path m [ Key s!"spec"; Key s!"ports"; Index i ] in
                 at_path entry [ Key s!"port" ] = JInt port
                 /\ at_path entry [ Key s!"targetPort" ] = JInt port
                 /\ at_path entry [ Key s!"name" ] = JStr (Render.port_name port)
                 /\ at_path entry [ Key s!"nodePort" ]
                    = if bool_decide (service_type = s!"NodePort")
                      then JInt (nodeport_base + Z.of_nat i) else JNone.
Proof.
  intros result. split; [unfold result; by destruct ports|].
  intros m Hm. destruct (service_manifest_ports _ _ _ _ _ _ Hm) as [Hports Htype].
  split; [done|]. eexists. split; [exact Hports|]. split; [apply length_imap|].
  intros i port Hi entry.
  assert (Hentry : entry = Render.service_port service_type nodeport_base i port).
  { unfold entry.
    change [ Key s!"spec"; Key s!"ports"; Index i ]
      with ([ Key s!"spec"; Key s!"ports" ] ++ [ Index i ]).
    rewrite at_path_app, Hports. unfold at_path. simpl.
    by rewrite list_lookup_imap, Hi. }
  rewrite Hentry. unfold Render.service_port.
  destruct (bool_decide (service_type = s!"NodePort")); by repeat split.
Qed.

Example service_ports_node_port :
  at_path
    (default JNone
       (Render.build_service_manifest s!"app" s!"ns" [ 80; 8080 ]%Z s!"NodePort" 30000))
    [ Key s!"spec"; Key s!"ports" ]
  = JList [ JDict [ (s!"name", JStr s!"tcp-80"); (s!"protocol", JStr s!"TCP");
                    (s!"port", JInt 80); (s!"targetPort", JInt 80);
                    (s!"nodePort", JInt 30000) ];
            JDict [ (s!"name", JStr s!"tcp-8080"); (s!"protocol", JStr s!"TCP");
                    (s!"port", JInt 8080); (s!"targetPort", JInt 8080);
                    (s!"nodePort", JInt 30001) ] ].
Proof. by vm_compute. Qed.

(** ** The Ingress manifest *)

(** X14. [build_ingress_manifest] fails with a [RenderError] when the
    port list is empty. Otherwise the Ingress has one rule, for the host
    [<app>.<domain>], that sends the path [/] to the service [<app>] on
    the first port of the list; it has a [tls] section, for that host and
    the given secret, exactly when a non-empty TLS secret name is
    given. *)
Theorem ingress_routes_first_port (app namespace domain : pystr) (ports : list Z)
    (tls_secret : option pystr) :
  let result := Render.build_ingress_manifest app namespace domain ports tls_secret in
  (ports = [] ->
   result = inl (Render.RenderError s!"Cannot create ingress without exposed ports."))
  /\ forall port rest, ports = port :: rest ->
       exists m,
         result = inr m
         /\ at_path m [ Key s!"spec"; Key s!"rules" ]
            = JList [ at_path m [ Key s!"spec"; Key s!"rules"; Index 0 ] ]
         /\ at_path m [ Key s!"spec"; Key s!"rules"; Index 0; Key s!"host" ]
            = JStr (app ++ s!"." ++ domain)
         /\ at_path m [ Key s!"spec"; Key s!"rules"; Index 0; Key s!"http";
                        Key s!"paths"; Index 0; Key s!"path" ] = JStr s!"/"
         /\ at_path m [ Key s!"spec"; Key s!"rules"; Index 0; Key s!"http";
                        Key s!"paths"; Index 0; Key s!"backend"; Key s!"service" ]
            = JDict [ (s!"name", JStr app);
                      (s!"port", JDict [ (s!"number", JInt port) ]) ]
         /\ at_path m [ Key s!"spec"; Key s!"tls" ]
            = match tls_secret with
              | Some (c :: secret) =>
                  JList [ JDict [ (s!"hosts", JList [ JStr (app ++ s!"." ++ domain) ]);
                                  (s!"secretName", JStr (c :: secret)) ] ]
              | _ => JNone
              end.
Proof.
  intros result. split; [by intros ->|].
  intros port rest ->. unfold result, Render.build_ingress_manifest.
  destruct tls_secret as [[|c secret]|]; eexists; by repeat split.
Qed.

(** ** The Deployment manifest *)

Lemma container_cleaned (a b c : json) (P R E : json) :
  fold_left Render.drop_none [ s!"ports"; s!"resources"; s!"env" ]
    [ (s!"name", a); (s!"image", b); (s!"imagePullPolicy", c);
      (s!"ports", P); (s!"resources", R); (s!"env", E) ]
  = [ (s!"name", a); (s!"image", b); (s!"imagePullPolicy", c) ]
    ++ (if is_none P then [] else [ (s!"ports", P) ])
    ++ (if is_none R then [] else [ (s!"resources", R) ])
    ++ (if is_none E then [] else [ (s!"env", E) ]).
Proof. destruct P, R, E; reflexivity. Qed.

Lemma truthy_or_none (v : json) :
  let kept := if json_truthy v then v else JNone in
  is_none kept = negb (json_truthy v).
Proof. destruct (json_truthy v) eqn:Hv; by destruct v. Qed.

(** X15. The container of the Deployment manifest never holds a [None]
    entry: after [name], [image] and [imagePullPolicy] it has [ports]
    exactly when the port list is not empty, [resources] exactly when the
    resources value is truthy, and [env] exactly when the env value is
    truthy, in that order. *)
Theorem container_has_no_none (app namespace image : pystr) (replicas : Z)
    (resources : json) (ports : list Z) (env : json) :
  exists container,
    container_of (Render.build_deployment_manifest app namespace image replicas
                    resources ports env) = JDict container
    /\ Forall (fun kv => kv.2 <> JNone) container
    /\ map fst container
       = [ s!"name"; s!"image"; s!"imagePullPolicy" ]
         ++ (match ports with [] => [] | _ => [ s!"ports" ] end)
         ++ (if json_truthy resources then [ s!"resources" ] else [])
         ++ (if json_truthy env then [ s!"env" ] else []).
Proof.
  unfold Render.build_deployment_manifest, container_of.
  set (P := match map _ ports with [] => JNone | _ => JList _ end).
  set (R := if json_truthy resources then resources else JNone).
  set (E := if json_truthy env then env else JNone).
  rewrite (container_cleaned (JStr app) (JStr image) (JStr s!"IfNotPresent") P R E).
  assert (HP : is_none P = match ports with [] => true | _ => false end)
    by (by destruct ports).
  pose proof (truthy_or_none resources) as HR. fold R in HR.
  pose proof (truthy_or_none env) as HE. fold E in HE. simpl in HR, HE.
  eexists. split; [reflexivity|].
  assert (Hnone : forall v, is_none v = false -> v <> JNone) by (by intros []).
  rewrite HR, HE, HP.
  destruct ports as [|port ports], (json_truthy resources), (json_truthy env);
    simpl in *; (split; [|reflexivity]);
    repeat (apply Forall_cons_2; [simpl; first [ discriminate | by apply Hnone ]|]);
    apply Forall_nil_2.
Qed.

(** ** Ports declared in whanos.yml *)

Lemma elem_of_insert_sorted (x z : Z) (l : list Z) :
  x ∈ Render.insert_sorted z l <-> x = z \/ x ∈ l.
Proof.
  induction l as [|y l IH]; simpl.
  - rewrite list_elem_of_singleton, elem_of_nil. tauto.
  - destruct (Z.ltb_spec z y); [by rewrite elem_of_cons|].
    destruct (Z.eqb_spec z y) as [->|Hne].
    + rewrite elem_of_cons. tauto.
    + rewrite !elem_of_cons, IH. tauto.
Qed.

Lemma insert_sorted_sorted (z : Z) (l : list Z) :
  StronglySorted Z.lt l -> StronglySorted Z.lt (Render.insert_sorted z l).
Proof.
  induction l as [|y l IH]; intros Hl; simpl.
  - repeat constructor.
  - apply StronglySorted_inv in Hl as [Hl Hy].
    destruct (Z.ltb_spec z y) as [Hlt|Hge].
    + constructor; [by constructor|]. constructor; [done|].
      eapply Forall_impl; [exact Hy|]. simpl. intros; lia.
    + destruct (Z.eqb_spec z y) as [->|Hne]; [by constructor|].
      constructor; [by apply IH|].
      apply List.Forall_forall. intros x Hx. rewrite <- list_elem_of_In in Hx.
      apply elem_of_insert_sorted in Hx as [-> | Hx]; [lia|].
      rewrite List.Forall_forall in Hy. apply Hy. by rewrite <- list_elem_of_In.
Qed.

Lemma sorted_set_spec (l : list Z) :
  StronglySorted Z.lt (Render.sorted_set l)
  /\ forall z, z ∈ Render.sorted_set l <-> z ∈ l.
Proof.
  induction l as [|x l [IHs IHm]]; simpl.
  - split; [constructor | done].
  - split; [by apply insert_sorted_sorted|].
    intros z. rewrite elem_of_insert_sorted, elem_of_cons, IHm. tauto.
Qed.

Lemma int_all_spec (lib : Render.Lib) (raw : list json) (zs : list Z) :
  Render.int_all lib raw = inr zs <->
  Forall2 (fun v z => Render.int_of lib v = inr z) raw zs.
Proof.
  revert zs. induction raw as [|v raw IH]; intros zs; simpl.
  - split; [intros [= <-]; constructor | by intros ->%Forall2_nil_inv_l].
  - destruct (Render.int_of lib v) as [e|z] eqn:Hv.
    + split; [done|]. intros (z & zs' & Hz & _ & _)%Forall2_cons_inv_l. congruence.
    + destruct (Render.int_all lib raw) as [e|zs'] eqn:Hraw.
      * split; [done|]. intros (z' & zs' & _ & Hzs & _)%Forall2_cons_inv_l.
        by apply IH in Hzs.
      * split.
        -- intros [= <-]. constructor; [done|]. by apply IH.
        -- intros (z' & zs'' & Hz & Hzs & ->)%Forall2_cons_inv_l.
           apply IH in Hzs. congruence.
Qed.

(** X16. The ports taken from whanos.yml are the integers its entries
    convert to, in strictly ascending order, each once, whatever their
    order and repetition in the file. When an entry does not convert,
    the first such entry decides: a [TypeError] or [ValueError] becomes
    the [RenderError] "Ports must be numeric.", while an
    [OverflowError] is not caught. *)
Theorem parse_ports_sorted_unique (lib : Render.Lib) (raw : list json) :
  (forall ports, Render.parse_ports lib raw = inr ports ->
     StronglySorted Z.lt ports
     /\ forall z, z ∈ ports <-> exists v, v ∈ raw /\ Render.int_of lib v = inr z)
  /\ (forall good v rest e,
        raw = good ++ v :: rest ->
        Forall (fun g => is_inr (Render.int_of lib g) = true) good ->
        Render.int_of lib v = inl e ->
        Render.parse_ports lib raw
        = match e with
          | Render.IntOverflowError => inl (Render.IntError Render.IntOverflowError)
          | _ => inl (Render.RenderError s!"Ports must be numeric.")
          end).
Proof.
  split.
  - intros ports. unfold Render.parse_ports.
    destruct (Render.int_all lib raw) as [[]|zs] eqn:Hall; try done.
    intros [= <-]. destruct (sorted_set_spec zs) as [Hsorted Hmem].
    split; [done|]. intros z. rewrite Hmem.
    apply int_all_spec in Hall. split.
    + intros Hz. apply list_elem_of_lookup in Hz as [i Hi].
      destruct (Forall2_lookup_r _ _ _ _ _ Hall Hi) as (v & Hv & Hconv).
      exists v. split; [|done]. apply list_elem_of_lookup. eauto.
    + intros (v & Hv & Hconv). apply list_elem_of_lookup in Hv as [i Hi].
      destruct (Forall2_lookup_l _ _ _ _ _ Hall Hi) as (z' & Hz' & Hconv').
      assert (z' = z) as -> by congruence. apply list_elem_of_lookup. eauto.
  - intros good v rest e -> Hgood Hv. unfold Render.parse_ports.
    assert (Hall : Render.int_all lib (good ++ v :: rest) = inl e).
    { induction Hgood as [|g good Hg _ IH]; simpl; [by rewrite Hv|].
      destruct (Render.int_of lib g); [done|]. by rewrite IH. }
    rewrite Hall. by destruct e.
Qed.

Example parse_ports_examples :
  Render.parse_ports lib_ints [ JInt 8080; JInt 80; JBool true; JInt 8080 ]
  = inr [ 1; 80; 8080 ]%Z
  /\ Render.parse_ports lib_ints [ JInt 80; JStr s!"http"; JNone ]
     = inl (Render.RenderError s!"Ports must be numeric.").
Proof. by vm_compute. Qed.

(** ** The list of manifests *)

Lemma render_manifests_shape lib cur p ms :
  Render.render_manifests lib cur p = inr ms ->
  exists config deployment_cfg replicas raw ports,
    Render.load_config lib cur (Render.config_path p) = inr config
    /\ Render.extract_deployment config = inr deployment_cfg
    /\ Render.int_of lib
         (default (JInt 1) (Render.dict_find deployment_cfg s!"replicas")) = inr replicas
    /\ (if json_truthy (dict_get deployment_cfg s!"ports")
        then dict_get deployment_cfg s!"ports" else JList []) = JList raw
    /\ Render.parse_ports lib raw = inr ports
    /\ (Render.expose_mode p = s!"ingress" ->
        Py.opt_truthy (Render.domain p) = true /\ ports <> [])
    /\ ms =
       [ (s!"namespace.yaml",
          Render.ensure_namespace_manifest (Render.namespace p)
            (JDict [ (s!"app.kubernetes.io/managed-by", JStr s!"whanos");
                     (s!"whanos/app", JStr (Render.app p)) ]));
         (s!"deployment.yaml",
          Render.build_deployment_manifest (Render.app p) (Render.namespace p)
            (Render.image p) replicas (dict_get deployment_cfg s!"resources")
            ports JNone) ]
       ++ match Render.build_service_manifest (Render.app p) (Render.namespace p)
                  ports (Render.effective_service_type p) (Render.nodeport_base p) with
          | Some m => [ (s!"service.yaml", m) ]
          | None => []
          end
       ++ (if bool_decide (Render.expose_mode p = s!"ingress") then
             match Render.build_ingress_manifest (Render.app p) (Render.namespace p)
                     (default [] (Render.domain p)) ports (Render.tls_secret p) with
             | inr ingress => [ (s!"ingress.yaml", ingress) ]
             | inl _ => []
             end
           else [])
       ++ [ (s!"role.yaml",
             Render.build_role_manifest (Render.namespace p) (Render.app p));
            (s!"rolebinding.yaml",
             Render.build_role_binding_manifest (Render.namespace p) (Render.app p)
               (Render.deployer_service_account p)) ].
Proof.
  unfold Render.render_manifests, Render.bind_error.
  destruct (Render.load_config lib cur (Render.config_path p)) as [e|config] eqn:Hload;
    [done|].
  destruct (Render.extract_deployment config) as [e|deployment_cfg] eqn:Hextract;
    [done|].
  destruct (Render.int_of lib _) as [e|replicas] eqn:Hreplicas; [done|].
  destruct (if json_truthy (dict_get deployment_cfg s!"ports")
            then dict_get deployment_cfg s!"ports" else JList [])
    as [| | | | |raw|] eqn:Hraw; try done.
  destruct (Render.parse_ports lib raw) as [e|ports] eqn:Hports; [done|].
  intros Hms.
  exists config, deployment_cfg, replicas, raw, ports.
  do 5 (split; [done|]).
  destruct (bool_decide (Render.expose_mode p = s!"ingress")) eqn:Hmode.
  - destruct (Py.opt_truthy (Render.domain p)); simpl in Hms; [|done].
    destruct (Render.build_ingress_manifest _ _ _ ports _) as [e|ingress] eqn:Hing;
      [done|].
    split.
    + intros _. split; [done|]. intros ->. discriminate Hing.
    + injection Hms as <-.
      destruct (Render.build_service_manifest _ _ ports _ _); simpl;
        by rewrite <- ?app_assoc.
  - split; [intros Hm; by apply bool_decide_eq_false in Hmode|].
    injection Hms as <-.
    destruct (Render.build_service_manifest _ _ ports _ _); simpl;
      by rewrite <- ?app_assoc.
Qed.

Lemma second_manifest (a b : pystr * json) (rest : list (pystr * json)) :
  default JNone (snd <$> ([ a; b ] ++ rest) !! 1%nat) = b.2.
Proof. reflexivity. Qed.

Lemma deployment_first_port app namespace image replicas resources ports env :
  at_path (Render.build_deployment_manifest app namespace image replicas resources
             ports env)
    [ Key s!"spec"; Key s!"template"; Key s!"spec"; Key s!"containers"; Index 0;
      Key s!"ports"; Index 0; Key s!"containerPort" ]
  = match ports with [] => JNone | port :: _ => JInt port end.
Proof.
  unfold Render.build_deployment_manifest.
  set (R := if json_truthy resources then resources else JNone).
  set (E := if json_truthy env then env else JNone).
  destruct ports as [|port ports]; cbn [map].
  - rewrite (container_cleaned (JStr app) (JStr image) (JStr s!"IfNotPresent")
               JNone R E).
    by destruct (is_none R), (is_none E).
  - rewrite (container_cleaned (JStr app) (JStr image) (JStr s!"IfNotPresent")
               (JList _) R E).
    reflexivity.
Qed.

(** X17. A successful rendering yields namespace.yaml and
    deployment.yaml, then service.yaml exactly when whanos.yml declares at
    least one port, then ingress.yaml exactly when the exposure mode is
    [ingress], then role.yaml and rolebinding.yaml, in that order and
    with no file name twice; in ingress mode it succeeds only with a
    non-empty domain and at least one port. *)
Theorem render_file_names (lib : Render.Lib) (cur : FS) (p : Render.Params)
    (ms : list (pystr * json)) :
  Render.render_manifests lib cur p = inr ms ->
  exists has_ports : bool,
    map fst ms
    = [ s!"namespace.yaml"; s!"deployment.yaml" ]
      ++ (if has_ports then [ s!"service.yaml" ] else [])
      ++ (if bool_decide (Render.expose_mode p = s!"ingress")
          then [ s!"ingress.yaml" ] else [])
      ++ [ s!"role.yaml"; s!"rolebinding.yaml" ]
    /\ (has_ports = true <->
        exists port,
          at_path (default JNone (snd <$> ms !! 1%nat))
            [ Key s!"spec"; Key s!"template"; Key s!"spec"; Key s!"containers";
              Index 0; Key s!"ports"; Index 0; Key s!"containerPort" ] = JInt port)
    /\ (Render.expose_mode p = s!"ingress" ->
        has_ports = true /\ Py.opt_truthy (Render.domain p) = true)
    /\ NoDup (map fst ms).
Proof.
  intros Hms.
  destruct (render_manifests_shape _ _ _ _ Hms)
    as (config & cfg & replicas & raw & ports & _ & _ & _ & _ & _ & Hingress & ->).
  exists (match ports with [] => false | _ => true end).
  assert (Hnames :
    map fst
      ([ (s!"namespace.yaml",
          Render.ensure_namespace_manifest (Render.namespace p)
            (JDict [ (s!"app.kubernetes.io/managed-by", JStr s!"whanos");
                     (s!"whanos/app", JStr (Render.app p)) ]));
         (s!"deployment.yaml",
          Render.build_deployment_manifest (Render.app p) (Render.namespace p)
            (Render.image p) replicas (dict_get cfg s!"resources") ports JNone) ]
       ++ match Render.build_service_manifest (Render.app p) (Render.namespace p)
                  ports (Render.effective_service_type p) (Render.nodeport_base p) with
          | Some m => [ (s!"service.yaml", m) ]
          | None => []
          end
       ++ (if bool_decide (Render.expose_mode p = s!"ingress") then
             match Render.build_ingress_manifest (Render.app p) (Render.namespace p)
                     (default [] (Render.domain p)) ports (Render.tls_secret p) with
             | inr ingress => [ (s!"ingress.yaml", ingress) ]
             | inl _ => []
             end
           else [])
       ++ [ (s!"role.yaml",
             Render.build_role_manifest (Render.namespace p) (Render.app p));
            (s!"rolebinding.yaml",
             Render.build_role_binding_manifest (Render.namespace p) (Render.app p)
               (Render.deployer_service_account p)) ])
    = [ s!"namespace.yaml"; s!"deployment.yaml" ]
      ++ (if match ports with [] => false | _ => true end
          then [ s!"service.yaml" ] else [])
      ++ (if bool_decide (Render.expose_mode p = s!"ingress")
          then [ s!"ingress.yaml" ] else [])
      ++ [ s!"role.yaml"; s!"rolebinding.yaml" ]).
  { destruct (bool_decide (Render.expose_mode p = s!"ingress")) eqn:Hmode.
    - apply bool_decide_eq_true in Hmode. destruct (Hingress Hmode) as [_ Hne].
      destruct ports as [|port ports]; [done|]. reflexivity.
    - by destruct ports. }
  split; [exact Hnames|]. split; [|split].
  - rewrite second_manifest. cbn [snd]. rewrite deployment_first_port.
    destruct ports as [|port ports].
    + split; [done|]. intros [port Hport]. discriminate Hport.
    + split; [|done]. intros _. by exists port.
  - intros Hmode. destruct (Hingress Hmode) as [Hdomain Hne].
    split; [by destruct ports | done].
  - rewrite Hnames.
    destruct ports, (bool_decide (Render.expose_mode p = s!"ingress")); simpl;
      apply NoDup_ListNoDup; repeat constructor;
      rewrite <- list_elem_of_In; intros Hin;
      repeat (apply elem_of_cons in Hin as [Heq | Hin]; [discriminate Heq|]);
      by apply elem_of_nil in Hin.
Qed.

Lemma render_file_names_witness :
  exists has_ports : bool,
    map fst manifests_ingress
    = [ s!"namespace.yaml"; s!"deployment.yaml" ]
      ++ (if has_ports then [ s!"service.yaml" ] else [])
      ++ (if bool_decide (Render.expose_mode params_ingress = s!"ingress")
          then [ s!"ingress.yaml" ] else [])
      ++ [ s!"role.yaml"; s!"rolebinding.yaml" ]
    /\ (has_ports = true <->
        exists port,
          at_path (default JNone (snd <$> manifests_ingress !! 1%nat))
            [ Key s!"spec"; Key s!"template"; Key s!"spec"; Key s!"containers";
              Index 0; Key s!"ports"; Index 0; Key s!"containerPort" ] = JInt port)
    /\ (Render.expose_mode params_ingress = s!"ingress" ->
        has_ports = true /\ Py.opt_truthy (Render.domain params_ingress) = true)
    /\ NoDup (map fst manifests_ingress).
Proof.
  apply (render_file_names (lib_loading doc_two_ports) fs_whanos params_ingress
           manifests_ingress).
  vm_compute. reflexivity.
Defined.

Example render_file_names_ingress :
  map fst manifests_ingress
  = [ s!"namespace.yaml"; s!"deployment.yaml"; s!"service.yaml"; s!"ingress.yaml";
      s!"role.yaml"; s!"rolebinding.yaml" ].
Proof. by vm_compute. Qed.

(** ** Ports in the Deployment and in the Service *)

Lemma deployment_container_port app namespace image replicas resources ports env i :
  at_path (Render.build_deployment_manifest app namespace image replicas resources
             ports env)
    [ Key s!"spec"; Key s!"template"; Key s!"spec"; Key s!"containers"; Index 0;
      Key s!"ports"; Index i; Key s!"containerPort" ]
  = match ports !! i with Some port => JInt port | None => JNone end.
Proof.
  unfold Render.build_deployment_manifest.
  set (R := if json_truthy resources then resources else JNone).
  set (E := if json_truthy env then env else JNone).
  destruct ports as [|port ports]; cbn [map].
  - rewrite (container_cleaned (JStr app) (JStr image) (JStr s!"IfNotPresent")
               JNone R E).
    by destruct (is_none R), (is_none E).
  - rewrite (container_cleaned (JStr app) (JStr image) (JStr s!"IfNotPresent")
               (JList _) R E).
    set (f := fun port0 : Z => JDict [ (s!"containerPort", JInt port0);
                                       (s!"name", JStr (Render.port_name port0)) ]).
    change (at_path (default JNone ((f port :: map f ports) !! i))
              [ Key s!"containerPort" ]
            = match (port :: ports) !! i with Some p => JInt p | None => JNone end).
    change (f port :: map f ports) with (f <$> port :: ports).
    rewrite list_lookup_fmap. by destruct ((port :: ports) !! i).
Qed.

Lemma effective_service_type_nodeport p :
  Render.expose_mode p = s!"nodeport" ->
  Render.effective_service_type p = s!"NodePort".
Proof.
  intros Hmode. unfold Render.effective_service_type.
  rewrite (bool_decide_eq_true_2 _ Hmode). simpl.
  destruct (bool_decide (Render.service_type p = s!"NodePort")) eqn:Htype; [|done].
  by apply bool_decide_eq_true in Htype.
Qed.

Lemma parse_ports_sorted lib raw ports :
  Render.parse_ports lib raw = inr ports -> StronglySorted Z.lt ports.
Proof.
  unfold Render.parse_ports.
  destruct (Render.int_all lib raw) as [[]|zs]; try done.
  intros [= <-]. apply sorted_set_spec.
Qed.

Lemma service_entry app namespace ports service_type nodeport_base m i port :
  Render.build_service_manifest app namespace ports service_type nodeport_base = Some m ->
  ports !! i = Some port ->
  at_path m [ Key s!"spec"; Key s!"ports"; Index i ]
  = Render.service_port service_type nodeport_base i port.
Proof.
  intros Hm Hi. destruct (service_manifest_ports _ _ _ _ _ _ Hm) as [Hports _].
  change [ Key s!"spec"; Key s!"ports"; Index i ]
    with ([ Key s!"spec"; Key s!"ports" ] ++ [ Index i ]).
  rewrite at_path_app, Hports. unfold at_path. simpl.
  by rewrite list_lookup_imap, Hi.
Qed.

Lemma deployment_ports app namespace image replicas resources ports env :
  at_path (Render.build_deployment_manifest app namespace image replicas resources
             ports env)
    [ Key s!"spec"; Key s!"template"; Key s!"spec"; Key s!"containers"; Index 0;
      Key s!"ports" ]
  = match ports with
    | [] => JNone
    | _ =>
        JList (map (fun port => JDict [ (s!"containerPort", JInt port);
                                        (s!"name", JStr (Render.port_name port)) ])
                 ports)
    end.
Proof.
  unfold Render.build_deployment_manifest.
  set (R := if json_truthy resources then resources else JNone).
  set (E := if json_truthy env then env else JNone).
  destruct ports as [|port ports]; cbn [map].
  - rewrite (container_cleaned (JStr app) (JStr image) (JStr s!"IfNotPresent")
               JNone R E).
    by destruct (is_none R), (is_none E).
  - rewrite (container_cleaned (JStr app) (JStr image) (JStr s!"IfNotPresent")
               (JList _) R E).
    reflexivity.
Qed.

(** X18. In a successful rendering the Deployment and the Service list
    the same ports at the same positions, in strictly ascending order:
    the container ports of the Deployment are exactly the entries
    [containerPort], [name] of a sorted list of ports, absent when the
    list is empty; there is a Service exactly when the list is not
    empty, its ports are as many, and entry [i] of either carries the
    same number. The Service has the effective type, which is [NodePort]
    under the exposure mode [nodeport] whatever type was asked for, and
    entry [i] then gets the node port base plus [i]. *)
Theorem render_ports_consistent (lib : Render.Lib) (cur : FS) (p : Render.Params)
    (ms : list (pystr * json)) :
  Render.render_manifests lib cur p = inr ms ->
  let deployment := default JNone (snd <$> ms !! 1%nat) in
  exists ports,
    StronglySorted Z.lt ports
    /\ at_path deployment
         [ Key s!"spec"; Key s!"template"; Key s!"spec"; Key s!"containers";
           Index 0; Key s!"ports" ]
       = match ports with
         | [] => JNone
         | _ =>
             JList (map (fun port =>
                           JDict [ (s!"containerPort", JInt port);
                                   (s!"name", JStr (Render.port_name port)) ])
                      ports)
         end
    /\ (ports = [] -> Forall (fun m : pystr * json => m.1 <> s!"service.yaml") ms)
    /\ (ports <> [] ->
        exists service entries,
          ms !! 2%nat = Some (s!"service.yaml", service)
          /\ at_path service [ Key s!"spec"; Key s!"type" ]
             = JStr (Render.effective_service_type p)
          /\ (Render.expose_mode p = s!"nodeport" ->
              at_path service [ Key s!"spec"; Key s!"type" ] = JStr s!"NodePort")
          /\ at_path service [ Key s!"spec"; Key s!"ports" ] = JList entries
          /\ length entries = length ports
          /\ forall i port, ports !! i = Some port ->
               at_path deployment
                 [ Key s!"spec"; Key s!"template"; Key s!"spec"; Key s!"containers";
                   Index 0; Key s!"ports"; Index i; Key s!"containerPort" ]
               = JInt port
               /\ at_path service
                    [ Key s!"spec"; Key s!"ports"; Index i; Key s!"port" ]
                  = JInt port
               /\ (Render.expose_mode p = s!"nodeport" ->
                   at_path service
                     [ Key s!"spec"; Key s!"ports"; Index i; Key s!"nodePort" ]
                   = JInt (Render.nodeport_base p + Z.of_nat i))).
Proof.
  intros Hms deployment. unfold deployment.
  destruct (render_manifests_shape _ _ _ _ Hms)
    as (config & cfg & replicas & raw & ports & _ & _ & _ & _ & Hports & Hingress & ->).
  exists ports. split; [by eapply parse_ports_sorted|].
  rewrite second_manifest. cbn [snd].
  split; [apply deployment_ports|]. split.
  - intros ->. cbn [Render.build_service_manifest].
    destruct (bool_decide (Render.expose_mode p = s!"ingress")) eqn:Hmode.
    + apply bool_decide_eq_true in Hmode. by destruct (Hingress Hmode) as [_ []].
    + cbn [app]. repeat (apply Forall_cons_2; [cbn [fst]; discriminate|]).
      apply Forall_nil_2.
  - intros Hne.
    destruct (Render.build_service_manifest (Render.app p) (Render.namespace p) ports
                (Render.effective_service_type p) (Render.nodeport_base p))
      as [service|] eqn:Hservice; [|by destruct ports].
    destruct (service_manifest_ports _ _ _ _ _ _ Hservice) as [Hentries Htype].
    exists service. eexists. split; [reflexivity|]. split; [exact Htype|].
    split; [intros Hmode; by rewrite Htype, (effective_service_type_nodeport p Hmode)|].
    split; [exact Hentries|]. split; [apply length_imap|].
    intros i port Hi.
    split; [by rewrite deployment_container_port, Hi|].
    pose proof (service_entry _ _ _ _ _ _ _ _ Hservice Hi) as Hentry.
    assert (Hstep : forall key,
      at_path service [ Key s!"spec"; Key s!"ports"; Index i; Key key ]
      = at_path (Render.service_port (Render.effective_service_type p)
                   (Render.nodeport_base p) i port) [ Key key ]).
    { intros key.
      change [ Key s!"spec"; Key s!"ports"; Index i; Key key ]
        with ([ Key s!"spec"; Key s!"ports"; Index i ] ++ [ Key key ]).
      by rewrite at_path_app, Hentry. }
    split.
    + rewrite Hstep. unfold Render.service_port.
      by destruct (bool_decide (Render.effective_service_type p = s!"NodePort")).
    + intros Hmode. rewrite Hstep.
      by rewrite (effective_service_type_nodeport p Hmode).
Qed.

Lemma render_ports_consistent_witness :
  let deployment := default JNone (snd <$> manifests_nodeport !! 1%nat) in
  exists ports,
    StronglySorted Z.lt ports
    /\ at_path deployment
         [ Key s!"spec"; Key s!"template"; Key s!"spec"; Key s!"containers";
           Index 0; Key s!"ports" ]
       = match ports with
         | [] => JNone
         | _ =>
             JList (map (fun port =>
                           JDict [ (s!"containerPort", JInt port);
                                   (s!"name", JStr (Render.port_name port)) ])
                      ports)
         end
    /\ (ports = [] ->
        Forall (fun m : pystr * json => m.1 <> s!"service.yaml") manifests_nodeport)
    /\ (ports <> [] ->
        exists service entries,
          manifests_nodeport !! 2%nat = Some (s!"service.yaml", service)
          /\ at_path service [ Key s!"spec"; Key s!"type" ]
             = JStr (Render.effective_service_type params_nodeport)
          /\ (Render.expose_mode params_nodeport = s!"nodeport" ->
              at_path service [ Key s!"spec"; Key s!"type" ] = JStr s!"NodePort")
          /\ at_path service [ Key s!"spec"; Key s!"ports" ] = JList entries
          /\ length entries = length ports
          /\ forall i port, ports !! i = Some port ->
               at_path deployment
                 [ Key s!"spec"; Key s!"template"; Key s!"spec"; Key s!"containers";
                   Index 0; Key s!"ports"; Index i; Key s!"containerPort" ]
               = JInt port
               /\ at_path service
                    [ Key s!"spec"; Key s!"ports"; Index i; Key s!"port" ]
                  = JInt port
               /\ (Render.expose_mode params_nodeport = s!"nodeport" ->
                   at_path service
                     [ Key s!"spec"; Key s!"ports"; Index i; Key s!"nodePort" ]
                   = JInt (Render.nodeport_base params_nodeport + Z.of_nat i))).
Proof.
  apply (render_ports_consistent (lib_loading doc_two_ports) fs_whanos params_nodeport
           manifests_nodeport).
  vm_compute. reflexivity.
Defined.

(** The ports of the two manifests for ports 8080, 80 and 8080 again. *)
Example render_nodeport_deployment_ports :
  at_path (default JNone (snd <$> manifests_nodeport !! 1%nat))
    [ Key s!"spec"; Key s!"template"; Key s!"spec"; Key s!"containers"; Index 0;
      Key s!"ports" ]
  = JList [ JDict [ (s!"containerPort", JInt 80); (s!"name", JStr s!"tcp-80") ];
            JDict [ (s!"containerPort", JInt 8080); (s!"name", JStr s!"tcp-8080") ] ].
Proof. by vm_compute. Qed.

Example render_nodeport_service :
  at_path (default JNone (snd <$> manifests_nodeport !! 2%nat))
    [ Key s!"spec" ]
  = JDict
      [ (s!"selector", JDict [ (s!"app.kubernetes.io/name", JStr s!"app") ]);
        (s!"type", JStr s!"NodePort");
        (s!"ports",
         JList [ JDict [ (s!"name", JStr s!"tcp-80"); (s!"protocol", JStr s!"TCP");
                         (s!"port", JInt 80); (s!"targetPort", JInt 80);
                         (s!"nodePort", JInt 30000) ];
                 JDict [ (s!"name", JStr s!"tcp-8080"); (s!"protocol", JStr s!"TCP");
                         (s!"port", JInt 8080); (s!"targetPort", JInt 8080);
                         (s!"nodePort", JInt 30001) ] ]) ].
Proof. by vm_compute. Qed.

(** ** Errors of the rendering *)

(** X19. The replica count is converted before the ports are looked at,
    outside any handler: when whanos.yml loads and has a deployment
    mapping whose [replicas] value [int] rejects, the rendering ends with
    that raw exception of [int], not with a [RenderError], whatever the
    ports are; a missing [replicas] key counts as 1 and never fails for
    an [int] that accepts 1. *)
Theorem replicas_error_not_wrapped (lib : Render.Lib) (cur : FS) (p : Render.Params)
    (config deployment_cfg : list (pystr * json)) :
  Render.load_config lib cur (Render.config_path p) = inr config ->
  Render.extract_deployment config = inr deployment_cfg ->
  (forall v e,
     Render.dict_find deployment_cfg s!"replicas" = Some v ->
     Render.int_of lib v = inl e ->
     Render.render_manifests lib cur p = inl (Render.IntError e))
  /\ (Render.dict_find deployment_cfg s!"replicas" = None ->
      Render.int_of lib (JInt 1) = inr 1%Z ->
      forall ms, Render.render_manifests lib cur p = inr ms ->
        at_path (default JNone (snd <$> ms !! 1%nat)) [ Key s!"spec"; Key s!"replicas" ]
        = JInt 1).
Proof.
  intros Hload Hextract. split.
  - intros v e Hfind Hint. unfold Render.render_manifests, Render.bind_error.
    rewrite Hload, Hextract, Hfind.
    change (default (JInt 1) (Some v)) with v. by rewrite Hint.
  - intros Hfind Hone ms Hms.
    destruct (render_manifests_shape _ _ _ _ Hms)
      as (config' & cfg' & replicas & raw & ports & Hload' & Hextract' & Hrep & _
          & _ & _ & ->).
    assert (config' = config) as -> by congruence.
    assert (cfg' = deployment_cfg) as -> by congruence.
    rewrite Hfind in Hrep. change (default (JInt 1) None) with (JInt 1) in Hrep.
    rewrite Hone in Hrep.
    injection Hrep as <-. by rewrite second_manifest.
Qed.

Lemma replicas_error_not_wrapped_witness :
  Render.render_manifests (lib_loading doc_bad_replicas) fs_whanos params_ingress
  = inl (Render.IntError Render.IntValueError).
Proof.
  apply (proj1 (replicas_error_not_wrapped (lib_loading doc_bad_replicas) fs_whanos
                  params_ingress
                  [ (s!"deployment", JDict [ (s!"replicas", JStr s!"many") ]) ]
                  [ (s!"replicas", JStr s!"many") ]
                  ltac:(vm_compute; reflexivity) ltac:(vm_compute; reflexivity))
           (JStr s!"many") Render.IntValueError);
    vm_compute; reflexivity.
Defined.

Example bad_port_is_wrapped :
  Render.render_manifests (lib_loading doc_bad_port) fs_whanos params_ingress
  = inl (Render.RenderError s!"Ports must be numeric.").
Proof. by vm_compute. Qed.

(** X20. The configuration errors of the rendering. A path that does
    not resolve to anything (a dangling link included) gives
    "Configuration file not found"; an empty document counts as an empty
    mapping and, like a mapping without a [deployment] key or with a null
    one, gives "'deployment' section missing"; a non-empty document that
    is not a mapping gives "must contain a mapping at the root"; and a
    [deployment] that is neither null nor a mapping gives "'deployment'
    must be a mapping". *)
Theorem render_configuration_errors (lib : Render.Lib) (cur : FS) (p : Render.Params) :
  let result := Render.render_manifests lib cur p in
  (exists_ cur (Render.config_path p) = inr false ->
   result = inl (Render.RenderError
                   (s!"Configuration file not found: "
                    ++ path_str (Render.config_path p))))
  /\ forall text loaded,
       read_text cur (Render.config_path p) = inr text ->
       Render.safe_load lib text = Some loaded ->
       (json_truthy loaded = false ->
        result = inl (Render.RenderError
          s!"'deployment' section missing in whanos.yml. Nothing to render."))
       /\ (json_truthy loaded = true -> (forall items, loaded <> JDict items) ->
           result = inl (Render.RenderError
             s!"whanos.yml must contain a mapping at the root."))
       /\ (forall items, loaded = JDict items ->
           dict_get items s!"deployment" = JNone ->
           result = inl (Render.RenderError
             s!"'deployment' section missing in whanos.yml. Nothing to render."))
       /\ (forall items, loaded = JDict items ->
           dict_get items s!"deployment" <> JNone ->
           (forall d, dict_get items s!"deployment" <> JDict d) ->
           result = inl (Render.RenderError
             s!"'deployment' must be a mapping in whanos.yml.")).
Proof.
  intros result. unfold result, Render.render_manifests, Render.bind_error,
    Render.load_config.
  split; [by intros ->|].
  intros text loaded Hread Hload.
  rewrite (read_text_exists _ _ _ Hread), Hread, Hload. cbn [negb].
  split; [|split; [|split]].
  - by intros ->.
  - intros -> Hnot. destruct loaded; try done. by destruct (Hnot items).
  - intros items -> Hnone.
    destruct items as [|item items]; [done|]. cbn [json_truthy].
    unfold Render.extract_deployment. by rewrite Hnone.
  - intros items -> Hsome Hnot.
    destruct items as [|item items]; [done|]. cbn [json_truthy].
    unfold Render.extract_deployment.
    destruct (dict_get (item :: items) s!"deployment") as [| | | | | |d]; try done.
    by destruct (Hnot d).
Qed.

Lemma render_configuration_errors_witness :
  Render.render_manifests (lib_loading JNone) fs_whanos params_ingress
  = inl (Render.RenderError
           s!"'deployment' section missing in whanos.yml. Nothing to render.")
  /\ Render.render_manifests (lib_loading (JList [ JInt 1 ])) fs_whanos params_ingress
     = inl (Render.RenderError s!"whanos.yml must contain a mapping at the root.")
  /\ Render.render_manifests lib_ints fs_bare params_ingress
     = inl (Render.RenderError
              (s!"Configuration file not found: "
               ++ path_str (Render.config_path params_ingress))).
Proof.
  split; [|split].
  - apply (proj1 (proj2 (render_configuration_errors (lib_loading JNone) fs_whanos
                           params_ingress) s!"deployment: ..." JNone
                    ltac:(vm_compute; reflexivity) ltac:(reflexivity))).
    reflexivity.
  - apply (proj1 (proj2 (proj2 (render_configuration_errors
                                  (lib_loading (JList [ JInt 1 ])) fs_whanos
                                  params_ingress) s!"deployment: ..." (JList [ JInt 1 ])
                           ltac:(vm_compute; reflexivity) ltac:(reflexivity))));
      [reflexivity | discriminate].
  - apply (proj1 (render_configuration_errors lib_ints fs_bare params_ingress)).
    vm_compute. reflexivity.
Defined.

Lemma parse_ports_sorted_unique_witness :
  (StronglySorted Z.lt [ 1; 80; 8080 ]%Z
   /\ forall z, z ∈ [ 1; 80; 8080 ]%Z <->
        exists v, v ∈ [ JInt 8080; JInt 80; JBool true; JInt 8080 ]
                  /\ Render.int_of lib_ints v = inr z)
  /\ Render.parse_ports lib_ints [ JInt 80; JStr s!"http"; JNone ]
     = inl (Render.RenderError s!"Ports must be numeric.").
Proof.
  split.
  - apply (proj1 (parse_ports_sorted_unique lib_ints
                    [ JInt 8080; JInt 80; JBool true; JInt 8080 ])).
    vm_compute. reflexivity.
  - apply (proj2 (parse_ports_sorted_unique lib_ints
                    [ JInt 80; JStr s!"http"; JNone ])
             [ JInt 80 ] (JStr s!"http") [ JNone ] Render.IntValueError);
      [reflexivity | by repeat constructor | reflexivity].
Defined.

Lemma ingress_routes_first_port_witness :
  exists m,
    Render.build_ingress_manifest s!"app" s!"ns" s!"apps.example.com" [ 80; 8080 ]%Z
      (Some s!"app-tls") = inr m
    /\ at_path m [ Key s!"spec"; Key s!"rules" ]
       = JList [ at_path m [ Key s!"spec"; Key s!"rules"; Index 0 ] ]
    /\ at_path m [ Key s!"spec"; Key s!"rules"; Index 0; Key s!"host" ]
       = JStr (s!"app" ++ s!"." ++ s!"apps.example.com")
    /\ at_path m [ Key s!"spec"; Key s!"rules"; Index 0; Key s!"http";
                   Key s!"paths"; Index 0; Key s!"path" ] = JStr s!"/"
    /\ at_path m [ Key s!"spec"; Key s!"rules"; Index 0; Key s!"http";
                   Key s!"paths"; Index 0; Key s!"backend"; Key s!"service" ]
       = JDict [ (s!"name", JStr s!"app");
                 (s!"port", JDict [ (s!"number", JInt 80) ]) ]
    /\ at_path m [ Key s!"spec"; Key s!"tls" ]
       = match Some s!"app-tls" with
         | Some (c :: secret) =>
             JList [ JDict [ (s!"hosts",
                              JList [ JStr (s!"app" ++ s!"." ++ s!"apps.example.com") ]);
                             (s!"secretName", JStr (c :: secret)) ] ]
         | _ => JNone
         end.
Proof.
  apply (proj2 (ingress_routes_first_port s!"app" s!"ns" s!"apps.example.com"
                  [ 80; 8080 ]%Z (Some s!"app-tls")) 80%Z [ 8080%Z ]).
  reflexivity.
Defined.
